(** * ODS tracker: snapshot diffing and relationship resolution

    A shallow embedding of the change-tracking core of the ODS tracker
    ([track_changes.py], [utils.py]) together with the two reporting paths
    that resolve the current PCN of a practice ([download_data.py],
    [main.py]).

    The program manipulates the values produced by [json.load]: [None],
    booleans, integers, floats, strings, lists and dicts.  They are
    modelled by the type [json] below.  A dict is an insertion-ordered
    association list and a key is looked up at its first occurrence.
    Python exceptions are modelled by the [result] monad. *)

From Stdlib Require Import ZArith String Ascii List Bool Lia.
From stdpp Require Import base list strings.

Local Open Scope string_scope.
Local Open Scope Z_scope.
Local Open Scope list_scope.

(** ** Python values loaded from JSON *)

(** A float: [json.load] reads [NaN], [Infinity] and [-Infinity] besides
    the finite values.  A finite float is given by the dyadic rational
    [m * 2 ^ e] that it denotes; the sign of zero is left out. *)
Inductive float : Type :=
| NaN
| Inf (negative : bool)
| Finite (m e : Z).

(** A JSON number is loaded as an [int] or as a [float]. *)
Inductive number : Type :=
| Int (n : Z)
| Float (x : float).

Local Unset Elimination Schemes.
Inductive json : Type :=
| JNull
| JBool (b : bool)
| JNum (n : number)
| JStr (s : string)
| JList (l : list json)
| JObj (kvs : list (string * json)).
Local Set Elimination Schemes.

(** Induction principle that reaches the elements of lists and the values
    of dicts. *)
Section json_induction.
Variable P : json → Prop.
Hypothesis HNull : P JNull.
Hypothesis HBool : ∀ b, P (JBool b).
Hypothesis HNum : ∀ n, P (JNum n).
Hypothesis HStr : ∀ s, P (JStr s).
Hypothesis HList : ∀ l, Forall P l → P (JList l).
Hypothesis HObj : ∀ kvs, Forall (λ kv, P (snd kv)) kvs → P (JObj kvs).

Fixpoint json_ind' (j : json) : P j :=
  match j with
  | JNull => HNull
  | JBool b => HBool b
  | JNum n => HNum n
  | JStr s => HStr s
  | JList l =>
      HList l ((fix go (l : list json) : Forall P l :=
                  match l with
                  | [] => List.Forall_nil P
                  | x :: l' => List.Forall_cons P x l' (json_ind' x) (go l')
                  end) l)
  | JObj kvs =>
      HObj kvs ((fix go (l : list (string * json))
                   : Forall (λ kv, P (snd kv)) l :=
                   match l with
                   | [] => List.Forall_nil _
                   | kv :: l' =>
                       List.Forall_cons _ kv l' (json_ind' (snd kv)) (go l')
                   end) kvs)
  end.
End json_induction.

(** ** Exceptions *)

Inductive exn : Type :=
| AttributeError
| TypeError
| KeyError
| OtherError.  (* any other exception *)

Inductive result (A : Type) : Type :=
| Ok (a : A)
| Raise (e : exn).
Arguments Ok {A} a.
Arguments Raise {A} e.

Definition bind {A B} (m : result A) (k : A → result B) : result B :=
  match m with
  | Ok a => k a
  | Raise e => Raise e
  end.

Notation "'let*' x := m 'in' k" := (bind m (λ x, k))
  (at level 10, x name, m at level 100, k at level 200,
   format "'[v' 'let*'  x  :=  m  'in' '/' k ']'").

(** [try: ... except Exception: return d] *)
Definition try_except {A} (m : result A) (d : A) : A :=
  match m with
  | Ok a => a
  | Raise _ => d
  end.

(** ** Dicts as association lists *)

Fixpoint assoc {A} (k : string) (kvs : list (string * A)) : option A :=
  match kvs with
  | [] => None
  | (k', v) :: rest => if String.eqb k k' then Some v else assoc k rest
  end.

Definition keys {A} (kvs : list (string * A)) : list string := map fst kvs.

(** The entries of a dict in insertion order: an entry whose key occurred
    before is shadowed.  A dict built by [json.load] has no such entry. *)
Fixpoint items_from {A} (seen : list string) (kvs : list (string * A))
    : list (string * A) :=
  match kvs with
  | [] => []
  | (k, v) :: rest =>
      if bool_decide (k ∈ seen) then items_from seen rest
      else (k, v) :: items_from (k :: seen) rest
  end.

Definition items {A} (kvs : list (string * A)) : list (string * A) :=
  items_from [] kvs.

(** [d[k] = v] on a dict that has the key [k]. *)
Fixpoint set_key {A} (k : string) (v : A) (kvs : list (string * A))
    : list (string * A) :=
  match kvs with
  | [] => [(k, v)]
  | (k', v') :: rest =>
      if String.eqb k k' then (k, v) :: rest else (k', v') :: set_key k v rest
  end.

(** ** Numbers

    Python compares [int] and [float] values by the numbers they denote;
    every comparison with NaN is false, also of NaN with itself. *)

Definition float_of (n : number) : float :=
  match n with
  | Int z => Finite z 0
  | Float x => x
  end.

(** The order of two floats, [None] when one of them is NaN. *)
Definition float_compare (x y : float) : option comparison :=
  match x, y with
  | NaN, _ | _, NaN => None
  | Inf a, Inf b =>
      Some (if a then (if b then Eq else Lt) else (if b then Gt else Eq))
  | Inf a, Finite _ _ => Some (if a then Lt else Gt)
  | Finite _ _, Inf b => Some (if b then Gt else Lt)
  | Finite m1 e1, Finite m2 e2 =>
      let e := Z.min e1 e2 in
      Some (Z.compare (m1 * 2 ^ (e1 - e)) (m2 * 2 ^ (e2 - e)))
  end.

(** [a == b] and [a < b] on numbers. *)
Definition num_eqb (a b : number) : bool :=
  match float_compare (float_of a) (float_of b) with
  | Some Eq => true
  | _ => false
  end.

Definition num_ltb (a b : number) : bool :=
  match float_compare (float_of a) (float_of b) with
  | Some Lt => true
  | _ => false
  end.

(** ** Python primitives on JSON values *)

(** Truth value testing: [None], [False], [0], [""], [[]] and [{}] are
    false. *)
Definition truthy (v : json) : bool :=
  match v with
  | JNull => false
  | JBool b => b
  | JNum n => negb (num_eqb n (Int 0))
  | JStr s => negb (String.eqb s "")
  | JList l => match l with [] => false | _ => true end
  | JObj kvs => match kvs with [] => false | _ => true end
  end.

(** [a or b] *)
Definition py_or (a b : json) : json := if truthy a then a else b.

(** [o.get(k, d)]: only dicts have a [get] method. *)
Definition get (o : json) (k : string) (d : json) : result json :=
  match o with
  | JObj kvs => Ok (default d (assoc k kvs))
  | _ => Raise AttributeError
  end.

(** [o.get(k, d)] where the key is itself a loaded value: lists and dicts
    are unhashable, and [None], booleans and numbers never equal a string
    key. *)
Definition get_key (o : json) (k : json) (d : json) : result json :=
  match o with
  | JObj kvs =>
      match k with
      | JStr s => Ok (default d (assoc s kvs))
      | JList _ | JObj _ => Raise TypeError
      | _ => Ok d
      end
  | _ => Raise AttributeError
  end.

(** [o[k]] with a string key. *)
Definition subscript (o : json) (k : string) : result json :=
  match o with
  | JObj kvs =>
      match assoc k kvs with
      | Some v => Ok v
      | None => Raise KeyError
      end
  | _ => Raise TypeError
  end.

Definition chars (s : string) : list json :=
  map (λ c, JStr (String c EmptyString)) (list_ascii_of_string s).

(** [for x in v]: a list yields its elements, a dict its keys and a string
    its characters; nothing else is iterable. *)
Definition py_iter (v : json) : result (list json) :=
  match v with
  | JList l => Ok l
  | JObj kvs => Ok (map JStr (keys (items kvs)))
  | JStr s => Ok (chars s)
  | _ => Raise TypeError
  end.

(** [len(v)] *)
Definition py_len (v : json) : result nat :=
  match v with
  | JList l => Ok (length l)
  | JObj kvs => Ok (length (items kvs))
  | JStr s => Ok (String.length s)
  | _ => Raise TypeError
  end.

Definition isinstance_dict (v : json) : bool :=
  match v with JObj _ => true | _ => false end.

(** Numeric value of booleans and numbers ([True == 1]). *)
Definition num_of (v : json) : option number :=
  match v with
  | JBool b => Some (Int (Z.b2z b))
  | JNum n => Some n
  | _ => None
  end.

(** [a == b] for two values held in distinct objects, as the values of two
    loaded snapshots are.  Lists are compared element-wise; dicts are equal
    when they have the same keys with equal values, whatever the order.
    (On the items of containers Python takes an identical object for an
    equal one, which makes a difference for NaN only.) *)
Fixpoint py_eq (a b : json) : bool :=
  match a with
  | JNull => match b with JNull => true | _ => false end
  | JBool x =>
      match num_of b with
      | Some n => num_eqb (Int (Z.b2z x)) n
      | None => false
      end
  | JNum x =>
      match num_of b with Some n => num_eqb x n | None => false end
  | JStr s => match b with JStr t => String.eqb s t | _ => false end
  | JList l =>
      match b with
      | JList m =>
          (fix go (l m : list json) : bool :=
             match l, m with
             | [], [] => true
             | x :: l', y :: m' => py_eq x y && go l' m'
             | _, _ => false
             end) l m
      | _ => false
      end
  | JObj kvs =>
      match b with
      | JObj kvs' =>
          (fix go (seen : list string) (l : list (string * json)) : bool :=
             match l with
             | [] => true
             | (k, v) :: l' =>
                 (if bool_decide (k ∈ seen) then true
                  else match assoc k kvs' with
                       | Some v' => py_eq v v'
                       | None => false
                       end)
                 && go (k :: seen) l'
             end) [] kvs
          && forallb (λ k, bool_decide (k ∈ keys kvs)) (keys kvs')
      | _ => false
      end
  end.

Definition py_ne (a b : json) : bool := negb (py_eq a b).

(** [any(f(x) for x in l)]: stops at the first true element; an exception
    raised by [f] propagates. *)
Fixpoint py_any {A} (f : A → result bool) (l : list A) : result bool :=
  match l with
  | [] => Ok false
  | x :: l' =>
      let* b := f x in
      if b then Ok true else py_any f l'
  end.

(** ** track_changes.py: [get_current_pcn] *)

Definition empty_dict : json := JObj [].
Definition empty_list : json := JList [].

(** The condition of the [if] in the loop of [get_current_pcn]; [and]
    evaluates its operands from left to right and stops at the first false
    one. *)
Definition is_current_pcn_rel (rel : json) : result bool :=
  let* target := get rel "Target" empty_dict in
  let* prid := get target "PrimaryRoleId" empty_dict in
  let* rid := get prid "id" JNull in
  if negb (py_eq rid (JStr "RO272")) then Ok false else
  let* status := get rel "Status" JNull in
  if negb (py_eq status (JStr "Active")) then Ok false else
  let* dates := get rel "Date" empty_list in
  let* ds := py_iter dates in
  let* ended :=
    py_any (λ d, let* e := get d "End" JNull in Ok (truthy e)) ds in
  Ok (negb ended).

(** [rel.get("Target", {}).get("OrgId", {}).get("extension")] *)
Definition target_extension (rel : json) : result json :=
  let* target := get rel "Target" empty_dict in
  let* orgid := get target "OrgId" empty_dict in
  get orgid "extension" JNull.

(** The [for rel in rels] loop: returns at the first relationship that
    satisfies the condition. *)
Fixpoint first_current_pcn (rels : list json) : result json :=
  match rels with
  | [] => Ok JNull
  | rel :: rest =>
      let* c := is_current_pcn_rel rel in
      if c then target_extension rel else first_current_pcn rest
  end.

(** [rels = org_data.get("Rels", {}).get("Rel", [])], wrapped in a list
    when it is not one. *)
Definition rels_of (org_data : json) : result (list json) :=
  let* rels_obj := get org_data "Rels" empty_dict in
  let* rels := get rels_obj "Rel" empty_list in
  Ok (match rels with JList l => l | _ => [rels] end).

Definition get_current_pcn_body (org_data : json) : result json :=
  let* rels := rels_of org_data in
  first_current_pcn rels.

Definition get_current_pcn (org_data : json) : json :=
  try_except (get_current_pcn_body org_data) JNull.

(** ** utils.py: [get_pcn_name] *)

Definition get_pcn_name (data pcn_ods : json) : result json :=
  if negb (truthy pcn_ods) then Ok JNull else
  let* orgs := get data "organisations" empty_dict in
  let* entry := get_key orgs pcn_ods empty_dict in
  let* org_data := get entry "Organisation" empty_dict in
  get org_data "Name" JNull.

(** ** Iteration order of a set of codes

    [set(old_orgs.keys()) | set(new_orgs.keys())] is iterated in an order
    that Python leaves unspecified.  A [set_order] is any way to enumerate,
    without repetition, the elements inserted into a set. *)

Record set_order : Type := SetOrder {
  iter_set : list string → list string;
  iter_set_perm : ∀ l, iter_set l ≡ₚ remove_dups l
}.

Definition insertion_order : set_order :=
  {| iter_set := remove_dups; iter_set_perm := λ l, reflexivity _ |}.

Definition dict_keys (o : json) : result (list string) :=
  match o with
  | JObj kvs => Ok (keys (items kvs))
  | _ => Raise AttributeError
  end.

(** A [for] loop whose body appends records to the list [changes]; an
    exception in the body leaves the loop and the function. *)
Fixpoint for_append {A B} (body : A → result (list B)) (l : list A)
    (changes : list B) : result (list B) :=
  match l with
  | [] => Ok changes
  | x :: l' =>
      let* appended := body x in
      for_append body l' (changes ++ appended)
  end.

(** ** track_changes.py: change records *)

Definition new_record (type : string) (ods_code : string) (org : json)
    : result json :=
  let* name := get org "Name" JNull in
  let* date := get org "LastChangeDate" JNull in
  Ok (JObj [("type", JStr type); ("ods_code", JStr ods_code);
            ("name", name); ("date_of_change", date)]).

Definition status_change_record (ods_code : string) (old_org new_org : json)
    : result json :=
  let* name := get new_org "Name" JNull in
  let* old_status := get old_org "Status" JNull in
  let* new_status := get new_org "Status" JNull in
  let* date := get new_org "LastChangeDate" JNull in
  Ok (JObj [("type", JStr "status_change"); ("ods_code", JStr ods_code);
            ("name", name); ("old_status", old_status);
            ("new_status", new_status); ("date_of_change", date)]).

Definition pcn_change_record (old_data new_data : json) (ods_code : string)
    (new_org old_pcn new_pcn : json) : result json :=
  let* name := get new_org "Name" JNull in
  let* old_pcn_name := get_pcn_name old_data old_pcn in
  let* new_pcn_name := get_pcn_name new_data new_pcn in
  let* date := get new_org "LastChangeDate" JNull in
  Ok (JObj [("type", JStr "pcn_change"); ("ods_code", JStr ods_code);
            ("name", name); ("old_pcn", old_pcn);
            ("old_pcn_name", old_pcn_name); ("new_pcn", new_pcn);
            ("new_pcn_name", new_pcn_name); ("date_of_change", date)]).

(** [old_orgs.get(ods_code, {}).get("Organisation", {})] *)
Definition organisation_of (orgs : json) (ods_code : string) : result json :=
  let* entry := get orgs ods_code empty_dict in
  get entry "Organisation" empty_dict.

(** [new_org.get("Roles", {}).get("Role", []) or []], as iterated by the
    generator of the class filter. *)
Definition roles_of (new_org : json) : result (list json) :=
  let* roles := get new_org "Roles" empty_dict in
  let* role := get roles "Role" empty_list in
  py_iter (py_or role empty_list).

(** [role.get("id") == "RO76"] *)
Definition is_practice_role (role : json) : result bool :=
  let* id := get role "id" JNull in
  Ok (py_eq id (JStr "RO76")).

(** [role.get("id") == "RO272" and role.get("primaryRole", False)] *)
Definition is_primary_pcn_role (role : json) : result bool :=
  let* id := get role "id" JNull in
  if negb (py_eq id (JStr "RO272")) then Ok false else
  let* primary := get role "primaryRole" (JBool false) in
  Ok (truthy primary).

(** ** track_changes.py: [detect_practice_changes] *)

(** The records appended by one iteration of the loop over the codes. *)
Definition practice_step (old_data new_data old_orgs new_orgs : json)
    (ods_code : string) : result (list json) :=
  let* old_org := organisation_of old_orgs ods_code in
  let* new_org := organisation_of new_orgs ods_code in
  let* roles := roles_of new_org in
  let* is_practice := py_any is_practice_role roles in
  if negb is_practice then Ok [] else
  if negb (truthy old_org) then
    let* r := new_record "new_practice" ods_code new_org in Ok [r]
  else if negb (truthy new_org) then
    let* r := new_record "closed_practice" ods_code old_org in Ok [r]
  else
    let* old_status := get old_org "Status" JNull in
    let* new_status := get new_org "Status" JNull in
    let* status_changes :=
      (if py_ne old_status new_status then
         let* r := status_change_record ods_code old_org new_org in Ok [r]
       else Ok []) in
    let old_pcn := get_current_pcn old_org in
    let new_pcn := get_current_pcn new_org in
    let* pcn_changes :=
      (if py_ne old_pcn new_pcn then
         let* r := pcn_change_record old_data new_data ods_code new_org
                     old_pcn new_pcn in Ok [r]
       else Ok []) in
    Ok (status_changes ++ pcn_changes).

Definition detect_practice_changes (so : set_order) (old_data new_data : json)
    : result (list json) :=
  let* old_orgs := get old_data "organisations" empty_dict in
  let* new_orgs := get new_data "organisations" empty_dict in
  let* old_keys := dict_keys old_orgs in
  let* new_keys := dict_keys new_orgs in
  let all_ods_codes := iter_set so (old_keys ++ new_keys) in
  for_append (practice_step old_data new_data old_orgs new_orgs)
    all_ods_codes [].

(** ** track_changes.py: [detect_pcn_changes] *)

Definition pcn_step (old_orgs new_orgs : json) (ods_code : string)
    : result (list json) :=
  let* old_org := organisation_of old_orgs ods_code in
  let* new_org := organisation_of new_orgs ods_code in
  let* roles := roles_of new_org in
  let* is_pcn := py_any is_primary_pcn_role roles in
  if negb is_pcn then Ok [] else
  if negb (truthy old_org) then
    let* r := new_record "new_pcn" ods_code new_org in Ok [r]
  else if negb (truthy new_org) then
    let* r := new_record "closed_pcn" ods_code old_org in Ok [r]
  else
    let* old_status := get old_org "Status" JNull in
    let* new_status := get new_org "Status" JNull in
    if py_ne old_status new_status then
      let* r := status_change_record ods_code old_org new_org in Ok [r]
    else Ok [].

Definition detect_pcn_changes (so : set_order) (old_data new_data : json)
    : result (list json) :=
  let* old_orgs := get old_data "organisations" empty_dict in
  let* new_orgs := get new_data "organisations" empty_dict in
  let* old_keys := dict_keys old_orgs in
  let* new_keys := dict_keys new_orgs in
  let all_ods_codes := iter_set so (old_keys ++ new_keys) in
  for_append (pcn_step old_orgs new_orgs) all_ods_codes [].

(** ** track_changes.py: [update_tracked_changes] *)

(** [[x for x in l if f(x)]] *)
Fixpoint py_filter {A} (f : A → result bool) (l : list A) : result (list A) :=
  match l with
  | [] => Ok []
  | x :: l' =>
      let* b := f x in
      let* rest := py_filter f l' in
      Ok (if b then x :: rest else rest)
  end.

(** [len([c for c in changes if c["type"] == type])] *)
Definition count_type (changes : json) (type : string) : result json :=
  let* cs := py_iter changes in
  let* selected :=
    py_filter (λ c, let* t := subscript c "type" in Ok (py_eq t (JStr type)))
      cs in
  Ok (JNum (Int (Z.of_nat (length selected)))).

Definition json_len (v : json) : result json :=
  let* n := py_len v in Ok (JNum (Int (Z.of_nat n))).

(** [os.path.basename]: what follows the last slash. *)
Fixpoint basename_from (path current : string) : string :=
  match path with
  | EmptyString => current
  | String c rest =>
      if Ascii.eqb c "/"%char then basename_from rest EmptyString
      else basename_from rest (current +:+ String c EmptyString)
  end.

Definition basename (path : string) : string := basename_from path "".

Definition summary_of (changes : json) : result json :=
  let* practice_changes := subscript changes "practice_changes" in
  let* pcn_changes := subscript changes "pcn_changes" in
  let* np := py_len practice_changes in
  let* nn := py_len pcn_changes in
  let* p_total := json_len practice_changes in
  let* p_new := count_type practice_changes "new_practice" in
  let* p_closed := count_type practice_changes "closed_practice" in
  let* p_status := count_type practice_changes "status_change" in
  let* p_pcn := count_type practice_changes "pcn_change" in
  let* n_total := json_len pcn_changes in
  let* n_new := count_type pcn_changes "new_pcn" in
  let* n_closed := count_type pcn_changes "closed_pcn" in
  let* n_status := count_type pcn_changes "status_change" in
  Ok (JObj [("total_changes", JNum (Int (Z.of_nat np + Z.of_nat nn)));
            ("practice_changes",
             JObj [("total", p_total); ("new", p_new); ("closed", p_closed);
                   ("status", p_status); ("pcn", p_pcn)]);
            ("pcn_changes",
             JObj [("total", n_total); ("new", n_new); ("closed", n_closed);
                   ("status", n_status)])]).

(** The state of [data/tracked_changes.json]: [None] when the file does not
    exist, otherwise the document it holds.  [today] is
    [datetime.now().strftime("%Y-%m-%d")]. *)
Definition tracked_file : Type := option json.

(** The body of the [try]: [Ok (Some doc)] when [doc] is written to the
    file, [Ok None] when nothing is written. *)
Definition update_tracked_changes_body (file : tracked_file) (changes : json)
    (current_file today : string) : result (option json) :=
  let tracked_changes :=
    match file with
    | Some doc => doc
    | None => JObj [("changes", JList [])]
    end in
  let* practice_changes := subscript changes "practice_changes" in
  let* any_change :=
    (if truthy practice_changes then Ok true
     else let* pcn_changes := subscript changes "pcn_changes" in
          Ok (truthy pcn_changes)) in
  if any_change then
    let* summary := summary_of changes in
    let* history := subscript tracked_changes "changes" in
    let* practice_changes := subscript changes "practice_changes" in
    let* pcn_changes := subscript changes "pcn_changes" in
    let entry :=
      JObj [("date", JStr today);
            ("data_file", JStr (basename current_file));
            ("summary", summary);
            ("practice_changes", practice_changes);
            ("pcn_changes", pcn_changes)] in
    match history, tracked_changes with
    | JList h, JObj kvs =>
        Ok (Some (JObj (set_key "changes" (JList (h ++ [entry])) kvs)))
    | _, _ => Raise AttributeError
    end
  else Ok None.

(** The file after the call; an exception is logged and leaves the file as
    it was. *)
Definition update_tracked_changes (file : tracked_file) (changes : json)
    (current_file today : string) : tracked_file :=
  match update_tracked_changes_body file changes current_file today with
  | Ok (Some doc) => Some doc
  | Ok None => file
  | Raise _ => file
  end.

(** The [changes] dict that [main] passes to [update_tracked_changes]. *)
Definition changes_dict (practice_changes pcn_changes : list json) : json :=
  JObj [("practice_changes", JList practice_changes);
        ("pcn_changes", JList pcn_changes)].

(** The entries recorded in the change history. *)
Definition history_of (file : tracked_file) : list json :=
  match file with
  | Some (JObj kvs) =>
      match assoc "changes" kvs with
      | Some (JList h) => h
      | _ => []
      end
  | _ => []
  end.

(** ** download_data.py: [extract_practice_data] *)

(** [if not isinstance(v, list): v = [v]] *)
Definition as_list (v : json) : list json :=
  match v with
  | JList l => l
  | _ => [v]
  end.

(** [next((d.get(field) for d in dates if d.get("Type") == type), None)] *)
Fixpoint first_date (field type : string) (dates : list json) : result json :=
  match dates with
  | [] => Ok JNull
  | d :: rest =>
      let* t := get d "Type" JNull in
      if py_eq t (JStr type) then get d field JNull
      else first_date field type rest
  end.

(** [next((x for x in l if f(x)), None)] *)
Fixpoint py_next {A} (f : A → result bool) (l : list A) : result (option A) :=
  match l with
  | [] => Ok None
  | x :: l' =>
      let* b := f x in
      if b then Ok (Some x) else py_next f l'
  end.

Definition location_of (org_info : json) : result json :=
  let* geo := get org_info "GeoLoc" empty_dict in
  get geo "Location" empty_dict.

Definition extract_practice_data_body (org_data : json)
    : result (option json) :=
  let* org_info := get org_data "Organisation" empty_dict in
  let* roles_obj := get org_info "Roles" empty_dict in
  let* roles := get roles_obj "Role" empty_list in
  let* is_practice := py_any is_practice_role (as_list roles) in
  if negb is_practice then Ok None else
  let* dates := get org_info "Date" empty_list in
  let dates := as_list dates in
  let* rels_obj := get org_info "Rels" empty_dict in
  let* rels := get rels_obj "Rel" empty_list in
  let* pcn_rel := py_next is_current_pcn_rel (as_list rels) in
  let* location := location_of org_info in
  let* orgid := get org_info "OrgId" empty_dict in
  let* code := get orgid "extension" JNull in
  let* name := get org_info "Name" JNull in
  let* status := get org_info "Status" JNull in
  let* op_start := first_date "Start" "Operational" dates in
  let* op_end := first_date "End" "Operational" dates in
  let* address := get location "AddrLn1" JNull in
  let* town := get location "Town" JNull in
  let* postcode := get location "PostCode" JNull in
  let* pcn_code :=
    match pcn_rel with
    | Some rel => if truthy rel then target_extension rel else Ok JNull
    | None => Ok JNull
    end in
  let* last_changed := get org_info "LastChangeDate" JNull in
  Ok (Some (JObj [("ODS Code", code); ("Name", name); ("Status", status);
                  ("Operational Start", op_start);
                  ("Operational End", op_end);
                  ("Address", address); ("Town", town);
                  ("Postcode", postcode);
                  ("Current PCN Code", pcn_code);
                  ("Last Changed", last_changed)])).

(** The row of the practice, or [None] when the organisation is not a
    practice or an exception was logged. *)
Definition extract_practice_data (org_data : json) : option json :=
  try_except (extract_practice_data_body org_data) None.

(** ** main.py: [create_practice_pcn_report]

    The report first collects the PCNs of the snapshot and then, for each
    practice, walks its relationships to find the current PCN and builds
    the row of the practice.  The rows are then handed to pandas, which
    sorts them and writes them to the sheet 'GP Practices'; a second sheet
    lists the PCNs.  The embedding gives the rows of the first sheet as the
    loops build them, without the column 'PCN History', a formatted text,
    and every exception that the function raises on the way. *)

(** [a > b] *)
Fixpoint py_gt (a b : json) : result bool :=
  match a with
  | JBool x =>
      match num_of b with
      | Some n => Ok (num_ltb n (Int (Z.b2z x)))
      | None => Raise TypeError
      end
  | JNum x =>
      match num_of b with
      | Some n => Ok (num_ltb n x)
      | None => Raise TypeError
      end
  | JStr s =>
      match b with JStr t => Ok (String.ltb t s) | _ => Raise TypeError end
  | JList l =>
      match b with
      | JList m =>
          (fix go (l m : list json) : result bool :=
             match l, m with
             | [], _ => Ok false
             | _ :: _, [] => Ok true
             | x :: l', y :: m' =>
                 if py_eq x y then go l' m' else py_gt x y
             end) l m
      | _ => Raise TypeError
      end
  | _ => Raise TypeError
  end.

(** [a < b] *)
Definition py_lt (a b : json) : result bool := py_gt b a.

Definition comparable (a b : json) : bool :=
  match py_lt a b with
  | Ok _ => true
  | Raise _ => false
  end.

(** What the report calls and the source does not define.

    [sorted] compares keys with [<] and raises [TypeError] at the first
    pair that cannot be compared; which pairs it compares is left to the
    implementation.  [sorted_raises keys] tells whether it raises: it does
    not on fewer than two keys nor on keys that can all be compared, and it
    does on keys that fall into two groups without a comparable pair
    between them, because the pairs compared by a sort that completes
    connect all keys.

    [practices_sheet_error] and [pcns_sheet_error] give the exception, if
    any, that the snapshot makes pandas or openpyxl raise while a frame
    with at least one row is sorted and written, or that is raised while
    the rows of the second sheet are built. *)
Record runtime : Type := Runtime {
  sorted_raises : list json → bool;
  sorted_short :
    ∀ keys, (length keys < 2)%nat → sorted_raises keys = false;
  sorted_comparable :
    ∀ keys, (∀ a b, a ∈ keys → b ∈ keys → comparable a b = true) →
            sorted_raises keys = false;
  sorted_split :
    ∀ keys l1 l2,
      keys ≡ₚ l1 ++ l2 → l1 ≠ [] → l2 ≠ [] →
      (∀ a b, a ∈ l1 → b ∈ l2 →
              comparable a b = false ∧ comparable b a = false) →
      sorted_raises keys = true;
  practices_sheet_error : json → option exn;
  pcns_sheet_error : json → option exn
}.

(** A sort that compares every key with every key. *)
Definition compares_all_pairs (keys : list json) : bool :=
  (2 <=? length keys)%nat
  && negb (forallb (λ a, forallb (comparable a) keys) keys).

(** The runtime in which the sort compares all pairs and the two sheets
    are written without an exception. *)
Definition plain_runtime : runtime.
Proof.
  refine {| sorted_raises := compares_all_pairs;
            practices_sheet_error := λ _, None;
            pcns_sheet_error := λ _, None |}.
  - intros keys Hlen. unfold compares_all_pairs.
    by destruct (Nat.leb_spec 2 (length keys)); [lia|].
  - intros keys Hall. unfold compares_all_pairs.
    apply andb_false_iff. right. apply negb_false_iff.
    apply forallb_forall. intros a Ha. apply forallb_forall. intros b Hb.
    apply Hall; by apply list_elem_of_In.
  - intros keys l1 l2 Hperm Hl1 Hl2 Hcross. unfold compares_all_pairs.
    destruct l1 as [|a l1]; [done|]. destruct l2 as [|b l2]; [done|].
    apply andb_true_iff. split.
    + apply Nat.leb_le. rewrite Hperm, length_app. simpl. lia.
    + apply negb_true_iff.
      destruct (forallb _ keys) eqn:Hall; [|done].
      assert (a ∈ keys) as Ha by (rewrite Hperm; left).
      assert (b ∈ keys) as Hb.
      { rewrite Hperm. apply elem_of_app. right. left. }
      rewrite forallb_forall in Hall.
      specialize (Hall a (proj1 (list_elem_of_In _ _) Ha)).
      rewrite forallb_forall in Hall.
      specialize (Hall b (proj1 (list_elem_of_In _ _) Hb)).
      destruct (Hcross a b) as [Hab _]; [left|left|]. congruence.
Defined.

(** [k in d] for a dict [d] given by its entries. *)
Definition py_in {A} (k : json) (d : list (string * A)) : result bool :=
  match k with
  | JStr s => Ok (bool_decide (is_Some (assoc s d)))
  | JList _ | JObj _ => Raise TypeError
  | _ => Ok false
  end.

(** The value stored for a PCN in the dict [pcns]. *)
Definition pcn_info (org_info : json) : result json :=
  let* location := location_of org_info in
  let* dates := get org_info "Date" empty_list in
  let dates := as_list dates in
  let* name := get org_info "Name" JNull in
  let* status := get org_info "Status" JNull in
  let* op_start := first_date "Start" "Operational" dates in
  let* op_end := first_date "End" "Operational" dates in
  let* legal_start := first_date "Start" "Legal" dates in
  let* legal_end := first_date "End" "Legal" dates in
  let* address := get location "AddrLn1" JNull in
  let* town := get location "Town" JNull in
  let* postcode := get location "PostCode" JNull in
  let* uprn := get location "UPRN" JNull in
  let* last_changed := get org_info "LastChangeDate" JNull in
  Ok (JObj [("name", name); ("status", status);
            ("operational_start", op_start); ("operational_end", op_end);
            ("legal_start", legal_start); ("legal_end", legal_end);
            ("address", address); ("town", town); ("postcode", postcode);
            ("uprn", uprn); ("member_practices", JList []);
            ("last_changed", last_changed)]).

(** First loop: [for ods_code, org_data in data["organisations"].items()],
    filling [pcns]. *)
Fixpoint identify_pcns (orgs : list (string * json))
    (pcns : list (string * json)) : result (list (string * json)) :=
  match orgs with
  | [] => Ok pcns
  | (ods_code, org_data) :: rest =>
      let* org_info := get org_data "Organisation" empty_dict in
      let* roles_obj := get org_info "Roles" empty_dict in
      let* roles := get roles_obj "Role" empty_list in
      let* is_pcn := py_any is_primary_pcn_role (as_list roles) in
      if is_pcn then
        let* info := pcn_info org_info in
        identify_pcns rest (set_key ods_code info pcns)
      else identify_pcns rest pcns
  end.

(** [next((d.get(field) for d in rel_dates if isinstance(d, dict)), None)] *)
Fixpoint first_dict_field (field : string) (rel_dates : list json) : json :=
  match rel_dates with
  | [] => JNull
  | JObj kvs :: _ => default JNull (assoc field kvs)
  | _ :: rest => first_dict_field field rest
  end.

(** The loop [for rel in pcn_rels], threading [current_pcn] and
    [current_pcn_date]. *)
Fixpoint resolve_pcn_rels (pcns : list (string * json)) (pcn_rels : list json)
    (current_pcn current_pcn_date : json) : result (json * json) :=
  match pcn_rels with
  | [] => Ok (current_pcn, current_pcn_date)
  | rel :: rest =>
      let* target := get rel "Target" empty_dict in
      let* orgid := get target "OrgId" empty_dict in
      let* target_ods := get orgid "extension" JNull in
      let* known := py_in target_ods pcns in
      if negb known then
        resolve_pcn_rels pcns rest current_pcn current_pcn_date
      else
        let* rel_dates := get rel "Date" empty_list in
        let rel_dates := as_list rel_dates in
        let start_date := first_dict_field "Start" rel_dates in
        let end_date := first_dict_field "End" rel_dates in
        let* status := get rel "Status" JNull in
        if py_eq status (JStr "Active") && negb (truthy end_date) then
          let* later :=
            (if negb (truthy current_pcn) then Ok true
             else if negb (truthy start_date) then Ok false
             else py_gt start_date current_pcn_date) in
          if later then resolve_pcn_rels pcns rest target_ods start_date
          else resolve_pcn_rels pcns rest current_pcn current_pcn_date
        else resolve_pcn_rels pcns rest current_pcn current_pcn_date
  end.

(** [next((x.get(field) for x in l if f(x)), None)] *)
Definition next_field (f : json → result bool) (field : string)
    (l : list json) : result json :=
  let* found := py_next f l in
  match found with
  | Some x => get x field JNull
  | None => Ok JNull
  end.

(** The list [pcn_history] that the loop [for rel in pcn_rels] builds
    alongside, reduced to the keys by which the column 'PCN History' sorts
    it: [x['start_date'] or ''] for each relationship whose target is a
    PCN of the snapshot. *)
Fixpoint pcn_history_keys (pcns : list (string * json))
    (pcn_rels : list json) : result (list json) :=
  match pcn_rels with
  | [] => Ok []
  | rel :: rest =>
      let* target := get rel "Target" empty_dict in
      let* orgid := get target "OrgId" empty_dict in
      let* target_ods := get orgid "extension" JNull in
      let* known := py_in target_ods pcns in
      if negb known then pcn_history_keys pcns rest
      else
        let* rel_dates := get rel "Date" empty_list in
        let start_date := first_dict_field "Start" (as_list rel_dates) in
        let* keys := pcn_history_keys pcns rest in
        Ok (py_or start_date (JStr "") :: keys)
  end.

(** [sorted(l, key=...)], as far as it raises. *)
Definition py_sorted (rt : runtime) (keys : list json) : result unit :=
  if sorted_raises rt keys then Raise TypeError else Ok tt.

(** The row appended to [practices] by one iteration of the second loop;
    [None] when the organisation is not a practice.  Of the column
    'PCN History', a formatted text, only the sort is kept: the column is
    not part of the row. *)
Definition practice_row (rt : runtime) (pcns : list (string * json))
    (ods_code : string) (org_data : json) : result (option json) :=
  let* org_info := get org_data "Organisation" empty_dict in
  let* roles_obj := get org_info "Roles" empty_dict in
  let* roles := get roles_obj "Role" empty_list in
  let roles := as_list roles in
  let* is_practice := py_any is_practice_role roles in
  if negb is_practice then Ok None else
  let* location := location_of org_info in
  let* dates := get org_info "Date" empty_list in
  let dates := as_list dates in
  let* contacts_obj := get org_info "Contacts" empty_dict in
  let* contacts := get contacts_obj "Contact" empty_list in
  let* phone :=
    next_field (λ c, let* t := get c "type" JNull in Ok (py_eq t (JStr "tel")))
      "value" (as_list contacts) in
  let* rels_obj := get org_info "Rels" empty_dict in
  let* rels := get rels_obj "Rel" empty_list in
  let* pcn_rels :=
    py_filter (λ rel, let* id := get rel "id" JNull in
                      Ok (py_eq id (JStr "RE8"))) (as_list rels) in
  let* current := resolve_pcn_rels pcns pcn_rels JNull JNull in
  let current_pcn := fst current in
  let current_pcn_date := snd current in
  let* role_status := next_field is_practice_role "Status" roles in
  let* name := get org_info "Name" JNull in
  let* status := get org_info "Status" JNull in
  let* primary_role :=
    next_field (λ role, let* p := get role "primaryRole" (JBool false) in
                        Ok (truthy p)) "id" roles in
  let* op_start := first_date "Start" "Operational" dates in
  let* op_end := first_date "End" "Operational" dates in
  let* legal_start := first_date "Start" "Legal" dates in
  let* legal_end := first_date "End" "Legal" dates in
  let* address := get location "AddrLn1" JNull in
  let* address2 := get location "AddrLn2" JNull in
  let* town := get location "Town" JNull in
  let* county := get location "County" JNull in
  let* postcode := get location "PostCode" JNull in
  let* uprn := get location "UPRN" JNull in
  let* current_pcn_name :=
    (if truthy current_pcn then
       let* info := get_key (JObj pcns) current_pcn empty_dict in
       get info "name" JNull
     else Ok JNull) in
  let* pcn_history := pcn_history_keys pcns pcn_rels in
  let* _ :=
    (match pcn_history with
     | [] => Ok tt
     | _ => py_sorted rt pcn_history
     end) in
  let* last_changed := get org_info "LastChangeDate" JNull in
  Ok (Some (JObj [("ODS Code", JStr ods_code); ("Name", name);
                  ("Status", status); ("Primary Role", primary_role);
                  ("Operational Start", op_start);
                  ("Operational End", op_end);
                  ("Legal Start", legal_start); ("Legal End", legal_end);
                  ("Address", address); ("Address Line 2", address2);
                  ("Town", town); ("County", county);
                  ("Postcode", postcode); ("UPRN", uprn); ("Phone", phone);
                  ("Current PCN", current_pcn_name);
                  ("Current PCN Code", current_pcn);
                  ("PCN Member Since", current_pcn_date);
                  ("Last Changed", last_changed)])).

(** Second loop: [for ods_code, org_data in data["organisations"].items()],
    filling [practices]. *)
Fixpoint practice_rows (rt : runtime) (pcns : list (string * json))
    (orgs : list (string * json)) (practices : list json)
    : result (list json) :=
  match orgs with
  | [] => Ok practices
  | (ods_code, org_data) :: rest =>
      let* row := practice_row rt pcns ods_code org_data in
      practice_rows rt pcns rest
        (match row with
         | Some r => practices ++ [r]
         | None => practices
         end)
  end.

(** An exception raised by a library call. *)
Definition raise_if (error : option exn) : result unit :=
  match error with
  | Some e => Raise e
  | None => Ok tt
  end.

(** The rows of the sheet 'GP Practices' of the report that is written, in
    the order in which the loop builds them; [None] when the function
    returns without a report.  [DataFrame.sort_values] raises [KeyError]
    on a frame built from no row, which has no column: a snapshot without
    a practice or without a PCN has no report. *)
Definition create_practice_pcn_report (rt : runtime) (data : json)
    : result (option (list json)) :=
  let* present := get data "organisations" JNull in
  if negb (truthy present) then Ok None else
  let* orgs := subscript data "organisations" in
  match orgs with
  | JObj kvs =>
      let* pcns := identify_pcns (items kvs) [] in
      let* practices := practice_rows rt pcns (items kvs) [] in
      match practices with
      | [] => Raise KeyError
      | _ =>
          let* _ := raise_if (practices_sheet_error rt data) in
          match pcns with
          | [] => Raise KeyError
          | _ =>
              let* _ := raise_if (pcns_sheet_error rt data) in
              Ok (Some practices)
          end
      end
  | _ => Raise AttributeError
  end.

(** ** The differ over a store of mutable objects

    The functions above treat the snapshots as values.  To state that the
    differ leaves its inputs untouched, the same functions are given here
    over a store: lists and dicts are objects at a location of the store,
    a value is a primitive or a reference to an object, and two references
    to the same location are aliases.  [changes = []], the default
    arguments [{}] and [[]], the wrapping [[rels]] and the dict literals of
    the records allocate fresh objects; [changes.append] writes to the
    store. *)

Module Heap.

(** Locations are positions in the store. *)
Abbreviation loc := nat.

Inductive val : Type :=
| VNone
| VBool (b : bool)
| VNum (n : number)
| VStr (s : string)
| VRef (l : loc).

Inductive obj : Type :=
| ODict (kvs : list (string * val))
| OList (vs : list val).

(** The store: the objects allocated so far. *)
Abbreviation heap := (list obj).

(** The outcome of a computation: a value, a Python exception, or a
    reference that points outside the store. *)
Inductive outcome (A : Type) : Type :=
| Done (a : A)
| Raised (e : exn)
| Dangling.
Arguments Done {A} a.
Arguments Raised {A} e.
Arguments Dangling {A}.

Definition M (A : Type) : Type := heap → outcome A * heap.

Definition ret {A} (a : A) : M A := λ h, (Done a, h).

Definition bind {A B} (m : M A) (k : A → M B) : M B :=
  λ h, match m h with
       | (Done a, h') => k a h'
       | (Raised e, h') => (Raised e, h')
       | (Dangling, h') => (Dangling, h')
       end.

Notation "'let!' x := m 'in' k" := (bind m (λ x, k))
  (at level 10, x name, m at level 100, k at level 200,
   format "'[v' 'let!'  x  :=  m  'in' '/' k ']'").

Definition raise {A} (e : exn) : M A := λ h, (Raised e, h).

(** [try: ... except Exception: return d] *)
Definition try_except {A} (m : M A) (d : A) : M A :=
  λ h, match m h with
       | (Raised _, h') => (Done d, h')
       | r => r
       end.

(** A new object, at the first free location. *)
Definition alloc (o : obj) : M val :=
  λ h, (Done (VRef (length h)), h ++ [o]).

(** The object a reference points to. *)
Definition deref (l : loc) : M obj :=
  λ h, match h !! l with
       | Some o => (Done o, h)
       | None => (Dangling, h)
       end.

(** [v.append(x)]: the list object is updated in place. *)
Definition append (v x : val) : M unit :=
  match v with
  | VRef l =>
      let! o := deref l in
      match o with
      | OList vs => λ h, (Done (), <[l := OList (vs ++ [x])]> h)
      | ODict _ => raise AttributeError
      end
  | _ => raise AttributeError
  end.

(** [v.get(k, d)] *)
Definition get (v : val) (k : string) (d : val) : M val :=
  match v with
  | VRef l =>
      let! o := deref l in
      match o with
      | ODict kvs => ret (default d (assoc k kvs))
      | OList _ => raise AttributeError
      end
  | _ => raise AttributeError
  end.

(** [v.get(k, {})] and [v.get(k, [])]: the default is a fresh object. *)
Definition get_or_dict (v : val) (k : string) : M val :=
  let! d := alloc (ODict []) in get v k d.

Definition get_or_list (v : val) (k : string) : M val :=
  let! d := alloc (OList []) in get v k d.

(** [v.get(k, d)] with a key that is a value: references point to lists
    and dicts, which are unhashable. *)
Definition get_key (v k d : val) : M val :=
  match v with
  | VRef l =>
      let! o := deref l in
      match o with
      | ODict kvs =>
          match k with
          | VStr s => ret (default d (assoc s kvs))
          | VRef _ => raise TypeError
          | _ => ret d
          end
      | OList _ => raise AttributeError
      end
  | _ => raise AttributeError
  end.

Definition truthy (v : val) : M bool :=
  match v with
  | VNone => ret false
  | VBool b => ret b
  | VNum n => ret (negb (num_eqb n (Int 0)))
  | VStr s => ret (negb (String.eqb s ""))
  | VRef l =>
      let! o := deref l in
      ret match o with
          | ODict [] | OList [] => false
          | _ => true
          end
  end.

Definition isinstance_list (v : val) : M bool :=
  match v with
  | VRef l =>
      let! o := deref l in
      ret match o with OList _ => true | ODict _ => false end
  | _ => ret false
  end.

Definition chars (s : string) : list val :=
  map (λ c, VStr (String c EmptyString)) (list_ascii_of_string s).

(** [for x in v] *)
Definition iter (v : val) : M (list val) :=
  match v with
  | VRef l =>
      let! o := deref l in
      ret match o with
          | OList vs => vs
          | ODict kvs => map VStr (keys (items kvs))
          end
  | VStr s => ret (chars s)
  | _ => raise TypeError
  end.

Definition dict_keys (v : val) : M (list string) :=
  match v with
  | VRef l =>
      let! o := deref l in
      match o with
      | ODict kvs => ret (keys (items kvs))
      | OList _ => raise AttributeError
      end
  | _ => raise AttributeError
  end.

Definition num_of (v : val) : option number :=
  match v with
  | VBool b => Some (Int (Z.b2z b))
  | VNum n => Some n
  | _ => None
  end.

(** Element-wise comparison of two lists. *)
Fixpoint list_eq_with (eq : val → val → option bool) (xs ys : list val)
    : option bool :=
  match xs, ys with
  | [], [] => Some true
  | x :: xs', y :: ys' =>
      match eq x y with
      | Some true => list_eq_with eq xs' ys'
      | r => r
      end
  | _, _ => Some false
  end.

(** Every entry of the first dict has an equal value in the second. *)
Fixpoint dict_le_with (eq : val → val → option bool)
    (xs ys : list (string * val)) : option bool :=
  match xs with
  | [] => Some true
  | (k, x) :: xs' =>
      match assoc k ys with
      | Some y =>
          match eq x y with
          | Some true => dict_le_with eq xs' ys
          | r => r
          end
      | None => Some false
      end
  end.

(** [a == b], following references at most [fuel] times.  A list or a
    dict is equal to itself: the items of containers are compared for
    identity first.  Numbers are values of the store, not objects: a NaN
    in a container is taken to be an object of its own. *)
Fixpoint val_eq (fuel : nat) (h : heap) (a b : val) : option bool :=
  match a, b with
  | VRef la, VRef lb =>
      match fuel with
      | O => None
      | S fuel' =>
          if Nat.eqb la lb then option_map (λ _, true) (h !! la) else
          match h !! la, h !! lb with
          | Some (OList xs), Some (OList ys) =>
              list_eq_with (val_eq fuel' h) xs ys
          | Some (ODict xs), Some (ODict ys) =>
              match dict_le_with (val_eq fuel' h) (items xs) ys with
              | Some true =>
                  Some (forallb (λ k, bool_decide (k ∈ keys xs)) (keys ys))
              | r => r
              end
          | Some _, Some _ => Some false
          | _, _ => None
          end
      end
  | VRef _, _ | _, VRef _ => Some false
  | VNone, VNone => Some true
  | VNone, _ | _, VNone => Some false
  | VStr s, VStr t => Some (String.eqb s t)
  | VStr _, _ | _, VStr _ => Some false
  | _, _ =>
      match num_of a, num_of b with
      | Some x, Some y => Some (num_eqb x y)
      | _, _ => Some false
      end
  end.

(** [a != b]; the store of loaded snapshots has no cycle, so its size
    bounds the depth of the comparison. *)
Definition py_ne (a b : val) : M bool :=
  λ h, match val_eq (S (length h)) h a b with
       | Some r => (Done (negb r), h)
       | None => (Dangling, h)
       end.

Definition py_eq_str (a : val) (s : string) : bool :=
  match a with
  | VStr t => String.eqb t s
  | _ => false
  end.

Fixpoint py_any {A} (f : A → M bool) (l : list A) : M bool :=
  match l with
  | [] => ret false
  | x :: l' =>
      let! b := f x in
      if b then ret true else py_any f l'
  end.

Fixpoint for_each {A} (body : A → M unit) (l : list A) : M unit :=
  match l with
  | [] => ret ()
  | x :: l' => let! _ := body x in for_each body l'
  end.

(** *** track_changes.py *)

Definition is_current_pcn_rel (rel : val) : M bool :=
  let! target := get_or_dict rel "Target" in
  let! prid := get_or_dict target "PrimaryRoleId" in
  let! rid := get prid "id" VNone in
  if negb (py_eq_str rid "RO272") then ret false else
  let! status := get rel "Status" VNone in
  if negb (py_eq_str status "Active") then ret false else
  let! dates := get_or_list rel "Date" in
  let! ds := iter dates in
  let! ended := py_any (λ d, let! e := get d "End" VNone in truthy e) ds in
  ret (negb ended).

Definition target_extension (rel : val) : M val :=
  let! target := get_or_dict rel "Target" in
  let! orgid := get_or_dict target "OrgId" in
  get orgid "extension" VNone.

Fixpoint first_current_pcn (rels : list val) : M val :=
  match rels with
  | [] => ret VNone
  | rel :: rest =>
      let! c := is_current_pcn_rel rel in
      if c then target_extension rel else first_current_pcn rest
  end.

Definition get_current_pcn_body (org_data : val) : M val :=
  let! rels_obj := get_or_dict org_data "Rels" in
  let! rels := get_or_list rels_obj "Rel" in
  let! is_list := isinstance_list rels in
  let! rels := (if is_list then ret rels else alloc (OList [rels])) in
  let! rs := iter rels in
  first_current_pcn rs.

Definition get_current_pcn (org_data : val) : M val :=
  try_except (get_current_pcn_body org_data) VNone.

(** utils.py *)
Definition get_pcn_name (data pcn_ods : val) : M val :=
  let! t := truthy pcn_ods in
  if negb t then ret VNone else
  let! orgs := get_or_dict data "organisations" in
  let! d := alloc (ODict []) in
  let! entry := get_key orgs pcn_ods d in
  let! org_data := get_or_dict entry "Organisation" in
  get org_data "Name" VNone.

Definition organisation_of (orgs : val) (ods_code : string) : M val :=
  let! entry := get_or_dict orgs ods_code in
  get_or_dict entry "Organisation".

Definition roles_of (new_org : val) : M (list val) :=
  let! roles := get_or_dict new_org "Roles" in
  let! role := get_or_list roles "Role" in
  let! t := truthy role in
  let! role := (if t then ret role else alloc (OList [])) in
  iter role.

Definition is_practice_role (role : val) : M bool :=
  let! id := get role "id" VNone in
  ret (py_eq_str id "RO76").

Definition is_primary_pcn_role (role : val) : M bool :=
  let! id := get role "id" VNone in
  if negb (py_eq_str id "RO272") then ret false else
  let! primary := get role "primaryRole" (VBool false) in
  truthy primary.

(** [changes.append({"type": ..., "ods_code": ..., "name": ...,
    "date_of_change": ...})] *)
Definition append_new_record (changes : val) (type ods_code : string)
    (org : val) : M unit :=
  let! name := get org "Name" VNone in
  let! date := get org "LastChangeDate" VNone in
  let! r := alloc (ODict [("type", VStr type); ("ods_code", VStr ods_code);
                          ("name", name); ("date_of_change", date)]) in
  append changes r.

Definition append_status_change (changes : val) (ods_code : string)
    (old_org new_org : val) : M unit :=
  let! name := get new_org "Name" VNone in
  let! old_status := get old_org "Status" VNone in
  let! new_status := get new_org "Status" VNone in
  let! date := get new_org "LastChangeDate" VNone in
  let! r := alloc (ODict [("type", VStr "status_change");
                          ("ods_code", VStr ods_code); ("name", name);
                          ("old_status", old_status);
                          ("new_status", new_status);
                          ("date_of_change", date)]) in
  append changes r.

Definition append_pcn_change (changes old_data new_data : val)
    (ods_code : string) (new_org old_pcn new_pcn : val) : M unit :=
  let! name := get new_org "Name" VNone in
  let! old_pcn_name := get_pcn_name old_data old_pcn in
  let! new_pcn_name := get_pcn_name new_data new_pcn in
  let! date := get new_org "LastChangeDate" VNone in
  let! r := alloc (ODict [("type", VStr "pcn_change");
                          ("ods_code", VStr ods_code); ("name", name);
                          ("old_pcn", old_pcn);
                          ("old_pcn_name", old_pcn_name);
                          ("new_pcn", new_pcn);
                          ("new_pcn_name", new_pcn_name);
                          ("date_of_change", date)]) in
  append changes r.

(** One iteration of the loop of [detect_practice_changes]. *)
Definition practice_step (changes old_data new_data old_orgs new_orgs : val)
    (ods_code : string) : M unit :=
  let! old_org := organisation_of old_orgs ods_code in
  let! new_org := organisation_of new_orgs ods_code in
  let! roles := roles_of new_org in
  let! is_practice := py_any is_practice_role roles in
  if negb is_practice then ret () else
  let! old_present := truthy old_org in
  if negb old_present then
    append_new_record changes "new_practice" ods_code new_org
  else
  let! new_present := truthy new_org in
  if negb new_present then
    append_new_record changes "closed_practice" ods_code old_org
  else
    let! old_status := get old_org "Status" VNone in
    let! new_status := get new_org "Status" VNone in
    let! differ := py_ne old_status new_status in
    let! _ := (if differ then
                 append_status_change changes ods_code old_org new_org
               else ret ()) in
    let! old_pcn := get_current_pcn old_org in
    let! new_pcn := get_current_pcn new_org in
    let! moved := py_ne old_pcn new_pcn in
    if moved then
      append_pcn_change changes old_data new_data ods_code new_org
        old_pcn new_pcn
    else ret ().

(** The reference returned is that of the list [changes]. *)
Definition detect_practice_changes (so : set_order)
    (old_data new_data : val) : M val :=
  let! changes := alloc (OList []) in
  let! old_orgs := get_or_dict old_data "organisations" in
  let! new_orgs := get_or_dict new_data "organisations" in
  let! old_keys := dict_keys old_orgs in
  let! new_keys := dict_keys new_orgs in
  let all_ods_codes := iter_set so (old_keys ++ new_keys) in
  let! _ := for_each
              (practice_step changes old_data new_data old_orgs new_orgs)
              all_ods_codes in
  ret changes.

Definition pcn_step (changes old_orgs new_orgs : val) (ods_code : string)
    : M unit :=
  let! old_org := organisation_of old_orgs ods_code in
  let! new_org := organisation_of new_orgs ods_code in
  let! roles := roles_of new_org in
  let! is_pcn := py_any is_primary_pcn_role roles in
  if negb is_pcn then ret () else
  let! old_present := truthy old_org in
  if negb old_present then
    append_new_record changes "new_pcn" ods_code new_org
  else
  let! new_present := truthy new_org in
  if negb new_present then
    append_new_record changes "closed_pcn" ods_code old_org
  else
    let! old_status := get old_org "Status" VNone in
    let! new_status := get new_org "Status" VNone in
    let! differ := py_ne old_status new_status in
    if differ then append_status_change changes ods_code old_org new_org
    else ret ().

Definition detect_pcn_changes (so : set_order) (old_data new_data : val)
    : M val :=
  let! changes := alloc (OList []) in
  let! old_orgs := get_or_dict old_data "organisations" in
  let! new_orgs := get_or_dict new_data "organisations" in
  let! old_keys := dict_keys old_orgs in
  let! new_keys := dict_keys new_orgs in
  let all_ods_codes := iter_set so (old_keys ++ new_keys) in
  let! _ := for_each (pcn_step changes old_orgs new_orgs) all_ods_codes in
  ret changes.

(** The comparison run by [main]: the practice pass, then the PCN pass,
    on the same two snapshots. *)
Definition detect_changes (so : set_order) (old_data new_data : val)
    : M (val * val) :=
  let! practice_changes := detect_practice_changes so old_data new_data in
  let! pcn_changes := detect_pcn_changes so old_data new_data in
  ret (practice_changes, pcn_changes).

(** *** Loaded values *)

(** [json.load]: the store after loading a document, and the value that
    stands for it. *)
Fixpoint load (j : json) : M val :=
  match j with
  | JNull => ret VNone
  | JBool b => ret (VBool b)
  | JNum n => ret (VNum n)
  | JStr s => ret (VStr s)
  | JList l =>
      let! vs := (fix go (l : list json) : M (list val) :=
                    match l with
                    | [] => ret []
                    | x :: l' =>
                        let! v := load x in
                        let! vs := go l' in
                        ret (v :: vs)
                    end) l in
      alloc (OList vs)
  | JObj kvs =>
      let! vs := (fix go (l : list (string * json))
                    : M (list (string * val)) :=
                    match l with
                    | [] => ret []
                    | (k, x) :: l' =>
                        let! v := load x in
                        let! vs := go l' in
                        ret ((k, v) :: vs)
                    end) kvs in
      alloc (ODict vs)
  end.

Fixpoint option_all {A} (l : list (option A)) : option (list A) :=
  match l with
  | [] => Some []
  | Some x :: l' => option_map (cons x) (option_all l')
  | None :: _ => None
  end.

(** The document that a value stands for in a store, following
    references at most [fuel] times. *)
Fixpoint reify (fuel : nat) (h : heap) (v : val) : option json :=
  match v with
  | VNone => Some JNull
  | VBool b => Some (JBool b)
  | VNum n => Some (JNum n)
  | VStr s => Some (JStr s)
  | VRef l =>
      match fuel with
      | O => None
      | S fuel' =>
          match h !! l with
          | Some (OList vs) =>
              option_map JList (option_all (map (reify fuel' h) vs))
          | Some (ODict kvs) =>
              option_map JObj
                (option_all
                   (map (λ kv, option_map (pair (fst kv))
                                 (reify fuel' h (snd kv))) kvs))
          | None => None
          end
      end
  end.

(** Loads two documents into an empty store and compares them.  The
    result gives what the two change lists and the two snapshots stand
    for once the differ has run. *)
Definition compare_loaded (so : set_order) (old new : json)
    : option (json * json * json * json) :=
  match (let! old_data := load old in
         let! new_data := load new in
         let! changes := detect_changes so old_data new_data in
         ret (old_data, new_data, changes)) [] with
  | (Done (old_data, new_data, (practice_changes, pcn_changes)), h) =>
      let fuel := length h in
      match reify fuel h practice_changes, reify fuel h pcn_changes,
            reify fuel h old_data, reify fuel h new_data with
      | Some pc, Some nc, Some o, Some n => Some (pc, nc, o, n)
      | _, _, _, _ => None
      end
  | _ => None
  end.

(** A computation that leaves the objects at the locations below [n] as
    they are and frees nothing. *)
Definition stable {A} (n : nat) (m : M A) : Prop :=
  ∀ h, (n ≤ length h)%nat →
       take n (m h).2 = take n h ∧ (length h ≤ length (m h).2)%nat.

End Heap.

(** ** Vocabulary of the statements *)

(** The dict of organisations of a snapshot. *)
Definition orgs_of (data : json) : list (string * json) :=
  match get data "organisations" empty_dict with
  | Ok (JObj kvs) => kvs
  | _ => []
  end.

(** The organisation record stored under a code, when the code is present
    in the snapshot. *)
Definition org_record (data : json) (ods_code : string) : option json :=
  match assoc ods_code (orgs_of data) with
  | Some (JObj kvs) => Some (default empty_dict (assoc "Organisation" kvs))
  | _ => None
  end.

Definition present (data : json) (ods_code : string) : bool :=
  bool_decide (is_Some (assoc ods_code (orgs_of data))).

(** A field of a record, [None] when it is missing. *)
Definition field (o : json) (k : string) : json :=
  match o with
  | JObj kvs => default JNull (assoc k kvs)
  | _ => JNull
  end.

(** A document that holds no NaN. *)
Fixpoint nan_free (v : json) : bool :=
  match v with
  | JNum (Float NaN) => false
  | JList l => forallb nan_free l
  | JObj kvs =>
      (fix go (l : list (string * json)) : bool :=
         match l with
         | [] => true
         | (_, x) :: l' => nan_free x && go l'
         end) kvs
  | _ => true
  end.

(** The current PCN code that the report of [main.py] shows for a code:
    the column 'Current PCN Code' of its row, when there is one. *)
Definition report_current_pcn (rt : runtime) (data : json)
    (ods_code : string) : option json :=
  match create_practice_pcn_report rt data with
  | Ok (Some practices) =>
      option_map (λ row, field row "Current PCN Code")
        (List.find (λ row, py_eq (field row "ODS Code") (JStr ods_code))
           practices)
  | _ => None
  end.

(** The entity-class filters. *)
Definition has_practice_role (org : json) : bool :=
  match roles_of org with
  | Ok roles => try_except (py_any is_practice_role roles) false
  | Raise _ => false
  end.

Definition has_primary_pcn_role (org : json) : bool :=
  match roles_of org with
  | Ok roles => try_except (py_any is_primary_pcn_role roles) false
  | Raise _ => false
  end.

(** Values that can be used as a dict key. *)
Definition hashable (v : json) : bool :=
  match v with
  | JList _ | JObj _ => false
  | _ => true
  end.

(** A role field that the class filters can read: nothing, or a list of
    role objects. *)
Definition wf_roles (role : json) : bool :=
  negb (truthy role) ||
  match role with
  | JList l => forallb isinstance_dict l
  | _ => false
  end.

(** An organisation record that the differ can interpret. *)
Definition wf_org (org : json) : bool :=
  match org with
  | JObj kvs =>
      match default empty_dict (assoc "Roles" kvs) with
      | JObj rkvs => wf_roles (default empty_list (assoc "Role" rkvs))
      | _ => false
      end
      && hashable (get_current_pcn org)
  | _ => false
  end.

Definition wf_entry (entry : json) : bool :=
  match entry with
  | JObj kvs => wf_org (default empty_dict (assoc "Organisation" kvs))
  | _ => false
  end.

(** A snapshot all of whose organisation records are well formed. *)
Definition wf_snapshot (data : json) : bool :=
  match data with
  | JObj kvs =>
      match default empty_dict (assoc "organisations" kvs) with
      | JObj orgs => forallb (λ kv, wf_entry (snd kv)) orgs
      | _ => false
      end
  | _ => false
  end.

(** The records of a change list that concern one organisation. *)
Definition concerns (ods_code : string) (change : json) : bool :=
  py_eq (field change "ods_code") (JStr ods_code).

Definition record_type (change : json) : option json :=
  match change with
  | JObj kvs => assoc "type" kvs
  | _ => None
  end.

Definition has_type (change : json) : bool :=
  bool_decide (is_Some (record_type change)).

(** The records appended for one code all carry that code, and a type. *)
Definition records_of (ods_code : string) (rs : list json) : Prop :=
  Forall (λ r, field r "ods_code" = JStr ods_code ∧ has_type r = true) rs.

(** A record of the given kind: its ["type"] is that string. *)
Definition is_kind (kind : string) (change : json) : bool :=
  match record_type change with
  | Some (JStr t) => String.eqb t kind
  | _ => false
  end.

(** Number of records of a given kind. *)
Fixpoint count_kind (kind : string) (changes : list json) : Z :=
  match changes with
  | [] => 0
  | c :: rest =>
      (if is_kind kind c then 1 else 0) + count_kind kind rest
  end.

(** The summary that a run with the given change lists must store. *)
Definition expected_summary (practice_changes pcn_changes : list json) : json :=
  JObj [("total_changes",
         JNum (Int (Z.of_nat (length practice_changes + length pcn_changes))));
        ("practice_changes",
         JObj [("total", JNum (Int (Z.of_nat (length practice_changes))));
               ("new", JNum (Int (count_kind "new_practice" practice_changes)));
               ("closed", JNum (Int (count_kind "closed_practice" practice_changes)));
               ("status", JNum (Int (count_kind "status_change" practice_changes)));
               ("pcn", JNum (Int (count_kind "pcn_change" practice_changes)))]);
        ("pcn_changes",
         JObj [("total", JNum (Int (Z.of_nat (length pcn_changes))));
               ("new", JNum (Int (count_kind "new_pcn" pcn_changes)));
               ("closed", JNum (Int (count_kind "closed_pcn" pcn_changes)));
               ("status", JNum (Int (count_kind "status_change" pcn_changes)))])].

(** A change history that [update_tracked_changes] can extend: no file yet,
    or a document with a list under ["changes"]. *)
Definition wf_history (file : tracked_file) : bool :=
  match file with
  | None => true
  | Some (JObj kvs) =>
      match assoc "changes" kvs with
      | Some (JList _) => true
      | _ => false
      end
  | Some _ => false
  end.

(** ** Sample records *)

Module Sample.

Definition role (id : string) (primary : bool) : json :=
  JObj [("id", JStr id); ("primaryRole", JBool primary)].

Definition interval (start : string) (end_ : option string) : json :=
  JObj (("Type", JStr "Operational") :: ("Start", JStr start) ::
        match end_ with
        | Some e => [("End", JStr e)]
        | None => []
        end).

(** A membership relationship (kind RE8) towards a network. *)
Definition rel_with_dates (target status : string) (dates : json) : json :=
  JObj [("Date", dates);
        ("Status", JStr status);
        ("Target",
         JObj [("OrgId", JObj [("extension", JStr target)]);
               ("PrimaryRoleId", JObj [("id", JStr "RO272")])]);
        ("id", JStr "RE8")].

Definition rel (target status start : string) (end_ : option string)
    : json :=
  rel_with_dates target status (JList [interval start end_]).

Definition org_info (name status changed : string) (roles : json)
    (rels : list json) : json :=
  JObj [("Name", JStr name); ("Status", JStr status);
        ("LastChangeDate", JStr changed);
        ("Roles", JObj [("Role", roles)]);
        ("Rels", JObj [("Rel", JList rels)])].

Definition entry (info : json) : json := JObj [("Organisation", info)].

Definition snapshot (orgs : list (string * json)) : json :=
  JObj [("metadata", JObj [("icb_code", JStr "93C")]);
        ("organisations", JObj orgs)].

Definition practice_role : json := JList [role "RO76" true].
Definition pcn_role : json := JList [role "RO272" true].

Definition network (name : string) : json :=
  entry (org_info name "Active" "2023-04-01" pcn_role []).

(** A practice that joined network A in 2020 and network B in 2021, both
    memberships open-ended and Active. *)
Definition joined_a_then_b : json :=
  org_info "High Street Surgery" "Active" "2024-01-01" practice_role
    [rel "A" "Active" "2020-01-01" None; rel "B" "Active" "2021-06-01" None].

Definition joined_b_then_a : json :=
  org_info "High Street Surgery" "Active" "2024-01-01" practice_role
    [rel "B" "Active" "2021-06-01" None; rel "A" "Active" "2020-01-01" None].

Definition member_of (target : string) (changed : string) : json :=
  org_info "High Street Surgery" "Active" changed practice_role
    [rel target "Active" "2020-01-01" None].

(** A snapshot with one practice and one network. *)
Definition one_practice_one_pcn : json :=
  snapshot [("P1", entry (member_of "A" "2024-01-01"));
            ("A", network "Net A")].

Definition no_organisations : json := snapshot [].

(** The role of the practice is a single object instead of a list. *)
Definition single_role_object : json :=
  snapshot [("P1", entry (org_info "High Street Surgery" "Active"
                            "2024-01-01" (role "RO76" true) []));
            ("A", entry (org_info "Net A" "Active" "2023-04-01"
                            (role "RO272" true) []))].




(** The practice belongs to a network that the snapshot does not hold. *)
Definition member_of_absent_pcn : json :=
  snapshot [("P1", entry (member_of "Z9" "2024-01-01"))].

(** Two networks and a practice with two open-ended memberships. *)
Definition two_memberships : json :=
  snapshot [("P1", entry joined_a_then_b);
            ("A", network "Net A"); ("B", network "Net B")].

(** A practice and a network whose status is NaN. *)
Definition nan_status : json :=
  snapshot
    [("P1", entry (JObj [("Name", JStr "High Street Surgery");
                         ("Status", JNum (Float NaN));
                         ("LastChangeDate", JStr "2024-01-01");
                         ("Roles", JObj [("Role", practice_role)]);
                         ("Rels", JObj [("Rel", JList [])])]));
     ("A", entry (JObj [("Name", JStr "Net A");
                        ("Status", JNum (Float NaN));
                        ("LastChangeDate", JStr "2023-04-01");
                        ("Roles", JObj [("Role", pcn_role)]);
                        ("Rels", JObj [("Rel", JList [])])]))].

(** The practice moves from network A to network B. *)
Definition before_move : json :=
  snapshot [("P1", entry (member_of "A" "2024-01-01"));
            ("A", network "Net A"); ("B", network "Net B")].
Definition after_move : json :=
  snapshot [("P1", entry (member_of "B" "2024-02-01"));
            ("A", network "Net A"); ("B", network "Net B")].

(** The practice has become Inactive and has moved to network B, and
    network A has become Inactive. *)
Definition after_closure : json :=
  snapshot [("P1", entry (org_info "High Street Surgery" "Inactive"
                            "2024-03-01" practice_role
                            [rel "B" "Active" "2024-02-01" None]));
            ("A", entry (org_info "Net A" "Inactive" "2024-03-01"
                            pcn_role []));
            ("B", network "Net B")].

(** The first relationship has its dates as a single object; the second
    is a valid open-ended Active membership. *)
Definition malformed_then_valid : json :=
  org_info "High Street Surgery" "Active" "2024-01-01" practice_role
    [rel_with_dates "A" "Active" (interval "2020-01-01" None);
     rel "B" "Active" "2021-06-01" None].

Definition valid_then_malformed : json :=
  org_info "High Street Surgery" "Active" "2024-01-01" practice_role
    [rel "B" "Active" "2021-06-01" None;
     rel_with_dates "A" "Active" (interval "2020-01-01" None)].

End Sample.

(** ** Vocabulary of the further properties *)

(** The entry that a run with the given change lists adds to the
    history. *)
Definition expected_entry (practice_changes pcn_changes : list json)
    (current_file today : string) : json :=
  JObj [("date", JStr today);
        ("data_file", JStr (basename current_file));
        ("summary", expected_summary practice_changes pcn_changes);
        ("practice_changes", JList practice_changes);
        ("pcn_changes", JList pcn_changes)].

(** The records that the differ builds, as documents. *)
Definition new_record_of (type ods_code : string) (org : json) : json :=
  JObj [("type", JStr type); ("ods_code", JStr ods_code);
        ("name", field org "Name");
        ("date_of_change", field org "LastChangeDate")].

Definition status_change_of (ods_code : string) (old_org new_org : json)
    : json :=
  JObj [("type", JStr "status_change"); ("ods_code", JStr ods_code);
        ("name", field new_org "Name");
        ("old_status", field old_org "Status");
        ("new_status", field new_org "Status");
        ("date_of_change", field new_org "LastChangeDate")].

Definition pcn_change_of (ods_code : string) (new_org : json)
    (old_pcn old_pcn_name new_pcn new_pcn_name : json) : json :=
  JObj [("type", JStr "pcn_change"); ("ods_code", JStr ods_code);
        ("name", field new_org "Name");
        ("old_pcn", old_pcn); ("old_pcn_name", old_pcn_name);
        ("new_pcn", new_pcn); ("new_pcn_name", new_pcn_name);
        ("date_of_change", field new_org "LastChangeDate")].

(** An iteration order that differs from the order of insertion: the
    elements are enumerated backwards. *)
Definition reverse_order : set_order :=
  {| iter_set := λ l, reverse (remove_dups l);
     iter_set_perm := λ l, reverse_Permutation (remove_dups l) |}.

(** The kinds of record of each pass. *)
Definition practice_kind (change : json) : bool :=
  is_kind "new_practice" change || is_kind "status_change" change
  || is_kind "pcn_change" change.

Definition pcn_kind (change : json) : bool :=
  is_kind "new_pcn" change || is_kind "status_change" change.

(** A record that concerns an organisation of the new snapshot which
    passes the class filter, and whose kind is one of the pass. *)
Definition reported_by (filter : json → bool) (kinds : json → bool)
    (new_data : json) (r : json) : Prop :=
  ∃ c new_org, field r "ods_code" = JStr c ∧
               org_record new_data c = Some new_org ∧
               filter new_org = true ∧ kinds r = true.

(** ** track_changes.py: [load_latest_data], [load_previous_data], [main]

    The directory [data] is given by the files that
    [glob('data/ncl_icb_data_*.json')] matches, in the order of the
    listing, each with the document that [json.load] returns for it, or
    [None] when opening or parsing it raises. *)

Definition data_dir : Type := list (string * option json).

(** [glob('data/ncl_icb_data_*.json')] *)
Definition glob (dir : data_dir) : list string := keys (items dir).

(** [with open(path) as f: json.load(f)]; [None] when it raises. *)
Definition read_json (dir : data_dir) (path : string) : option json :=
  match assoc path dir with
  | Some content => content
  | None => None
  end.

(** [max(l)] on strings: the first of the greatest elements. *)
Definition max_string (l : list string) : option string :=
  match l with
  | [] => None
  | x :: rest =>
      Some (fold_left (λ m y, if String.ltb m y then y else m) rest x)
  end.

(** [sorted(l)] on strings. *)
Fixpoint insert_sorted (x : string) (l : list string) : list string :=
  match l with
  | [] => [x]
  | y :: rest =>
      if String.leb x y then x :: y :: rest else y :: insert_sorted x rest
  end.

Definition sorted (l : list string) : list string :=
  fold_right insert_sorted [] l.

(** [l.index(x)]; [None] stands for [ValueError]. *)
Fixpoint index (x : string) (l : list string) : option nat :=
  match l with
  | [] => None
  | y :: rest =>
      if String.eqb y x then Some O else option_map S (index x rest)
  end.

(** The pair returned by the two loaders: [(None, None)] or the document
    and the path of the file. *)
Definition nothing_loaded : json * option string := (JNull, None).

Definition load_latest_data (dir : data_dir) : json * option string :=
  let data_files := glob dir in
  match max_string data_files with
  | None => nothing_loaded
  | Some latest_file =>
      match read_json dir latest_file with
      | Some data => (data, Some latest_file)
      | None => nothing_loaded
      end
  end.

Definition load_previous_data (dir : data_dir) (current_file : string)
    : json * option string :=
  let data_files := glob dir in
  if (length data_files <? 2)%nat then nothing_loaded else
  let sorted_files := sorted data_files in
  match index current_file sorted_files with
  | None => nothing_loaded
  | Some O => nothing_loaded
  | Some (S prev_file_idx) =>
      match sorted_files !! prev_file_idx with
      | Some previous_file =>
          match read_json dir previous_file with
          | Some data => (data, Some previous_file)
          | None => nothing_loaded
          end
      | None => nothing_loaded
      end
  end.

(** [main]: the file of tracked changes after the run.  An exception
    raised by the differ is logged and leaves the file as it was.  The two
    passes may iterate over their sets of codes in different orders. *)
Definition main (so_practice so_pcn : set_order) (dir : data_dir)
    (file : tracked_file) (today : string) : tracked_file :=
  let '(latest_data, latest_file) := load_latest_data dir in
  if negb (truthy latest_data) then file else
  match latest_file with
  | None => file
  | Some latest_file =>
      let '(previous_data, previous_file) :=
        load_previous_data dir latest_file in
      if negb (truthy previous_data) then file else
      match detect_practice_changes so_practice previous_data latest_data with
      | Raise _ => file
      | Ok practice_changes =>
          match detect_pcn_changes so_pcn previous_data latest_data with
          | Raise _ => file
          | Ok pcn_changes =>
              update_tracked_changes file
                (changes_dict practice_changes pcn_changes)
                latest_file today
          end
      end
  end.

(** The order of the file names: [s <= t] and [s < t] on strings. *)
Definition str_le (s t : string) : Prop := String.leb s t = true.
Definition str_lt (s t : string) : Prop := String.ltb s t = true.

(** A list of names in ascending order. *)
Fixpoint ascending (l : list string) : Prop :=
  match l with
  | [] => True
  | y :: rest => Forall (str_le y) rest ∧ ascending rest
  end.

(** [file] is the greatest of the file names of the directory. *)
Definition newest (dir : data_dir) (file : string) : Prop :=
  file ∈ glob dir ∧ ∀ g, g ∈ glob dir → str_le g file.

(** [file] is the file that precedes [current_file] in the order of the
    names: the greatest of the names below [current_file]. *)
Definition predecessor (dir : data_dir) (current_file file : string) : Prop :=
  file ∈ glob dir ∧ current_file ∈ glob dir ∧ str_lt file current_file ∧
  ∀ g, g ∈ glob dir → str_lt g current_file → str_le g file.

(** A directory with three snapshots. *)
Module SampleDir.

Definition three_days : data_dir :=
  [("data/ncl_icb_data_20240201.json", Some Sample.after_move);
   ("data/ncl_icb_data_20240301.json", Some Sample.after_closure);
   ("data/ncl_icb_data_20240101.json", Some Sample.before_move)].

Definition one_day : data_dir :=
  [("data/ncl_icb_data_20240101.json", Some Sample.before_move)].

(** The same snapshot was downloaded on two days. *)
Definition same_twice : data_dir :=
  [("data/ncl_icb_data_20240101.json", Some Sample.before_move);
   ("data/ncl_icb_data_20240102.json", Some Sample.before_move)].

End SampleDir.

(** ** Vocabulary for the report of [main.py] *)

(** The membership that a relationship records, as the loop
    [for rel in pcn_rels] reads it: the code of the target and the start
    date, when the target is a key of [pcns], the status is [Active] and
    there is no end date; [None] otherwise. *)
Definition membership_of (pcns : list (string * json)) (rel : json)
    : result (option (json * json)) :=
  let* target_ods := target_extension rel in
  let* known := py_in target_ods pcns in
  if negb known then Ok None else
  let* rel_dates := get rel "Date" empty_list in
  let rel_dates := as_list rel_dates in
  let* status := get rel "Status" JNull in
  if py_eq status (JStr "Active")
     && negb (truthy (first_dict_field "End" rel_dates))
  then Ok (Some (target_ods, first_dict_field "Start" rel_dates))
  else Ok None.

(** The roles that the report reads from an entry of the snapshot: a role
    field that is a single object counts as a list of one role. *)
Definition report_roles (org_data : json) : result (list json) :=
  let* org_info := get org_data "Organisation" empty_dict in
  let* roles_obj := get org_info "Roles" empty_dict in
  let* roles := get roles_obj "Role" empty_list in
  Ok (as_list roles).

(** The class tests of the two loops of the report; an exception that
    they raise ends the report. *)
Definition report_pcn_test (org_data : json) : result bool :=
  let* roles := report_roles org_data in
  py_any is_primary_pcn_role roles.

Definition report_practice_test (org_data : json) : result bool :=
  let* roles := report_roles org_data in
  py_any is_practice_role roles.

#[global] Instance exn_eq_dec : EqDecision exn.
Proof. solve_decision. Defined.

#[global] Instance result_eq_dec {A} `{EqDecision A} : EqDecision (result A).
Proof. solve_decision. Defined.

(** The role field of an entry, as the report reads it. *)
Definition report_role_field (org_data : json) : result json :=
  let* org_info := get org_data "Organisation" empty_dict in
  let* roles_obj := get org_info "Roles" empty_dict in
  get roles_obj "Role" empty_list.

(** The rows of the report on a snapshot with one practice and one
    network. *)
Module SampleReport.

Definition rows : list json :=
  Eval vm_compute in
  match create_practice_pcn_report plain_runtime
          Sample.one_practice_one_pcn with
  | Ok (Some rows) => rows
  | _ => []
  end.

Definition row : json := Eval vm_compute in default JNull (head rows).

End SampleReport.

(** ** download_data.py: [extract_pcn_data] *)

Definition extract_pcn_data_body (org_data : json) : result (option json) :=
  let* org_info := get org_data "Organisation" empty_dict in
  let* roles_obj := get org_info "Roles" empty_dict in
  let* roles := get roles_obj "Role" empty_list in
  let* is_pcn := py_any is_primary_pcn_role (as_list roles) in
  if negb is_pcn then Ok None else
  let* location := location_of org_info in
  let* orgid := get org_info "OrgId" empty_dict in
  let* code := get orgid "extension" JNull in
  let* name := get org_info "Name" JNull in
  let* status := get org_info "Status" JNull in
  let* address := get location "AddrLn1" JNull in
  let* town := get location "Town" JNull in
  let* postcode := get location "PostCode" JNull in
  let* last_changed := get org_info "LastChangeDate" JNull in
  Ok (Some (JObj [("ODS Code", code); ("Name", name); ("Status", status);
                  ("Address", address); ("Town", town);
                  ("Postcode", postcode);
                  ("Last Changed", last_changed)])).

(** The row of the PCN, or [None] when the organisation is not a PCN or an
    exception was logged. *)
Definition extract_pcn_data (org_data : json) : option json :=
  try_except (extract_pcn_data_body org_data) None.

(** The organisation record of an entry of the snapshot, as the differ
    reads it. *)
Definition organisation (entry : json) : json :=
  match entry with
  | JObj kvs => default empty_dict (assoc "Organisation" kvs)
  | _ => empty_dict
  end.

(** * Properties *)

(** ** The exception monad *)

Lemma bind_Ok {A B} (m : result A) (k : A → result B) (b : B) :
  bind m k = Ok b → ∃ a, m = Ok a ∧ k a = Ok b.
Proof. destruct m as [a|e]; simpl; [eauto | discriminate]. Qed.

(** Inverts the hypotheses that say that a sequence of steps returned. *)
Ltac inv_bind H :=
  let a := fresh "v" in
  let Ha := fresh "Hv" in
  apply bind_Ok in H; destruct H as (a & Ha & H).

(** ** Membership resolution *)

(** The scan skips the relationships that are not candidates. *)
Lemma first_current_pcn_skip (pre rest : list json) :
  Forall (λ r, is_current_pcn_rel r = Ok false) pre →
  first_current_pcn (pre ++ rest) = first_current_pcn rest.
Proof.
  induction 1 as [|r pre Hr _ IH]; simpl; [done|].
  by rewrite Hr.
Qed.

(** The scan returns the target of the first candidate in list order. *)
Lemma first_current_pcn_first (pre post : list json) (rel : json) :
  Forall (λ r, is_current_pcn_rel r = Ok false) pre →
  is_current_pcn_rel rel = Ok true →
  first_current_pcn (pre ++ rel :: post) = target_extension rel.
Proof.
  intros Hpre Hrel. rewrite first_current_pcn_skip by done.
  simpl. by rewrite Hrel.
Qed.

(** An exception raised while a relationship is examined ends the scan. *)
Lemma first_current_pcn_raise (pre post : list json) (bad : json) (e : exn) :
  Forall (λ r, is_current_pcn_rel r = Ok false) pre →
  is_current_pcn_rel bad = Raise e →
  first_current_pcn (pre ++ bad :: post) = Raise e.
Proof.
  intros Hpre Hbad. rewrite first_current_pcn_skip by done.
  simpl. by rewrite Hbad.
Qed.

(** What the scan returns is [None] or the target of a candidate. *)
Lemma first_current_pcn_range (rels : list json) (v : json) :
  first_current_pcn rels = Ok v →
  v = JNull ∨
  ∃ rel, rel ∈ rels ∧ is_current_pcn_rel rel = Ok true ∧
         target_extension rel = Ok v.
Proof.
  induction rels as [|r rels IH]; simpl.
  - intros [= <-]. by left.
  - destruct (is_current_pcn_rel r) as [[]|] eqn:Hr; simpl; [| |done].
    + intros Hv. right. exists r. split; [left|done].
    + intros Hv. destruct (IH Hv) as [->|(rel & Hin & Hc & Ht)]; [by left|].
      right. exists rel. split; [by right|done].
Qed.

Lemma wf_snapshot_orgs (data : json) :
  wf_snapshot data = true →
  ∃ orgs, get data "organisations" empty_dict = Ok (JObj orgs) ∧
          orgs_of data = orgs ∧
          forallb (λ kv, wf_entry (snd kv)) orgs = true.
Proof.
  destruct data as [| | | | |kvs]; try discriminate. unfold orgs_of. simpl.
  destruct (default empty_dict (assoc "organisations" kvs)) as [| | | | |orgs];
    try discriminate.
  intros H. exists orgs. auto.
Qed.

Lemma present_false (data : json) (c : string) :
  present data c = false → assoc c (orgs_of data) = None.
Proof.
  unfold present. intros H%bool_decide_eq_false.
  destruct (assoc c (orgs_of data)); [|done]. exfalso. eauto.
Qed.

Lemma present_true (data : json) (c : string) :
  present data c = true → ∃ entry, assoc c (orgs_of data) = Some entry.
Proof. unfold present. intros [entry H]%bool_decide_eq_true. eauto. Qed.

(** The name of a code that the snapshot does not hold is [None]. *)
Lemma get_pcn_name_absent (data : json) (c : string) :
  wf_snapshot data = true →
  present data c = false →
  get_pcn_name data (JStr c) = Ok JNull.
Proof.
  intros (orgs & Hget & Horgs & _)%wf_snapshot_orgs Habs%present_false.
  unfold get_pcn_name. rewrite Hget. simpl.
  rewrite Horgs in Habs. rewrite Habs. simpl.
  by destruct (negb _).
Qed.

(** C2. Resolution is meant to select, among the open-ended Active network
    relationships, the one with the greatest start date, whatever the order
    of the list.  [get_current_pcn] returns at the first candidate instead:
    for a practice that joined A on 2020-01-01 and B on 2021-06-01 it
    answers A when A comes first in the list, and B only when the list
    happens to be in the other order. *)
Theorem get_current_pcn_takes_first_candidate :
  get_current_pcn Sample.joined_a_then_b = JStr "A" ∧
  get_current_pcn Sample.joined_b_then_a = JStr "B".
Proof. split; reflexivity. Qed.

(** Resolution reads the organisation record alone and never consults
    the snapshot: a relationship whose embedded target role is RO272, whose
    status is Active and none of whose intervals has an end is resolved
    when no relationship before it is, even when its target code is absent
    from the snapshot; the name looked up for that code is [None]. *)
Lemma absent_target_resolved_without_name
    (data org : json) (pre post : list json) (rel : json) (target : string) :
  wf_snapshot data = true →
  present data target = false →
  rels_of org = Ok (pre ++ rel :: post) →
  Forall (λ r, is_current_pcn_rel r = Ok false) pre →
  is_current_pcn_rel rel = Ok true →
  target_extension rel = Ok (JStr target) →
  get_current_pcn org = JStr target ∧
  get_pcn_name data (JStr target) = Ok JNull.
Proof.
  intros Hwf Habs Hrels Hpre Hrel Htarget. split.
  - unfold get_current_pcn, get_current_pcn_body. rewrite Hrels. simpl.
    rewrite first_current_pcn_first by done. by rewrite Htarget.
  - by apply get_pcn_name_absent.
Qed.

Lemma absent_target_resolved_without_name_witness :
  get_current_pcn
    (Sample.org_info "High Street Surgery" "Active" "2024-01-01"
       Sample.practice_role
       [Sample.rel "A" "Active" "2019-07-01" (Some "2020-03-31");
        Sample.rel "Z9" "Active" "2020-04-01" None]) = JStr "Z9" ∧
  get_pcn_name Sample.one_practice_one_pcn (JStr "Z9") = Ok JNull.
Proof.
  apply (absent_target_resolved_without_name
           Sample.one_practice_one_pcn _
           [Sample.rel "A" "Active" "2019-07-01" (Some "2020-03-31")] []
           (Sample.rel "Z9" "Active" "2020-04-01" None) "Z9").
  - reflexivity.
  - reflexivity.
  - reflexivity.
  - repeat constructor.
  - reflexivity.
  - reflexivity.
Defined.

(** C4. A relationship whose target is not an organisation of the snapshot
    is meant to be no candidate, so that a practice with only such
    relationships has no current membership.  [get_current_pcn] is given
    the organisation record alone and never looks the target up: for the
    practice P1, whose only membership points to Z9, a code that the
    snapshot does not hold, it resolves Z9, for which [get_pcn_name] finds
    no name.  The loop of the report in [main.py], which keeps the
    relationships whose target is [in pcns], resolves nothing on the same
    relationship and the PCNs of the same snapshot. *)
Theorem absent_target_is_resolved :
  org_record Sample.member_of_absent_pcn "P1"
    = Some (Sample.member_of "Z9" "2024-01-01") ∧
  rels_of (Sample.member_of "Z9" "2024-01-01")
    = Ok [Sample.rel "Z9" "Active" "2020-01-01" None] ∧
  present Sample.member_of_absent_pcn "Z9" = false ∧
  get_current_pcn (Sample.member_of "Z9" "2024-01-01") = JStr "Z9" ∧
  get_pcn_name Sample.member_of_absent_pcn (JStr "Z9") = Ok JNull ∧
  identify_pcns (items (orgs_of Sample.member_of_absent_pcn)) [] = Ok [] ∧
  resolve_pcn_rels [] [Sample.rel "Z9" "Active" "2020-01-01" None]
    JNull JNull = Ok (JNull, JNull).
Proof. repeat split; reflexivity. Qed.

(** A relationship towards a network, Active, whose dates are a single
    object: iterating the object yields its keys, which are strings and
    have no [get]. *)
Lemma single_date_object_raises (kvs tk pk : list (string * json))
    (d : string * json) (ds : list (string * json)) :
  assoc "Target" kvs = Some (JObj tk) →
  assoc "PrimaryRoleId" tk = Some (JObj pk) →
  assoc "id" pk = Some (JStr "RO272") →
  assoc "Status" kvs = Some (JStr "Active") →
  assoc "Date" kvs = Some (JObj (d :: ds)) →
  is_current_pcn_rel (JObj kvs) = Raise AttributeError.
Proof.
  intros Ht Hp Hid Hs Hd. unfold is_current_pcn_rel. simpl.
  rewrite Ht. simpl. rewrite Hp. simpl. rewrite Hid. simpl.
  rewrite Hs. simpl. rewrite Hd. simpl. by destruct d.
Qed.

(** C10, as stated, does not hold: a relationship whose examination raises
    does not always make the resolution [None].  When a valid candidate
    precedes it in the list the scan returns that candidate and never
    reaches the malformed relationship. *)
Lemma malformed_relationship_after_candidate :
  ¬ (∀ (org : json) (rels : list json) (bad : json) (e : exn),
       rels_of org = Ok rels → bad ∈ rels →
       is_current_pcn_rel bad = Raise e →
       get_current_pcn org = JNull).
Proof.
  intros H.
  set (malformed := Sample.rel_with_dates "A" "Active"
                      (Sample.interval "2020-01-01" None)).
  set (valid := Sample.rel "B" "Active" "2021-06-01" None).
  assert (Hin : malformed ∈ [valid; malformed]) by (right; left).
  specialize (H Sample.valid_then_malformed [valid; malformed] malformed
                AttributeError eq_refl Hin eq_refl).
  discriminate H.
Qed.

(** C10, amended.  [get_current_pcn] never raises: it returns [None] or the
    target extension of a relationship that satisfies the condition, and an
    exception in its body is turned into [None].  It is not isolated per
    relationship: when the scan reaches, before any candidate, a
    relationship whose examination raises (for instance a network
    relationship, Active, whose dates are a single object) the whole
    resolution is [None], whatever valid open-ended Active candidates come
    later in the list.  A candidate that the scan meets first is resolved
    whatever follows it. *)
Theorem get_current_pcn_total_not_isolated :
  (∀ org : json,
     get_current_pcn org = JNull ∨
     ∃ rels rel, rels_of org = Ok rels ∧ rel ∈ rels ∧
                 is_current_pcn_rel rel = Ok true ∧
                 target_extension rel = Ok (get_current_pcn org)) ∧
  (∀ (org : json) (e : exn),
     get_current_pcn_body org = Raise e → get_current_pcn org = JNull) ∧
  (∀ (org : json) (pre post : list json) (bad : json) (e : exn),
     rels_of org = Ok (pre ++ bad :: post) →
     Forall (λ r, is_current_pcn_rel r = Ok false) pre →
     is_current_pcn_rel bad = Raise e →
     get_current_pcn org = JNull) ∧
  (∀ (target : string) (d : string * json) (ds : list (string * json)),
     is_current_pcn_rel (Sample.rel_with_dates target "Active" (JObj (d :: ds)))
     = Raise AttributeError) ∧
  (∀ (org : json) (pre post : list json) (rel : json),
     rels_of org = Ok (pre ++ rel :: post) →
     Forall (λ r, is_current_pcn_rel r = Ok false) pre →
     is_current_pcn_rel rel = Ok true →
     get_current_pcn org = try_except (target_extension rel) JNull).
Proof.
  repeat split; [| | | |
    intros org pre post rel Hrels Hpre Hrel;
    unfold get_current_pcn, get_current_pcn_body; rewrite Hrels; simpl;
    by rewrite first_current_pcn_first].
  - intros org. unfold get_current_pcn, get_current_pcn_body.
    destruct (rels_of org) as [rels|e] eqn:Hrels; simpl; [|by left].
    destruct (first_current_pcn rels) as [v|e] eqn:Hv; simpl; [|by left].
    destruct (first_current_pcn_range _ _ Hv) as [->|(rel & ? & ? & ?)];
      [by left|right; eauto 6].
  - intros org e H. unfold get_current_pcn. by rewrite H.
  - intros org pre post bad e Hrels Hpre Hbad.
    unfold get_current_pcn, get_current_pcn_body. rewrite Hrels. simpl.
    by rewrite (first_current_pcn_raise pre post bad e).
  - intros target d ds. by eapply single_date_object_raises.
Qed.

Lemma get_current_pcn_total_not_isolated_witness :
  get_current_pcn Sample.malformed_then_valid = JNull ∧
  is_current_pcn_rel (Sample.rel "B" "Active" "2021-06-01" None) = Ok true.
Proof.
  split; [|reflexivity].
  apply (proj1 (proj2 (proj2 get_current_pcn_total_not_isolated))
           Sample.malformed_then_valid []
           [Sample.rel "B" "Active" "2021-06-01" None]
           (Sample.rel_with_dates "A" "Active"
              (Sample.interval "2020-01-01" None))
           AttributeError).
  - reflexivity.
  - constructor.
  - reflexivity.
Defined.
(** ** Dicts *)

Lemma keys_items_from {A} (seen : list string) (kvs : list (string * A))
    (k : string) :
  k ∈ keys (items_from seen kvs) ↔ (k ∉ seen) ∧ is_Some (assoc k kvs).
Proof.
  revert seen. induction kvs as [|[k' v] kvs IH]; intros seen; simpl.
  - split; [by intros ?%elem_of_nil | by intros [_ [? ?]]].
  - case_bool_decide as Hseen.
    + rewrite IH. destruct (String.eqb_spec k k') as [->|Hne]; [|done].
      tauto.
    + simpl. rewrite elem_of_cons, IH, not_elem_of_cons.
      destruct (String.eqb_spec k k') as [->|Hne]; [|tauto].
      split; [intros _; split; [done|by eexists] | intros _; by left].
Qed.

(** The keys of a dict are the strings that can be looked up in it. *)
Lemma keys_items {A} (kvs : list (string * A)) (k : string) :
  k ∈ keys (items kvs) ↔ is_Some (assoc k kvs).
Proof.
  unfold items. rewrite keys_items_from. split; [by intros [_ ?]|].
  split; [apply not_elem_of_nil | done].
Qed.

Lemma assoc_elem_of {A} (kvs : list (string * A)) (k : string) (v : A) :
  assoc k kvs = Some v → (k, v) ∈ kvs.
Proof.
  induction kvs as [|[k' v'] kvs IH]; simpl; [done|].
  destruct (String.eqb_spec k k') as [->|Hne].
  - intros [= ->]. left.
  - intros H. right. auto.
Qed.

(** ** Equality of loaded values *)

Lemma py_eq_list_refl (l : list json) :
  Forall (λ x, py_eq x x = true) l →
  (fix go (l m : list json) : bool :=
     match l, m with
     | [], [] => true
     | x :: l', y :: m' => py_eq x y && go l' m'
     | _, _ => false
     end) l l = true.
Proof. induction 1 as [|x l Hx _ IH]; [done|]. by rewrite Hx, IH. Qed.

Lemma py_eq_dict_refl (kvs l : list (string * json)) (seen : list string) :
  Forall (λ kv, py_eq (snd kv) (snd kv) = true) l →
  (∀ k, k ∉ seen → assoc k kvs = assoc k l) →
  (fix go (seen : list string) (l : list (string * json)) : bool :=
     match l with
     | [] => true
     | (k, v) :: l' =>
         (if bool_decide (k ∈ seen) then true
          else match assoc k kvs with
               | Some v' => py_eq v v'
               | None => false
               end)
         && go (k :: seen) l'
     end) seen l = true.
Proof.
  intros Hl. revert seen.
  induction Hl as [|[k v] l Hv _ IH]; intros seen Hseen; [done|].
  rewrite IH.
  - case_bool_decide as Hk; [done|].
    rewrite (Hseen k Hk). simpl. rewrite String.eqb_refl. simpl in Hv.
    by rewrite Hv.
  - intros k' [Hne Hk']%not_elem_of_cons. rewrite (Hseen k' Hk'). simpl.
    by destruct (String.eqb_spec k' k).
Qed.

Lemma num_eqb_refl (n : number) : n ≠ Float NaN → num_eqb n n = true.
Proof.
  unfold num_eqb. destruct n as [z|[|[]|m e]]; simpl; try done.
  - by rewrite Z.compare_refl.
  - by rewrite Z.compare_refl.
Qed.

Lemma nan_free_dict (kvs : list (string * json)) :
  nan_free (JObj kvs) = true ↔ Forall (λ kv, nan_free (snd kv) = true) kvs.
Proof.
  induction kvs as [|[k v] kvs IH]; simpl; [by split|].
  simpl in IH. rewrite andb_true_iff, IH, Forall_cons. done.
Qed.

Lemma nan_free_list (l : list json) :
  nan_free (JList l) = true ↔ Forall (λ x, nan_free x = true) l.
Proof.
  simpl. rewrite forallb_forall, Forall_forall. split.
  - intros H x Hx. by apply H, list_elem_of_In.
  - intros H x Hx. by apply H, list_elem_of_In.
Qed.

(** A value that holds no NaN is equal to itself. *)
Lemma py_eq_refl (a : json) : nan_free a = true → py_eq a a = true.
Proof.
  induction a as [|b|n|s|l IH|kvs IH] using json_ind'; intros Hfree.
  - done.
  - simpl. by apply num_eqb_refl.
  - simpl. apply num_eqb_refl. by intros ->.
  - apply String.eqb_refl.
  - apply nan_free_list in Hfree. cbn [py_eq]. apply py_eq_list_refl.
    apply Forall_forall. intros x Hx.
    rewrite Forall_forall in IH, Hfree. auto.
  - apply nan_free_dict in Hfree. cbn [py_eq].
    rewrite (py_eq_dict_refl kvs kvs []); [| |done].
    + simpl. apply forallb_forall. intros k Hk. apply bool_decide_eq_true.
      by apply list_elem_of_In.
    + apply Forall_forall. intros kv Hkv.
      rewrite Forall_forall in IH, Hfree. auto.
Qed.

Lemma nan_free_assoc (kvs : list (string * json)) (k : string) (v : json) :
  nan_free (JObj kvs) = true → assoc k kvs = Some v → nan_free v = true.
Proof.
  intros Hfree%nan_free_dict Hk%assoc_elem_of.
  rewrite Forall_forall in Hfree. exact (Hfree _ Hk).
Qed.

Lemma nan_free_get (o d v : json) (k : string) :
  nan_free o = true → nan_free d = true → get o k d = Ok v →
  nan_free v = true.
Proof.
  destruct o as [| | | | |kvs]; try done. simpl. intros Ho Hd [= <-].
  destruct (assoc k kvs) as [x|] eqn:Hx; [|done].
  by eapply nan_free_assoc.
Qed.

Lemma nan_free_organisation_of (orgs org : json) (ods_code : string) :
  nan_free orgs = true → organisation_of orgs ods_code = Ok org →
  nan_free org = true.
Proof.
  unfold organisation_of. intros Hfree H.
  apply bind_Ok in H as (entry & Hentry & H).
  apply (nan_free_get entry empty_dict org "Organisation"); [|done|done].
  by apply (nan_free_get orgs empty_dict entry ods_code).
Qed.

Lemma nan_free_first_current_pcn (rels : list json) (v : json) :
  Forall (λ rel, nan_free rel = true) rels →
  first_current_pcn rels = Ok v → nan_free v = true.
Proof.
  induction 1 as [|rel rels Hrel _ IH]; simpl; [by intros [= <-]|].
  intros H. apply bind_Ok in H as ([] & _ & H); [|auto].
  unfold target_extension in H.
  apply bind_Ok in H as (target & Ht & H).
  apply bind_Ok in H as (orgid & Ho & H).
  apply (nan_free_get orgid JNull v "extension"); [|done|done].
  apply (nan_free_get target empty_dict orgid "OrgId"); [|done|done].
  by apply (nan_free_get rel empty_dict target "Target").
Qed.

Lemma nan_free_get_current_pcn (org : json) :
  nan_free org = true → nan_free (get_current_pcn org) = true.
Proof.
  intros Hfree. unfold get_current_pcn.
  destruct (get_current_pcn_body org) as [v|] eqn:H; [|done]. simpl.
  unfold get_current_pcn_body in H.
  apply bind_Ok in H as (rels & Hrels & H).
  eapply nan_free_first_current_pcn; [|exact H].
  unfold rels_of in Hrels.
  apply bind_Ok in Hrels as (rels_obj & Hobj & Hrels).
  apply bind_Ok in Hrels as (r & Hr & Hrels). injection Hrels as <-.
  assert (nan_free r = true) as Hfr.
  { apply (nan_free_get rels_obj empty_list r "Rel"); [|done|done].
    by apply (nan_free_get org empty_dict rels_obj "Rels"). }
  destruct r; try (by repeat constructor). by apply nan_free_list.
Qed.

Lemma py_eq_str (v : json) (s : string) :
  py_eq v (JStr s) = true ↔ v = JStr s.
Proof.
  destruct v; simpl; try (split; discriminate).
  rewrite String.eqb_eq. split; [by intros -> | by intros [= ->]].
Qed.

Lemma py_eq_str_str (s t : string) : py_eq (JStr s) (JStr t) = String.eqb s t.
Proof. done. Qed.

(** ** Loops that append *)

Lemma for_append_Ok {A B} (body : A → result (list B)) (l : list A)
    (changes result : list B) :
  for_append body l changes = Ok result →
  ∃ appended, Forall2 (λ x rs, body x = Ok rs) l appended ∧
              result = changes ++ concat appended.
Proof.
  revert changes. induction l as [|x l IH]; intros changes; simpl.
  - intros [= <-]. exists []. split; [constructor|]. by rewrite app_nil_r.
  - intros H. inv_bind H. destruct (IH _ H) as (rest & Hrest & ->).
    exists (v :: rest). split; [by constructor|]. simpl. by rewrite app_assoc.
Qed.

Lemma for_append_total {A B} (body : A → result (list B)) (l : list A)
    (changes : list B) :
  Forall (λ x, ∃ rs, body x = Ok rs) l →
  ∃ result, for_append body l changes = Ok result.
Proof.
  intros Hl. revert changes.
  induction Hl as [|x l [rs Hx] _ IH]; intros changes; simpl; [eauto|].
  rewrite Hx. simpl. apply IH.
Qed.

Lemma for_append_nothing {A B} (body : A → result (list B)) (l : list A)
    (changes : list B) :
  Forall (λ x, body x = Ok []) l → for_append body l changes = Ok changes.
Proof.
  intros Hl. revert changes.
  induction Hl as [|x l Hx _ IH]; intros changes; simpl; [done|].
  rewrite Hx. simpl. by rewrite app_nil_r.
Qed.

(** ** Iteration order *)

Lemma iter_set_elem_of (so : set_order) (l : list string) (c : string) :
  c ∈ iter_set so l ↔ c ∈ l.
Proof. by rewrite (iter_set_perm so l), elem_of_remove_dups. Qed.

Lemma iter_set_NoDup (so : set_order) (l : list string) :
  NoDup (iter_set so l).
Proof. rewrite (iter_set_perm so l). apply NoDup_remove_dups. Qed.
(** ** The class filter *)

Lemma py_any_true_nonempty {A} (f : A → result bool) (l : list A) :
  py_any f l = Ok true → l ≠ [].
Proof. by destruct l. Qed.

(** A record that passes a class filter is a dict that is not empty. *)
Lemma roles_of_nonempty (org : json) (roles : list json) :
  roles_of org = Ok roles → roles ≠ [] → truthy org = true.
Proof.
  unfold roles_of. destruct org as [| | | | |kvs]; try discriminate.
  destruct kvs as [|kv kvs]; [|done]. simpl. by intros [= <-].
Qed.

Lemma filter_accepts_truthy (f : json → result bool) (org : json)
    (roles : list json) :
  roles_of org = Ok roles → py_any f roles = Ok true → truthy org = true.
Proof. eauto using roles_of_nonempty, py_any_true_nonempty. Qed.

(** ** One iteration of the differ *)

(** Comparing a snapshot with itself, an iteration appends nothing. *)
Lemma practice_step_same (data orgs : json) (ods_code : string)
    (rs : list json) :
  nan_free orgs = true →
  practice_step data data orgs orgs ods_code = Ok rs → rs = [].
Proof.
  unfold practice_step. intros Hfree H.
  apply bind_Ok in H as (old_org & Hold & H).
  pose proof (nan_free_organisation_of _ _ _ Hfree Hold) as Horg.
  apply bind_Ok in H as (new_org & Hnew & H).
  rewrite Hold in Hnew. injection Hnew as <-.
  apply bind_Ok in H as (roles & Hroles & H).
  apply bind_Ok in H as ([] & Hany & H); simpl in H; [|by injection H].
  rewrite (filter_accepts_truthy _ _ _ Hroles Hany) in H. simpl in H.
  apply bind_Ok in H as (s1 & Hs1 & H).
  apply bind_Ok in H as (s2 & Hs2 & H).
  rewrite Hs1 in Hs2. injection Hs2 as <-.
  unfold py_ne in H.
  rewrite (py_eq_refl s1) in H
    by (by apply (nan_free_get old_org JNull s1 "Status")).
  rewrite py_eq_refl in H by (by apply nan_free_get_current_pcn).
  simpl in H. by injection H.
Qed.

Lemma pcn_step_same (orgs : json) (ods_code : string) (rs : list json) :
  nan_free orgs = true →
  pcn_step orgs orgs ods_code = Ok rs → rs = [].
Proof.
  unfold pcn_step. intros Hfree H.
  apply bind_Ok in H as (old_org & Hold & H).
  pose proof (nan_free_organisation_of _ _ _ Hfree Hold) as Horg.
  apply bind_Ok in H as (new_org & Hnew & H).
  rewrite Hold in Hnew. injection Hnew as <-.
  apply bind_Ok in H as (roles & Hroles & H).
  apply bind_Ok in H as ([] & Hany & H); simpl in H; [|by injection H].
  rewrite (filter_accepts_truthy _ _ _ Hroles Hany) in H. simpl in H.
  apply bind_Ok in H as (s1 & Hs1 & H).
  apply bind_Ok in H as (s2 & Hs2 & H).
  rewrite Hs1 in Hs2. injection Hs2 as <-.
  unfold py_ne in H.
  rewrite (py_eq_refl s1) in H
    by (by apply (nan_free_get old_org JNull s1 "Status")).
  simpl in H. by injection H.
Qed.

(** The class filter reads the record of the new snapshot only, and a
    record that passes it is not empty: the branch that appends a "closed"
    record is never taken. *)
Lemma practice_step_never_closed (old_data new_data old_orgs new_orgs : json)
    (ods_code : string) (rs : list json) :
  practice_step old_data new_data old_orgs new_orgs ods_code = Ok rs →
  Forall (λ r, is_kind "closed_practice" r = false) rs.
Proof.
  unfold practice_step. intros H.
  apply bind_Ok in H as (old_org & Hold & H).
  apply bind_Ok in H as (new_org & Hnew & H).
  apply bind_Ok in H as (roles & Hroles & H).
  apply bind_Ok in H as ([] & Hany & H); simpl in H;
    [|injection H as <-; constructor].
  rewrite (filter_accepts_truthy _ _ _ Hroles Hany) in H. simpl in H.
  destruct (truthy old_org); simpl in H.
  - apply bind_Ok in H as (s1 & Hs1 & H).
    apply bind_Ok in H as (s2 & Hs2 & H).
    apply bind_Ok in H as (sc & Hsc & H).
    apply bind_Ok in H as (pc & Hpc & H). injection H as <-.
    apply Forall_app. split.
    + destruct (py_ne s1 s2); [|injection Hsc as <-; constructor].
      apply bind_Ok in Hsc as (r & Hr & Hsc). injection Hsc as <-.
      unfold status_change_record in Hr.
      repeat (apply bind_Ok in Hr as (? & ? & Hr)). injection Hr as <-.
      by repeat constructor.
    + destruct (py_ne (get_current_pcn old_org) (get_current_pcn new_org));
        [|injection Hpc as <-; constructor].
      apply bind_Ok in Hpc as (r & Hr & Hpc). injection Hpc as <-.
      unfold pcn_change_record in Hr.
      repeat (apply bind_Ok in Hr as (? & ? & Hr)). injection Hr as <-.
      by repeat constructor.
  - apply bind_Ok in H as (r & Hr & H). injection H as <-.
    unfold new_record in Hr.
    repeat (apply bind_Ok in Hr as (? & ? & Hr)). injection Hr as <-.
    by repeat constructor.
Qed.

Lemma pcn_step_never_closed (old_orgs new_orgs : json) (ods_code : string)
    (rs : list json) :
  pcn_step old_orgs new_orgs ods_code = Ok rs →
  Forall (λ r, is_kind "closed_pcn" r = false) rs.
Proof.
  unfold pcn_step. intros H.
  apply bind_Ok in H as (old_org & Hold & H).
  apply bind_Ok in H as (new_org & Hnew & H).
  apply bind_Ok in H as (roles & Hroles & H).
  apply bind_Ok in H as ([] & Hany & H); simpl in H;
    [|injection H as <-; constructor].
  rewrite (filter_accepts_truthy _ _ _ Hroles Hany) in H. simpl in H.
  destruct (truthy old_org); simpl in H.
  - apply bind_Ok in H as (s1 & Hs1 & H).
    apply bind_Ok in H as (s2 & Hs2 & H).
    destruct (py_ne s1 s2); [|injection H as <-; constructor].
    apply bind_Ok in H as (r & Hr & H). injection H as <-.
    unfold status_change_record in Hr.
    repeat (apply bind_Ok in Hr as (? & ? & Hr)). injection Hr as <-.
    by repeat constructor.
  - apply bind_Ok in H as (r & Hr & H). injection H as <-.
    unfold new_record in Hr.
    repeat (apply bind_Ok in Hr as (? & ? & Hr)). injection Hr as <-.
    by repeat constructor.
Qed.

(** A code that the new snapshot does not hold yields no record at all. *)
Lemma practice_step_absent_from_new
    (old_data new_data old_orgs : json) (new_orgs : list (string * json))
    (ods_code : string) (rs : list json) :
  assoc ods_code new_orgs = None →
  practice_step old_data new_data old_orgs (JObj new_orgs) ods_code = Ok rs →
  rs = [].
Proof.
  intros Habs. unfold practice_step, organisation_of. simpl. rewrite Habs.
  simpl. intros H. apply bind_Ok in H as (old_org & Hold & H).
  by injection H.
Qed.

Lemma pcn_step_absent_from_new
    (old_orgs : json) (new_orgs : list (string * json))
    (ods_code : string) (rs : list json) :
  assoc ods_code new_orgs = None →
  pcn_step old_orgs (JObj new_orgs) ods_code = Ok rs → rs = [].
Proof.
  intros Habs. unfold pcn_step, organisation_of. simpl. rewrite Habs.
  simpl. intros H. apply bind_Ok in H as (old_org & Hold & H).
  by injection H.
Qed.

(** ** Well-formed snapshots *)

Lemma wf_org_inv (org : json) :
  wf_org org = true →
  ∃ kvs roles, org = JObj kvs ∧ roles_of org = Ok roles ∧
               Forall (λ r, isinstance_dict r = true) roles ∧
               hashable (get_current_pcn org) = true.
Proof.
  destruct org as [| | | | |kvs]; try discriminate.
  unfold wf_org. intros [Hroles Hhash]%andb_true_iff.
  exists kvs. unfold roles_of. simpl.
  destruct (default empty_dict (assoc "Roles" kvs)) as [| | | | |rkvs];
    try discriminate.
  simpl. unfold wf_roles in Hroles. unfold py_or.
  destruct (truthy (default empty_list (assoc "Role" rkvs))) eqn:Ht;
    simpl in Hroles.
  - destruct (default empty_list (assoc "Role" rkvs)) as [| | | |l|];
      try discriminate.
    exists l. repeat split; [|done].
    apply Forall_forall. intros r Hr.
    apply (proj1 (forallb_forall _ _) Hroles). by apply list_elem_of_In.
  - exists []. by repeat split.
Qed.

(** In a well-formed snapshot the record read for any code, present or
    not, can be interpreted. *)
Lemma organisation_of_wf (data : json) (ods_code : string) :
  wf_snapshot data = true →
  ∃ org, organisation_of (JObj (orgs_of data)) ods_code = Ok org ∧
         wf_org org = true ∧
         (org_record data ods_code = Some org ∨
          (present data ods_code = false ∧ org = empty_dict)).
Proof.
  intros (orgs & _ & Horgs & Hwf)%wf_snapshot_orgs.
  unfold organisation_of, org_record, present. rewrite Horgs. simpl.
  destruct (assoc ods_code orgs) as [entry|] eqn:Hentry; simpl.
  - apply assoc_elem_of, list_elem_of_In in Hentry.
    apply (proj1 (forallb_forall _ _) Hwf) in Hentry. simpl in Hentry.
    destruct entry as [| | | | |ekvs]; try discriminate. simpl.
    eexists. split; [done|]. split; [done|by left].
  - exists empty_dict. split; [done|]. split; [done|]. by right.
Qed.

Lemma org_record_organisation_of (data : json) (ods_code : string)
    (org : json) :
  org_record data ods_code = Some org →
  organisation_of (JObj (orgs_of data)) ods_code = Ok org ∧
  present data ods_code = true.
Proof.
  unfold org_record, organisation_of, present. simpl.
  destruct (assoc ods_code (orgs_of data)) as [entry|]; [|done].
  destruct entry as [| | | | |ekvs]; try discriminate.
  intros [= <-]. split; [done|]. apply bool_decide_eq_true. eauto.
Qed.

Lemma org_record_wf (data : json) (ods_code : string) (org : json) :
  wf_snapshot data = true →
  org_record data ods_code = Some org → wf_org org = true.
Proof.
  intros Hwf Horg.
  destruct (organisation_of_wf data ods_code Hwf) as (org' & H1 & H2 & _).
  apply org_record_organisation_of in Horg as [Horg _]. congruence.
Qed.

Lemma get_pcn_name_wf (data pcn_ods : json) :
  wf_snapshot data = true → hashable pcn_ods = true →
  ∃ name, get_pcn_name data pcn_ods = Ok name.
Proof.
  intros Hwf Hhash. unfold get_pcn_name.
  destruct (truthy pcn_ods); simpl; [|eauto].
  pose proof Hwf as (orgs & Hget & Horgs & _)%wf_snapshot_orgs.
  rewrite Hget. simpl.
  destruct pcn_ods as [| | |s| |]; try discriminate; simpl;
    try (by eexists).
  destruct (organisation_of_wf data s Hwf) as (org & Horg & Hworg & _).
  unfold organisation_of in Horg. rewrite Horgs in Horg. simpl in Horg.
  destruct (default empty_dict (assoc s orgs)) as [| | | | |ekvs];
    try discriminate.
  simpl in *. injection Horg as ->.
  apply wf_org_inv in Hworg as (kvs & _ & -> & _). simpl. eauto.
Qed.

Lemma py_any_dicts (f : json → result bool) (roles : list json) :
  (∀ kvs, ∃ b, f (JObj kvs) = Ok b) →
  Forall (λ r, isinstance_dict r = true) roles →
  ∃ b, py_any f roles = Ok b.
Proof.
  intros Hf. induction 1 as [|r roles Hr _ [b IH]]; simpl; [eauto|].
  destruct r as [| | | | |kvs]; try discriminate.
  destruct (Hf kvs) as [[] ->]; simpl; eauto.
Qed.

Lemma is_practice_role_dict (kvs : list (string * json)) :
  ∃ b, is_practice_role (JObj kvs) = Ok b.
Proof. unfold is_practice_role. simpl. eauto. Qed.

Lemma is_primary_pcn_role_dict (kvs : list (string * json)) :
  ∃ b, is_primary_pcn_role (JObj kvs) = Ok b.
Proof.
  unfold is_primary_pcn_role. simpl. destruct (negb _); simpl; eauto.
Qed.

Lemma has_practice_role_any (org : json) (roles : list json) :
  roles_of org = Ok roles →
  Forall (λ r, isinstance_dict r = true) roles →
  py_any is_practice_role roles = Ok (has_practice_role org).
Proof.
  intros Hroles Hdicts. unfold has_practice_role. rewrite Hroles.
  destruct (py_any_dicts is_practice_role roles is_practice_role_dict Hdicts)
    as [b ->].
  done.
Qed.

(** On well-formed snapshots an iteration of the practice pass returns. *)
Lemma practice_step_wf (old_data new_data : json) (ods_code : string) :
  wf_snapshot old_data = true → wf_snapshot new_data = true →
  ∃ rs, practice_step old_data new_data (JObj (orgs_of old_data))
          (JObj (orgs_of new_data)) ods_code = Ok rs ∧
        records_of ods_code rs.
Proof.
  intros Hold Hnew. unfold practice_step.
  destruct (organisation_of_wf old_data ods_code Hold)
    as (old_org & -> & Hwo & _).
  destruct (organisation_of_wf new_data ods_code Hnew)
    as (new_org & -> & Hwn & _).
  simpl.
  apply wf_org_inv in Hwo as (okvs & _ & -> & _ & _ & Hho).
  apply wf_org_inv in Hwn as (nkvs & roles & -> & Hroles & Hdicts & Hhn).
  rewrite Hroles. simpl.
  rewrite (has_practice_role_any _ _ Hroles Hdicts). simpl.
  destruct (has_practice_role (JObj nkvs)); simpl;
    [|eexists; split; [done|constructor]].
  destruct okvs as [|okv okvs]; simpl.
  { eexists. split; [done|]. by repeat constructor. }
  destruct nkvs as [|nkv nkvs]; simpl.
  { eexists. split; [done|]. by repeat constructor. }
  set (old_org := JObj (okv :: okvs)) in *.
  set (new_org := JObj (nkv :: nkvs)) in *.
  destruct (get_pcn_name_wf old_data _ Hold Hho) as [oname Honame].
  destruct (get_pcn_name_wf new_data _ Hnew Hhn) as [nname Hnname].
  unfold pcn_change_record. rewrite Honame, Hnname.
  destruct (py_ne _ _), (py_ne _ _); simpl;
    (eexists; split; [done|]); by repeat constructor.
Qed.

Lemma has_primary_pcn_role_any (org : json) (roles : list json) :
  roles_of org = Ok roles →
  Forall (λ r, isinstance_dict r = true) roles →
  py_any is_primary_pcn_role roles = Ok (has_primary_pcn_role org).
Proof.
  intros Hroles Hdicts. unfold has_primary_pcn_role. rewrite Hroles.
  destruct (py_any_dicts is_primary_pcn_role roles is_primary_pcn_role_dict
              Hdicts) as [b ->].
  done.
Qed.

Lemma pcn_step_wf (old_data new_data : json) (ods_code : string) :
  wf_snapshot old_data = true → wf_snapshot new_data = true →
  ∃ rs, pcn_step (JObj (orgs_of old_data)) (JObj (orgs_of new_data))
          ods_code = Ok rs ∧
        records_of ods_code rs.
Proof.
  intros Hold Hnew. unfold pcn_step.
  destruct (organisation_of_wf old_data ods_code Hold)
    as (old_org & -> & Hwo & _).
  destruct (organisation_of_wf new_data ods_code Hnew)
    as (new_org & -> & Hwn & _).
  simpl.
  apply wf_org_inv in Hwo as (okvs & _ & -> & _ & _ & Hho).
  apply wf_org_inv in Hwn as (nkvs & roles & -> & Hroles & Hdicts & Hhn).
  rewrite Hroles. simpl.
  rewrite (has_primary_pcn_role_any _ _ Hroles Hdicts). simpl.
  destruct (has_primary_pcn_role (JObj nkvs)); simpl;
    [|eexists; split; [done|constructor]].
  destruct okvs as [|okv okvs]; simpl.
  { eexists. split; [done|]. by repeat constructor. }
  destruct nkvs as [|nkv nkvs]; simpl.
  { eexists. split; [done|]. by repeat constructor. }
  destruct (py_ne _ _); simpl;
    (eexists; split; [done|]); by repeat constructor.
Qed.

(** The two passes read the dict of organisations of each snapshot and
    iterate over the union of their keys. *)
Lemma detect_practice_changes_unfold (so : set_order)
    (old_data new_data : json) :
  wf_snapshot old_data = true → wf_snapshot new_data = true →
  detect_practice_changes so old_data new_data =
  for_append
    (practice_step old_data new_data (JObj (orgs_of old_data))
       (JObj (orgs_of new_data)))
    (iter_set so (keys (items (orgs_of old_data)) ++
                  keys (items (orgs_of new_data)))) [].
Proof.
  intros (oorgs & Hoget & Hoorgs & _)%wf_snapshot_orgs
         (norgs & Hnget & Hnorgs & _)%wf_snapshot_orgs.
  unfold detect_practice_changes. rewrite Hoget, Hnget, Hoorgs, Hnorgs.
  done.
Qed.

Lemma detect_pcn_changes_unfold (so : set_order) (old_data new_data : json) :
  wf_snapshot old_data = true → wf_snapshot new_data = true →
  detect_pcn_changes so old_data new_data =
  for_append
    (pcn_step (JObj (orgs_of old_data)) (JObj (orgs_of new_data)))
    (iter_set so (keys (items (orgs_of old_data)) ++
                  keys (items (orgs_of new_data)))) [].
Proof.
  intros (oorgs & Hoget & Hoorgs & _)%wf_snapshot_orgs
         (norgs & Hnget & Hnorgs & _)%wf_snapshot_orgs.
  unfold detect_pcn_changes. rewrite Hoget, Hnget, Hoorgs, Hnorgs.
  done.
Qed.

(** On well-formed snapshots both passes return. *)
Lemma detect_practice_changes_total (so : set_order)
    (old_data new_data : json) :
  wf_snapshot old_data = true → wf_snapshot new_data = true →
  ∃ changes, detect_practice_changes so old_data new_data = Ok changes.
Proof.
  intros Hold Hnew. rewrite detect_practice_changes_unfold by done.
  apply for_append_total, Forall_forall. intros c _.
  destruct (practice_step_wf old_data new_data c Hold Hnew) as (rs & ? & _).
  eauto.
Qed.

Lemma detect_pcn_changes_total (so : set_order) (old_data new_data : json) :
  wf_snapshot old_data = true → wf_snapshot new_data = true →
  ∃ changes, detect_pcn_changes so old_data new_data = Ok changes.
Proof.
  intros Hold Hnew. rewrite detect_pcn_changes_unfold by done.
  apply for_append_total, Forall_forall. intros c _.
  destruct (pcn_step_wf old_data new_data c Hold Hnew) as (rs & ? & _).
  eauto.
Qed.
(** ** The two passes of the differ *)

Lemma concat_all_nil {A B} (P : A → list B → Prop) (l : list A)
    (ls : list (list B)) :
  Forall2 P l ls → (∀ x rs, P x rs → rs = []) → concat ls = [].
Proof.
  intros H Hnil. induction H as [|x rs l ls Hx _ IH]; [done|].
  simpl. by rewrite (Hnil x rs Hx), IH.
Qed.

Lemma concerns_records_of (c x : string) (rs : list json) :
  records_of x rs → x ≠ c → List.filter (concerns c) rs = [].
Proof.
  intros Hrs Hne. induction Hrs as [|r rs [Hr _] _ IH]; [done|].
  simpl. unfold concerns at 1. rewrite Hr, py_eq_str_str.
  by destruct (String.eqb_spec x c).
Qed.

Lemma concerns_own_records (c : string) (rs : list json) :
  records_of c rs → List.filter (concerns c) rs = rs.
Proof.
  intros Hrs. induction Hrs as [|r rs [Hr _] _ IH]; [done|].
  simpl. unfold concerns at 1. rewrite Hr, py_eq_str_str, String.eqb_refl.
  by rewrite IH.
Qed.

Lemma filter_concat_other (step : string → result (list json))
    (c : string) (codes : list string) (appended : list (list json)) :
  (∀ x rs, step x = Ok rs → records_of x rs) →
  Forall2 (λ x rs, step x = Ok rs) codes appended →
  c ∉ codes →
  List.filter (concerns c) (concat appended) = [].
Proof.
  intros Hrec H. induction H as [|x rs codes appended Hx _ IH]; [done|].
  intros [Hne Hc]%not_elem_of_cons. simpl.
  rewrite List.filter_app, IH by done.
  rewrite (concerns_records_of c x) by eauto. done.
Qed.

(** In the list of changes, the records that concern a code are those
    appended by the iteration for that code. *)
Lemma filter_concat_code (step : string → result (list json))
    (c : string) (codes : list string) (appended : list (list json))
    (rs : list json) :
  (∀ x rs, step x = Ok rs → records_of x rs) →
  Forall2 (λ x rs, step x = Ok rs) codes appended →
  NoDup codes → c ∈ codes → step c = Ok rs →
  List.filter (concerns c) (concat appended) = rs.
Proof.
  intros Hrec H.
  induction H as [|x xs codes appended Hx Hrest IH]; intros Hnd Hc Hstep.
  - by apply elem_of_nil in Hc.
  - apply NoDup_cons in Hnd as [Hx' Hnd]. simpl.
    rewrite List.filter_app.
    destruct (decide (x = c)) as [->|Hne].
    + rewrite Hstep in Hx. injection Hx as <-.
      rewrite (filter_concat_other step c codes appended) by done.
      rewrite app_nil_r. apply concerns_own_records. eauto.
    + rewrite (concerns_records_of c x) by eauto. simpl.
      apply IH; [done| |done].
      apply elem_of_cons in Hc as [->|Hc]; [done|done].
Qed.

Lemma detect_practice_changes_same (so : set_order) (data : json)
    (changes : list json) :
  nan_free data = true →
  detect_practice_changes so data data = Ok changes → changes = [].
Proof.
  intros Hfree H. unfold detect_practice_changes in H.
  apply bind_Ok in H as (orgs & Horgs & H). rewrite Horgs in H. simpl in H.
  apply bind_Ok in H as (ks & Hks & H). rewrite Hks in H. simpl in H.
  apply for_append_Ok in H as (appended & Happ & ->). simpl.
  eapply concat_all_nil; [exact Happ|].
  intros x rs Hx. apply (practice_step_same data orgs x rs); [|done].
  by apply (nan_free_get data empty_dict orgs "organisations").
Qed.

Lemma detect_pcn_changes_same (so : set_order) (data : json)
    (changes : list json) :
  nan_free data = true →
  detect_pcn_changes so data data = Ok changes → changes = [].
Proof.
  intros Hfree H. unfold detect_pcn_changes in H.
  apply bind_Ok in H as (orgs & Horgs & H). rewrite Horgs in H. simpl in H.
  apply bind_Ok in H as (ks & Hks & H). rewrite Hks in H. simpl in H.
  apply for_append_Ok in H as (appended & Happ & ->). simpl.
  eapply concat_all_nil; [exact Happ|].
  intros x rs Hx. apply (pcn_step_same orgs x rs); [|done].
  by apply (nan_free_get data empty_dict orgs "organisations").
Qed.

(** C7, as stated, does not hold.  A number of a snapshot can be NaN,
    which Python takes to differ from itself: for a practice and a network
    whose status is NaN, comparing the snapshot with itself yields a
    status-change record in each pass. *)
Lemma nan_status_differs_from_itself :
  detect_practice_changes insertion_order Sample.nan_status Sample.nan_status
    = Ok [JObj [("type", JStr "status_change"); ("ods_code", JStr "P1");
                ("name", JStr "High Street Surgery");
                ("old_status", JNum (Float NaN));
                ("new_status", JNum (Float NaN));
                ("date_of_change", JStr "2024-01-01")]] ∧
  detect_pcn_changes insertion_order Sample.nan_status Sample.nan_status
    = Ok [JObj [("type", JStr "status_change"); ("ods_code", JStr "A");
                ("name", JStr "Net A");
                ("old_status", JNum (Float NaN));
                ("new_status", JNum (Float NaN));
                ("date_of_change", JStr "2023-04-01")]].
Proof. split; reflexivity. Qed.

(** C7, amended.  Comparing a snapshot that holds no NaN with itself
    yields no change record, for the practices and for the networks: on
    such a snapshot that the differ can interpret both passes return the
    empty list, and on any such snapshot a pass that returns returns the
    empty list. *)
Theorem no_change_idempotence (so : set_order) (data : json) :
  nan_free data = true →
  (wf_snapshot data = true →
   detect_practice_changes so data data = Ok [] ∧
   detect_pcn_changes so data data = Ok []) ∧
  (∀ changes, detect_practice_changes so data data = Ok changes →
              changes = []) ∧
  (∀ changes, detect_pcn_changes so data data = Ok changes → changes = []).
Proof.
  intros Hfree. split; [|split].
  2: { intros changes. by apply detect_practice_changes_same. }
  2: { intros changes. by apply detect_pcn_changes_same. }
  intros Hwf. split.
  - destruct (detect_practice_changes_total so data data Hwf Hwf) as [cs H].
    by rewrite H, (detect_practice_changes_same so data cs Hfree H).
  - destruct (detect_pcn_changes_total so data data Hwf Hwf) as [cs H].
    by rewrite H, (detect_pcn_changes_same so data cs Hfree H).
Qed.

Lemma no_change_idempotence_witness :
  detect_practice_changes insertion_order Sample.two_memberships
    Sample.two_memberships = Ok [] ∧
  detect_pcn_changes insertion_order Sample.two_memberships
    Sample.two_memberships = Ok [].
Proof.
  apply (proj1 (no_change_idempotence insertion_order Sample.two_memberships
                  eq_refl)).
  reflexivity.
Defined.

(** The step of the practice pass for a practice present in both
    snapshots whose status is unchanged and whose membership differs. *)
Lemma practice_step_membership_change (old_data new_data : json)
    (ods_code : string) (old_org new_org old_name new_name : json) :
  org_record old_data ods_code = Some old_org →
  org_record new_data ods_code = Some new_org →
  wf_org old_org = true → wf_org new_org = true →
  truthy old_org = true →
  has_practice_role new_org = true →
  py_eq (field old_org "Status") (field new_org "Status") = true →
  py_eq (get_current_pcn old_org) (get_current_pcn new_org) = false →
  get_pcn_name old_data (get_current_pcn old_org) = Ok old_name →
  get_pcn_name new_data (get_current_pcn new_org) = Ok new_name →
  practice_step old_data new_data (JObj (orgs_of old_data))
    (JObj (orgs_of new_data)) ods_code =
  Ok [JObj [("type", JStr "pcn_change"); ("ods_code", JStr ods_code);
            ("name", field new_org "Name");
            ("old_pcn", get_current_pcn old_org);
            ("old_pcn_name", old_name);
            ("new_pcn", get_current_pcn new_org);
            ("new_pcn_name", new_name);
            ("date_of_change", field new_org "LastChangeDate")]].
Proof.
  intros [Hold _]%org_record_organisation_of
         [Hnew _]%org_record_organisation_of
         Hwo Hwn Htruthy Hrole Hstatus Hpcn Honame Hnname.
  unfold practice_step. rewrite Hold, Hnew. simpl.
  apply wf_org_inv in Hwo as (okvs & _ & -> & _ & _ & _).
  pose proof Hwn as (nkvs & roles & -> & Hroles & Hdicts & _)%wf_org_inv.
  pose proof (has_practice_role_any _ _ Hroles Hdicts) as Hany.
  rewrite Hrole in Hany.
  pose proof (filter_accepts_truthy _ _ _ Hroles Hany) as Htruthy'.
  rewrite Hroles. simpl. rewrite Hany. simpl.
  destruct okvs as [|okv okvs]; [discriminate Htruthy|].
  destruct nkvs as [|nkv nkvs]; [discriminate Htruthy'|].
  simpl. unfold py_ne. simpl in Hstatus. rewrite Hstatus, Hpcn. simpl.
  unfold pcn_change_record. rewrite Honame, Hnname. done.
Qed.

(** C6. A practice present in both snapshots whose status is unchanged and
    whose resolved current network differs gives rise to exactly one record
    in the practice pass: a membership-change record that carries the old
    and the new network code; in particular no status-change record is
    emitted for it. *)
Theorem membership_change_independence (so : set_order)
    (old_data new_data : json) (ods_code : string) (old_org new_org : json) :
  wf_snapshot old_data = true →
  wf_snapshot new_data = true →
  org_record old_data ods_code = Some old_org →
  org_record new_data ods_code = Some new_org →
  truthy old_org = true →
  has_practice_role new_org = true →
  py_eq (field old_org "Status") (field new_org "Status") = true →
  py_eq (get_current_pcn old_org) (get_current_pcn new_org) = false →
  ∃ changes old_name new_name,
    detect_practice_changes so old_data new_data = Ok changes ∧
    get_pcn_name old_data (get_current_pcn old_org) = Ok old_name ∧
    get_pcn_name new_data (get_current_pcn new_org) = Ok new_name ∧
    List.filter (concerns ods_code) changes =
    [JObj [("type", JStr "pcn_change"); ("ods_code", JStr ods_code);
           ("name", field new_org "Name");
           ("old_pcn", get_current_pcn old_org);
           ("old_pcn_name", old_name);
           ("new_pcn", get_current_pcn new_org);
           ("new_pcn_name", new_name);
           ("date_of_change", field new_org "LastChangeDate")]].
Proof.
  intros Hwo Hwn Hold Hnew Htruthy Hrole Hstatus Hpcn.
  pose proof (org_record_wf _ _ _ Hwo Hold) as Hwoo.
  pose proof (org_record_wf _ _ _ Hwn Hnew) as Hwno.
  pose proof Hwoo as (_ & _ & _ & _ & _ & Hho)%wf_org_inv.
  pose proof Hwno as (_ & _ & _ & _ & _ & Hhn)%wf_org_inv.
  destruct (get_pcn_name_wf old_data _ Hwo Hho) as [old_name Honame].
  destruct (get_pcn_name_wf new_data _ Hwn Hhn) as [new_name Hnname].
  destruct (detect_practice_changes_total so old_data new_data Hwo Hwn)
    as [changes Hchanges].
  exists changes, old_name, new_name. repeat split; [done..|].
  rewrite detect_practice_changes_unfold in Hchanges by done.
  apply for_append_Ok in Hchanges as (appended & Happ & ->). simpl.
  eapply filter_concat_code; [|exact Happ|..].
  - intros x rs Hx.
    destruct (practice_step_wf old_data new_data x Hwo Hwn) as (rs' & ? & ?).
    congruence.
  - apply iter_set_NoDup.
  - apply iter_set_elem_of, elem_of_app. left. apply keys_items.
    apply org_record_organisation_of in Hold as [_ Hp].
    by apply present_true in Hp as [e ->].
  - by apply practice_step_membership_change.
Qed.

Lemma membership_change_independence_witness :
  ∃ changes old_name new_name,
    detect_practice_changes insertion_order Sample.before_move
      Sample.after_move = Ok changes ∧
    get_pcn_name Sample.before_move
      (get_current_pcn (Sample.member_of "A" "2024-01-01")) = Ok old_name ∧
    get_pcn_name Sample.after_move
      (get_current_pcn (Sample.member_of "B" "2024-02-01")) = Ok new_name ∧
    List.filter (concerns "P1") changes =
    [JObj [("type", JStr "pcn_change"); ("ods_code", JStr "P1");
           ("name", field (Sample.member_of "B" "2024-02-01") "Name");
           ("old_pcn", get_current_pcn (Sample.member_of "A" "2024-01-01"));
           ("old_pcn_name", old_name);
           ("new_pcn", get_current_pcn (Sample.member_of "B" "2024-02-01"));
           ("new_pcn_name", new_name);
           ("date_of_change",
            field (Sample.member_of "B" "2024-02-01") "LastChangeDate")]].
Proof.
  apply (membership_change_independence insertion_order Sample.before_move
           Sample.after_move "P1" (Sample.member_of "A" "2024-01-01")
           (Sample.member_of "B" "2024-02-01"));
    reflexivity.
Defined.

(** When the new snapshot holds no organisation, neither pass reports
    anything, whatever the old snapshot contains. *)
Lemma nothing_reported_against_empty (so : set_order)
    (old_data new_data : json) :
  wf_snapshot old_data = true → wf_snapshot new_data = true →
  orgs_of new_data = [] →
  detect_practice_changes so old_data new_data = Ok [] ∧
  detect_pcn_changes so old_data new_data = Ok [].
Proof.
  intros Hold Hnew Hempty. split.
  - rewrite detect_practice_changes_unfold by done.
    apply for_append_nothing, Forall_forall. intros c _.
    destruct (practice_step_wf old_data new_data c Hold Hnew) as (rs & H & _).
    rewrite H. f_equal. rewrite Hempty in H.
    by apply practice_step_absent_from_new in H.
  - rewrite detect_pcn_changes_unfold by done.
    apply for_append_nothing, Forall_forall. intros c _.
    destruct (pcn_step_wf old_data new_data c Hold Hnew) as (rs & H & _).
    rewrite H. f_equal. rewrite Hempty in H.
    by apply pcn_step_absent_from_new in H.
Qed.

(** On well-formed snapshots no record ever concerns a code that the new
    snapshot does not hold: an organisation that has disappeared is not
    reported by either pass. *)
Lemma absent_from_new_not_reported (so : set_order)
    (old_data new_data : json) (ods_code : string) :
  wf_snapshot old_data = true → wf_snapshot new_data = true →
  present new_data ods_code = false →
  (∀ changes, detect_practice_changes so old_data new_data = Ok changes →
              List.filter (concerns ods_code) changes = []) ∧
  (∀ changes, detect_pcn_changes so old_data new_data = Ok changes →
              List.filter (concerns ods_code) changes = []).
Proof.
  intros Hold Hnew Habs%present_false. split; intros changes H.
  - rewrite detect_practice_changes_unfold in H by done.
    apply for_append_Ok in H as (appended & Happ & ->). simpl.
    assert (Hrec : ∀ x rs,
              practice_step old_data new_data (JObj (orgs_of old_data))
                (JObj (orgs_of new_data)) x = Ok rs → records_of x rs).
    { intros x rs Hx.
      destruct (practice_step_wf old_data new_data x Hold Hnew)
        as (rs' & ? & ?).
      congruence. }
    destruct (decide (ods_code ∈ iter_set so
                        (keys (items (orgs_of old_data)) ++
                         keys (items (orgs_of new_data))))) as [Hin|Hout].
    + eapply filter_concat_code; [exact Hrec|exact Happ| |exact Hin|].
      * apply iter_set_NoDup.
      * destruct (practice_step_wf old_data new_data ods_code Hold Hnew)
          as (rs & Hrs & _).
        rewrite Hrs. f_equal.
        by apply practice_step_absent_from_new in Hrs.
    + by eapply filter_concat_other.
  - rewrite detect_pcn_changes_unfold in H by done.
    apply for_append_Ok in H as (appended & Happ & ->). simpl.
    assert (Hrec : ∀ x rs,
              pcn_step (JObj (orgs_of old_data)) (JObj (orgs_of new_data)) x
              = Ok rs → records_of x rs).
    { intros x rs Hx.
      destruct (pcn_step_wf old_data new_data x Hold Hnew) as (rs' & ? & ?).
      congruence. }
    destruct (decide (ods_code ∈ iter_set so
                        (keys (items (orgs_of old_data)) ++
                         keys (items (orgs_of new_data))))) as [Hin|Hout].
    + eapply filter_concat_code; [exact Hrec|exact Happ| |exact Hin|].
      * apply iter_set_NoDup.
      * destruct (pcn_step_wf old_data new_data ods_code Hold Hnew)
          as (rs & Hrs & _).
        rewrite Hrs. f_equal.
        by apply pcn_step_absent_from_new in Hrs.
    + by eapply filter_concat_other.
Qed.

(** C1. A code present in the old snapshot and absent from the new one,
    whose old record has the role of the class, should give exactly one
    "closed" record carrying the name and the last-changed date of the old
    record.  The differ evaluates the class filter on the record of the new
    snapshot, which is empty for such a code, and skips it: here the old
    snapshot holds the practice P1 and the network A, the new snapshot
    holds nothing, and both passes return the empty list. *)
Theorem closed_organisations_not_reported (so : set_order) :
  org_record Sample.one_practice_one_pcn "P1"
    = Some (Sample.member_of "A" "2024-01-01") ∧
  has_practice_role (Sample.member_of "A" "2024-01-01") = true ∧
  present Sample.no_organisations "P1" = false ∧
  (∃ network, org_record Sample.one_practice_one_pcn "A" = Some network ∧
              has_primary_pcn_role network = true) ∧
  present Sample.no_organisations "A" = false ∧
  detect_practice_changes so Sample.one_practice_one_pcn
    Sample.no_organisations = Ok [] ∧
  detect_pcn_changes so Sample.one_practice_one_pcn
    Sample.no_organisations = Ok [].
Proof.
  split; [reflexivity|]. split; [reflexivity|]. split; [reflexivity|].
  split; [eexists; split; reflexivity|]. split; [reflexivity|].
  by apply nothing_reported_against_empty.
Qed.

(** The first iteration of a loop raises: so does the loop. *)
Lemma for_append_first_raises {A B} (body : A → result (list B))
    (l : list A) (e : exn) :
  l ≠ [] → Forall (λ x, body x = Raise e) l →
  for_append body l [] = Raise e.
Proof.
  intros Hne Hl. destruct Hl as [|x l Hx _]; [done|]. simpl. by rewrite Hx.
Qed.

Lemma iter_set_nonempty (so : set_order) (l : list string) (c : string) :
  c ∈ l → iter_set so l ≠ [].
Proof.
  intros Hc%(iter_set_elem_of so) Hnil. rewrite Hnil in Hc.
  by apply elem_of_nil in Hc.
Qed.

(** C3. The passes of the differ are meant to complete whatever the
    records look like, skipping those that cannot be interpreted.  When the
    role field of a record is a single object instead of a list, the class
    filter iterates over the keys of that object and calls [get] on a
    string: both passes raise [AttributeError] and no change list is
    returned. *)
Theorem single_role_object_aborts_the_run (so : set_order) :
  detect_practice_changes so Sample.one_practice_one_pcn
    Sample.single_role_object = Raise AttributeError ∧
  detect_pcn_changes so Sample.one_practice_one_pcn
    Sample.single_role_object = Raise AttributeError.
Proof.
  split.
  - unfold detect_practice_changes. simpl.
    apply for_append_first_raises.
    + apply (iter_set_nonempty so _ "P1"). by left.
    + apply Forall_forall. intros c Hc%iter_set_elem_of.
      repeat (apply elem_of_cons in Hc as [->|Hc]; [reflexivity|]).
      by apply elem_of_nil in Hc.
  - unfold detect_pcn_changes. simpl.
    apply for_append_first_raises.
    + apply (iter_set_nonempty so _ "P1"). by left.
    + apply Forall_forall. intros c Hc%iter_set_elem_of.
      repeat (apply elem_of_cons in Hc as [->|Hc]; [reflexivity|]).
      by apply elem_of_nil in Hc.
Qed.

(** ** The reporting paths *)








(** The two reporting paths themselves differ on a practice with two
    open-ended Active memberships, A joined in 2020 and B in 2021:
    [get_current_pcn] and [extract_practice_data] stop at the first
    candidate, A, while [create_practice_pcn_report] keeps the candidate
    with the latest start date, B. *)
Lemma resolution_paths_disagree :
  org_record Sample.two_memberships "P1" = Some Sample.joined_a_then_b ∧
  get_current_pcn Sample.joined_a_then_b = JStr "A" ∧
  option_map (λ row, field row "Current PCN Code")
    (extract_practice_data (Sample.entry Sample.joined_a_then_b))
    = Some (JStr "A") ∧
  report_current_pcn plain_runtime Sample.two_memberships "P1"
    = Some (JStr "B").
Proof. repeat split; reflexivity. Qed.

(** ** The change history *)

Lemma assoc_set_key_eq {A} (k : string) (v : A) (kvs : list (string * A)) :
  assoc k (set_key k v kvs) = Some v.
Proof.
  induction kvs as [|[k' v'] kvs IH]; simpl.
  - by rewrite String.eqb_refl.
  - destruct (String.eqb_spec k k') as [->|Hne]; simpl.
    + by rewrite String.eqb_refl.
    + by destruct (String.eqb_spec k k').
Qed.

Lemma assoc_set_key_ne {A} (k k' : string) (v : A)
    (kvs : list (string * A)) :
  k' ≠ k → assoc k' (set_key k v kvs) = assoc k' kvs.
Proof.
  intros Hne. induction kvs as [|[k'' v''] kvs IH]; simpl.
  - by destruct (String.eqb_spec k' k).
  - destruct (String.eqb_spec k k'') as [->|Hne']; simpl.
    + destruct (String.eqb_spec k' k''); [done|done].
    + destruct (String.eqb_spec k' k''); [done|apply IH].
Qed.

(** On records that have a type, the comprehension selects the records of
    the given kind. *)
Lemma py_filter_kind (kind : string) (cs : list json) :
  Forall (λ c, has_type c = true) cs →
  py_filter (λ c, let* t := subscript c "type" in Ok (py_eq t (JStr kind))) cs
  = Ok (List.filter (is_kind kind) cs).
Proof.
  induction 1 as [|c cs Hc _ IH]; simpl; [done|].
  rewrite IH. unfold has_type, record_type in Hc.
  apply bool_decide_eq_true in Hc as [t Ht].
  destruct c as [| | | | |kvs]; try discriminate.
  unfold is_kind, record_type. simpl. rewrite Ht. simpl.
  destruct t; simpl; try done.
Qed.

Lemma length_filter_kind (kind : string) (cs : list json) :
  Z.of_nat (length (List.filter (is_kind kind) cs)) = count_kind kind cs.
Proof.
  induction cs as [|c cs IH]; simpl; [done|].
  destruct (is_kind kind c); simpl length; lia.
Qed.

Lemma count_type_kind (kind : string) (cs : list json) :
  Forall (λ c, has_type c = true) cs →
  count_type (JList cs) kind = Ok (JNum (Int (count_kind kind cs))).
Proof.
  intros Hcs. unfold count_type. simpl. rewrite py_filter_kind by done.
  simpl. by rewrite length_filter_kind.
Qed.

(** The summary counts, for each class and each kind, the records of that
    kind in the list of that class. *)
Lemma summary_of_changes (practice_changes pcn_changes : list json) :
  Forall (λ c, has_type c = true) practice_changes →
  Forall (λ c, has_type c = true) pcn_changes →
  summary_of (changes_dict practice_changes pcn_changes)
  = Ok (expected_summary practice_changes pcn_changes).
Proof.
  intros Hp Hn. unfold summary_of, changes_dict. simpl.
  rewrite !count_type_kind by done. simpl.
  unfold expected_summary. by rewrite Nat2Z.inj_add.
Qed.

(** C8. A run without any change record leaves the change history as it
    was.  A run with at least one change record appends exactly one entry
    to the history: its summary counts, for each class and each kind, the
    records of that kind in the list of that class, and its total is the
    sum of the lengths of the two lists. *)
Theorem history_records_runs_with_changes (file : tracked_file)
    (practice_changes pcn_changes : list json) (current_file today : string) :
  update_tracked_changes file (changes_dict [] []) current_file today = file ∧
  (wf_history file = true →
   Forall (λ c, has_type c = true) practice_changes →
   Forall (λ c, has_type c = true) pcn_changes →
   practice_changes ≠ [] ∨ pcn_changes ≠ [] →
   history_of
     (update_tracked_changes file
        (changes_dict practice_changes pcn_changes) current_file today)
   = history_of file ++
     [JObj [("date", JStr today);
            ("data_file", JStr (basename current_file));
            ("summary", expected_summary practice_changes pcn_changes);
            ("practice_changes", JList practice_changes);
            ("pcn_changes", JList pcn_changes)]]).
Proof.
  split; [done|].
  intros Hfile Hp Hn Hsome.
  unfold update_tracked_changes, update_tracked_changes_body.
  assert (Hany : (if truthy (JList practice_changes) then Ok true
                  else let* pcn_changes :=
                         subscript (changes_dict practice_changes pcn_changes)
                           "pcn_changes" in
                       Ok (truthy pcn_changes)) = Ok true).
  { destruct practice_changes; [|done]. destruct pcn_changes; [|done].
    by destruct Hsome. }
  change (subscript (changes_dict practice_changes pcn_changes)
            "practice_changes") with (Ok (JList practice_changes)).
  cbn [bind]. rewrite Hany. cbn [bind].
  rewrite summary_of_changes by done. cbn [bind].
  destruct file as [doc|]; [|done].
  destruct doc as [| | | | |kvs]; try discriminate Hfile.
  simpl in Hfile. simpl.
  destruct (assoc "changes" kvs) as [[| | | |h|]|] eqn:Hh;
    try discriminate Hfile.
  simpl. by rewrite assoc_set_key_eq.
Qed.

Lemma history_records_runs_with_changes_witness :
  history_of
    (update_tracked_changes None
       (changes_dict
          [JObj [("type", JStr "new_practice"); ("ods_code", JStr "P1")]] [])
       "data/ncl_icb_data_20240201.json" "2024-02-01")
  = history_of None ++
    [JObj [("date", JStr "2024-02-01");
           ("data_file", JStr (basename "data/ncl_icb_data_20240201.json"));
           ("summary",
            expected_summary
              [JObj [("type", JStr "new_practice"); ("ods_code", JStr "P1")]]
              []);
           ("practice_changes",
            JList
              [JObj [("type", JStr "new_practice"); ("ods_code", JStr "P1")]]);
           ("pcn_changes", JList [])]].
Proof.
  apply (proj2 (history_records_runs_with_changes None
                  [JObj [("type", JStr "new_practice");
                         ("ods_code", JStr "P1")]]
                  [] "data/ncl_icb_data_20240201.json" "2024-02-01")).
  - reflexivity.
  - repeat constructor.
  - constructor.
  - left. discriminate.
Defined.

(** The records returned by the differ on well-formed snapshots have a
    type, so that the summary of a run counts all of them. *)
Lemma detect_practice_changes_typed (so : set_order)
    (old_data new_data : json) (changes : list json) :
  wf_snapshot old_data = true → wf_snapshot new_data = true →
  detect_practice_changes so old_data new_data = Ok changes →
  Forall (λ c, has_type c = true) changes.
Proof.
  intros Hold Hnew H. rewrite detect_practice_changes_unfold in H by done.
  apply for_append_Ok in H as (appended & Happ & ->). simpl.
  apply Forall_concat.
  induction Happ as [|x rs codes appended Hx _ IH]; constructor; [|done].
  destruct (practice_step_wf old_data new_data x Hold Hnew) as (rs' & ? & Hr).
  replace rs' with rs in Hr by congruence.
  eapply Forall_impl; [exact Hr|]. by intros r [_ ?].
Qed.

Lemma detect_pcn_changes_typed (so : set_order)
    (old_data new_data : json) (changes : list json) :
  wf_snapshot old_data = true → wf_snapshot new_data = true →
  detect_pcn_changes so old_data new_data = Ok changes →
  Forall (λ c, has_type c = true) changes.
Proof.
  intros Hold Hnew H. rewrite detect_pcn_changes_unfold in H by done.
  apply for_append_Ok in H as (appended & Happ & ->). simpl.
  apply Forall_concat.
  induction Happ as [|x rs codes appended Hx _ IH]; constructor; [|done].
  destruct (pcn_step_wf old_data new_data x Hold Hnew) as (rs' & ? & Hr).
  replace rs' with rs in Hr by congruence.
  eapply Forall_impl; [exact Hr|]. by intros r [_ ?].
Qed.

(** ** The differ does not write to its inputs *)

Module HeapFrame.
Import Heap.

(** A computation that only reads the store. *)
Lemma stable_read {A} (n : nat) (m : M A) :
  (∀ h, (m h).2 = h) → stable n m.
Proof. intros Hm h Hn. rewrite Hm. split; [done|lia]. Qed.

Lemma stable_ret {A} (n : nat) (a : A) : stable n (ret a).
Proof. by apply stable_read. Qed.

Lemma stable_raise {A} (n : nat) (e : exn) : stable n (raise (A:=A) e).
Proof. by apply stable_read. Qed.

Lemma stable_bind {A B} (n : nat) (m : M A) (k : A → M B) :
  stable n m → (∀ a, stable n (k a)) → stable n (bind m k).
Proof.
  intros Hm Hk h Hn. unfold bind. destruct (Hm h Hn) as [Ht Hl].
  destruct (m h) as [[a|e|] h']; simpl in *; [|split; [done|lia]..].
  destruct (Hk a h') as [Ht' Hl']; [lia|]. split; [congruence|lia].
Qed.

Lemma stable_alloc (n : nat) (o : obj) : stable n (alloc o).
Proof.
  intros h Hn. unfold alloc. simpl. split.
  - by rewrite take_app_le.
  - rewrite length_app. lia.
Qed.

Lemma stable_deref (n : nat) (l : loc) : stable n (deref l).
Proof. apply stable_read. intros h. unfold deref. by case_match. Qed.

Lemma stable_try_except {A} (n : nat) (m : M A) (d : A) :
  stable n m → stable n (try_except m d).
Proof.
  intros Hm h Hn. unfold try_except. destruct (Hm h Hn) as [Ht Hl].
  destruct (m h) as [[a|e|] h']; split; done.
Qed.

(** Appending to a list writes at the location of that list only. *)
Lemma stable_append (n : nat) (l : loc) (x : val) :
  (n ≤ l)%nat → stable n (append (VRef l) x).
Proof.
  intros Hl h Hn. unfold append, bind, deref, raise.
  repeat case_match; simplify_eq; simpl;
    (split; [by rewrite ?take_insert_ge|rewrite ?length_insert; lia]).
Qed.

Lemma stable_py_ne (n : nat) (a b : val) : stable n (py_ne a b).
Proof.
  apply stable_read. intros h. unfold py_ne. by destruct (val_eq _ _ _ _).
Qed.

Create HintDb stable discriminated.

#[local] Hint Resolve stable_ret stable_raise stable_alloc stable_deref
  stable_try_except stable_py_ne : stable.

(** Decomposes a computation into its steps. *)
Ltac stable_step :=
  match goal with
  | |- stable _ (bind _ _) => apply stable_bind; [|intros ?]
  | |- stable _ (if ?b then _ else _) => destruct b
  | |- stable _ (match ?x with _ => _ end) => destruct x
  | |- stable _ (ret _) => apply stable_ret
  | |- stable _ _ => solve [eauto with stable]
  end.

Ltac stable_auto := repeat stable_step.

Lemma stable_get (n : nat) (v : val) (k : string) (d : val) :
  stable n (get v k d).
Proof. unfold get. stable_auto. Qed.
#[local] Hint Resolve stable_get : stable.

Lemma stable_get_or_dict (n : nat) (v : val) (k : string) :
  stable n (get_or_dict v k).
Proof. unfold get_or_dict. stable_auto. Qed.

Lemma stable_get_or_list (n : nat) (v : val) (k : string) :
  stable n (get_or_list v k).
Proof. unfold get_or_list. stable_auto. Qed.

Lemma stable_get_key (n : nat) (v k d : val) : stable n (get_key v k d).
Proof. unfold get_key. stable_auto. Qed.

Lemma stable_truthy (n : nat) (v : val) : stable n (truthy v).
Proof. unfold truthy. stable_auto. Qed.

Lemma stable_isinstance_list (n : nat) (v : val) :
  stable n (isinstance_list v).
Proof. unfold isinstance_list. stable_auto. Qed.

Lemma stable_iter (n : nat) (v : val) : stable n (iter v).
Proof. unfold iter. stable_auto. Qed.

Lemma stable_dict_keys (n : nat) (v : val) : stable n (dict_keys v).
Proof. unfold dict_keys. stable_auto. Qed.

#[local] Hint Resolve stable_get_or_dict stable_get_or_list stable_get_key
  stable_truthy stable_isinstance_list stable_iter stable_dict_keys : stable.

Lemma stable_py_any {A} (n : nat) (f : A → M bool) (l : list A) :
  (∀ x, stable n (f x)) → stable n (py_any f l).
Proof. intros Hf. induction l; simpl; stable_auto; auto. Qed.

Lemma stable_for_each {A} (n : nat) (body : A → M unit) (l : list A) :
  (∀ x, stable n (body x)) → stable n (for_each body l).
Proof. intros Hb. induction l; simpl; stable_auto; auto. Qed.

Lemma stable_is_current_pcn_rel (n : nat) (rel : val) :
  stable n (is_current_pcn_rel rel).
Proof.
  unfold is_current_pcn_rel. stable_auto.
  apply stable_py_any. intros d. stable_auto.
Qed.

Lemma stable_target_extension (n : nat) (rel : val) :
  stable n (target_extension rel).
Proof. unfold target_extension. stable_auto. Qed.

#[local] Hint Resolve stable_is_current_pcn_rel stable_target_extension
  : stable.

Lemma stable_first_current_pcn (n : nat) (rels : list val) :
  stable n (first_current_pcn rels).
Proof. induction rels; simpl; stable_auto; auto. Qed.
#[local] Hint Resolve stable_first_current_pcn : stable.

(** Resolution reads the record and allocates; it writes nowhere. *)
Lemma stable_get_current_pcn (n : nat) (org_data : val) :
  stable n (get_current_pcn org_data).
Proof.
  unfold get_current_pcn, get_current_pcn_body.
  apply stable_try_except. stable_auto.
Qed.

Lemma stable_get_pcn_name (n : nat) (data pcn_ods : val) :
  stable n (get_pcn_name data pcn_ods).
Proof. unfold get_pcn_name. stable_auto. Qed.

Lemma stable_organisation_of (n : nat) (orgs : val) (c : string) :
  stable n (organisation_of orgs c).
Proof. unfold organisation_of. stable_auto. Qed.

Lemma stable_roles_of (n : nat) (org : val) : stable n (roles_of org).
Proof. unfold roles_of. stable_auto. Qed.

Lemma stable_is_practice_role (n : nat) (role : val) :
  stable n (is_practice_role role).
Proof. unfold is_practice_role. stable_auto. Qed.

Lemma stable_is_primary_pcn_role (n : nat) (role : val) :
  stable n (is_primary_pcn_role role).
Proof. unfold is_primary_pcn_role. stable_auto. Qed.

#[local] Hint Resolve stable_get_current_pcn stable_get_pcn_name
  stable_organisation_of stable_roles_of stable_is_practice_role
  stable_is_primary_pcn_role stable_append : stable.

Lemma stable_append_new_record (n : nat) (cl : loc) (type c : string)
    (org : val) :
  (n ≤ cl)%nat → stable n (append_new_record (VRef cl) type c org).
Proof. intros Hcl. unfold append_new_record. stable_auto. Qed.

Lemma stable_append_status_change (n : nat) (cl : loc) (c : string)
    (old_org new_org : val) :
  (n ≤ cl)%nat →
  stable n (append_status_change (VRef cl) c old_org new_org).
Proof. intros Hcl. unfold append_status_change. stable_auto. Qed.

Lemma stable_append_pcn_change (n : nat) (cl : loc) (old_data new_data : val)
    (c : string) (new_org old_pcn new_pcn : val) :
  (n ≤ cl)%nat →
  stable n (append_pcn_change (VRef cl) old_data new_data c new_org
              old_pcn new_pcn).
Proof. intros Hcl. unfold append_pcn_change. stable_auto. Qed.

#[local] Hint Resolve stable_append_new_record stable_append_status_change
  stable_append_pcn_change : stable.

(** An iteration of the practice pass writes to the list [changes]
    only. *)
Lemma stable_practice_step (n : nat) (cl : loc)
    (old_data new_data old_orgs new_orgs : val) (c : string) :
  (n ≤ cl)%nat →
  stable n (practice_step (VRef cl) old_data new_data old_orgs new_orgs c).
Proof.
  intros Hcl. unfold practice_step. stable_auto.
  apply stable_py_any. intros r. stable_auto.
Qed.

Lemma stable_pcn_step (n : nat) (cl : loc) (old_orgs new_orgs : val)
    (c : string) :
  (n ≤ cl)%nat → stable n (pcn_step (VRef cl) old_orgs new_orgs c).
Proof.
  intros Hcl. unfold pcn_step. stable_auto.
  apply stable_py_any. intros r. stable_auto.
Qed.

(** An object allocated by the computation lies above every object
    that existed before. *)
Lemma stable_bind_alloc {B} (n : nat) (o : obj) (k : val → M B) :
  (∀ l, (n ≤ l)%nat → stable n (k (VRef l))) → stable n (bind (alloc o) k).
Proof.
  intros Hk h Hn. unfold bind, alloc.
  destruct (Hk (length h) Hn (h ++ [o])) as [Ht Hl].
  { rewrite length_app. lia. }
  split.
  - rewrite Ht. by rewrite take_app_le.
  - rewrite length_app in Hl. lia.
Qed.

(** The list [changes] is allocated by the pass itself. *)
Lemma stable_detect_practice_changes (n : nat) (so : set_order)
    (old_data new_data : val) :
  stable n (detect_practice_changes so old_data new_data).
Proof.
  unfold detect_practice_changes. apply stable_bind_alloc.
  intros cl Hcl. stable_auto. apply stable_for_each. intros c.
  by apply stable_practice_step.
Qed.

Lemma stable_detect_pcn_changes (n : nat) (so : set_order)
    (old_data new_data : val) :
  stable n (detect_pcn_changes so old_data new_data).
Proof.
  unfold detect_pcn_changes. apply stable_bind_alloc.
  intros cl Hcl. stable_auto. apply stable_for_each. intros c.
  by apply stable_pcn_step.
Qed.

Lemma stable_detect_changes (n : nat) (so : set_order)
    (old_data new_data : val) :
  stable n (detect_changes so old_data new_data).
Proof.
  unfold detect_changes.
  apply stable_bind; [apply stable_detect_practice_changes|intros pc].
  apply stable_bind; [apply stable_detect_pcn_changes|intros nc].
  apply stable_ret.
Qed.

(** A computation that is stable below the size of the store only adds
    objects to it. *)
Lemma stable_prefix {A} (m : M A) (h : heap) :
  stable (length h) m → h `prefix_of` (m h).2.
Proof.
  intros Hm. destruct (Hm h) as [Ht _]; [done|].
  rewrite firstn_all in Ht. exists (drop (length h) (m h).2).
  rewrite <- (take_drop (length h) (m h).2) at 1. by rewrite Ht.
Qed.

Lemma option_all_map_ext {A B} (f g : A → option B) (l : list A)
    (r : list B) :
  (∀ x y, f x = Some y → g x = Some y) →
  option_all (map f l) = Some r → option_all (map g l) = Some r.
Proof.
  intros Hfg. revert r. induction l as [|x l IH]; intros r; simpl; [done|].
  destruct (f x) as [y|] eqn:Hx; [|done]. rewrite (Hfg x y Hx).
  destruct (option_all (map f l)) as [ys|]; [|done].
  by rewrite (IH ys).
Qed.

(** What a value stands for does not change when objects are added to
    the store. *)
Lemma reify_prefix (h h' : heap) (fuel : nat) (v : val) (j : json) :
  h `prefix_of` h' → reify fuel h v = Some j → reify fuel h' v = Some j.
Proof.
  intros Hpre. revert v j.
  induction fuel as [|fuel IH]; intros v j; destruct v as [| | | |l];
    simpl; try done.
  destruct (h !! l) as [o|] eqn:Hl; [|done].
  rewrite (prefix_lookup_Some _ _ _ _ Hl Hpre).
  destruct o as [kvs|vs].
  - destruct (option_all (map _ kvs)) as [r|] eqn:Hr; [|done].
    erewrite option_all_map_ext; [done| |exact Hr].
    intros [k x] y. simpl.
    destruct (reify fuel h x) as [jx|] eqn:Hx; [|done].
    by rewrite (IH x jx Hx).
  - destruct (option_all (map _ vs)) as [r|] eqn:Hr; [|done].
    erewrite option_all_map_ext; [done|exact IH|exact Hr].
Qed.

(** C9. Running the differ, that is the practice pass and the network
    pass with the resolution of memberships they perform, leaves both
    snapshots as they were: every object that the store held before the
    run is the same after it, so every value (an organisation record, a
    list of relationships, a field of the metadata) stands for the same
    document before and after, and the snapshots can be compared
    again.  The same holds for membership resolution run alone. *)
Theorem differ_leaves_snapshots_unchanged (so : set_order) (h : heap)
    (old_data new_data : val) :
  let h' := (detect_changes so old_data new_data h).2 in
  h `prefix_of` h' ∧
  (∀ l o, h !! l = Some o → h' !! l = Some o) ∧
  (∀ fuel v j, reify fuel h v = Some j → reify fuel h' v = Some j) ∧
  (∀ org fuel v j, reify fuel h v = Some j →
                   reify fuel (get_current_pcn org h).2 v = Some j).
Proof.
  intros h'.
  assert (Hpre : h `prefix_of` h').
  { apply stable_prefix, stable_detect_changes. }
  repeat split.
  - done.
  - intros l o Hl. by eapply prefix_lookup_Some.
  - intros fuel v j. by apply reify_prefix.
  - intros org fuel v j. apply reify_prefix.
    apply stable_prefix, stable_get_current_pcn.
Qed.

End HeapFrame.

(** On loaded samples the differ over the store returns the records that
    the differ over values returns, and the snapshots still stand for the
    documents that were loaded. *)
Lemma compare_loaded_samples :
  ∃ moved created networks closed_practice closed_networks,
    detect_practice_changes insertion_order Sample.before_move
      Sample.after_move = Ok moved ∧
    detect_practice_changes insertion_order Sample.no_organisations
      Sample.after_move = Ok created ∧
    detect_pcn_changes insertion_order Sample.no_organisations
      Sample.after_move = Ok networks ∧
    detect_practice_changes insertion_order Sample.before_move
      Sample.after_closure = Ok closed_practice ∧
    detect_pcn_changes insertion_order Sample.before_move
      Sample.after_closure = Ok closed_networks ∧
    length closed_practice = 2%nat ∧ length closed_networks = 1%nat ∧
    Heap.compare_loaded insertion_order Sample.before_move Sample.after_move
    = Some (JList moved, JList [], Sample.before_move, Sample.after_move) ∧
    Heap.compare_loaded insertion_order Sample.no_organisations
      Sample.after_move
    = Some (JList created, JList networks,
            Sample.no_organisations, Sample.after_move) ∧
    Heap.compare_loaded insertion_order Sample.before_move
      Sample.after_closure
    = Some (JList closed_practice, JList closed_networks,
            Sample.before_move, Sample.after_closure) ∧
    Heap.compare_loaded insertion_order Sample.one_practice_one_pcn
      Sample.single_role_object = None.
Proof.
  do 5 eexists.
  repeat (split; [vm_compute; reflexivity|]). vm_compute; reflexivity.
Qed.


(** * Further properties *)

(** ** The change history is append-only *)

(** What a call that writes the file writes: the document read, with one
    entry added at the end of its list of changes. *)
Lemma update_tracked_changes_body_writes (file : tracked_file)
    (changes : json) (current_file today : string) (doc : json) :
  update_tracked_changes_body file changes current_file today
    = Ok (Some doc) →
  ∃ kvs h entry,
    doc = JObj (set_key "changes" (JList (h ++ [entry])) kvs) ∧
    match file with
    | Some old => old = JObj kvs
    | None => kvs = [("changes", JList [])]
    end ∧
    assoc "changes" kvs = Some (JList h).
Proof.
  unfold update_tracked_changes_body. intros H.
  apply bind_Ok in H as (pc & _ & H).
  apply bind_Ok in H as ([] & _ & H); [|discriminate].
  apply bind_Ok in H as (summary & _ & H).
  apply bind_Ok in H as (history & Hhist & H).
  apply bind_Ok in H as (pc' & _ & H).
  apply bind_Ok in H as (nc' & _ & H).
  destruct history as [| | | |h|]; try discriminate.
  destruct file as [old|].
  - destruct old as [| | | | |kvs]; try discriminate.
    injection H as <-. exists kvs, h. eexists. split; [done|]. split; [done|].
    simpl in Hhist. by destruct (assoc "changes" kvs); simplify_eq.
  - injection H as <-. simpl in Hhist. injection Hhist as <-.
    exists [("changes", JList [])], []. eexists. done.
Qed.

(** X1. Whatever the arguments, well formed or not, a call of
    [update_tracked_changes] never removes or alters an entry of the
    history: the history before the call is a prefix of the history after
    it, at most one entry is added, the other fields of the document are
    kept, and a file that could be extended can still be extended. *)
Theorem history_is_append_only (file : tracked_file) (changes : json)
    (current_file today : string) :
  let file' := update_tracked_changes file changes current_file today in
  history_of file `prefix_of` history_of file' ∧
  (length (history_of file') ≤ S (length (history_of file)))%nat ∧
  (∀ doc doc' k, file = Some doc → file' = Some doc' → k ≠ "changes" →
                 field doc' k = field doc k) ∧
  (wf_history file = true → wf_history file' = true).
Proof.
  intros file'. unfold file', update_tracked_changes.
  destruct (update_tracked_changes_body file changes current_file today)
    as [[doc|]|e] eqn:Hbody;
    try (split; [done|]; split; [lia|]; split; [intros; congruence|done]).
  apply update_tracked_changes_body_writes in Hbody
    as (kvs & h & entry & -> & Hfile & Hh).
  assert (Hhist : history_of file = h).
  { destruct file as [old|]; [subst old|subst kvs].
    - simpl. by rewrite Hh.
    - simpl in Hh. by injection Hh as <-. }
  unfold history_of at 2 3, wf_history at 2.
  rewrite !assoc_set_key_eq, Hhist. split; [by eexists|].
  split; [rewrite length_app; simpl; lia|]. split; [|done].
  intros doc doc' k -> [= <-] Hk. subst doc. simpl.
  by rewrite assoc_set_key_ne.
Qed.

(** The file written by a run that found changes. *)
Lemma update_tracked_changes_appends (file : tracked_file)
    (practice_changes pcn_changes : list json) (current_file today : string) :
  wf_history file = true →
  Forall (λ c, has_type c = true) practice_changes →
  Forall (λ c, has_type c = true) pcn_changes →
  practice_changes ≠ [] ∨ pcn_changes ≠ [] →
  let file' := update_tracked_changes file
                 (changes_dict practice_changes pcn_changes)
                 current_file today in
  wf_history file' = true ∧
  history_of file' =
  history_of file ++
  [expected_entry practice_changes pcn_changes current_file today].
Proof.
  intros Hfile Hp Hn Hsome file'. unfold file'.
  unfold update_tracked_changes, update_tracked_changes_body.
  assert (Hany : (if truthy (JList practice_changes) then Ok true
                  else let* pcn_changes :=
                         subscript (changes_dict practice_changes pcn_changes)
                           "pcn_changes" in
                       Ok (truthy pcn_changes)) = Ok true).
  { destruct practice_changes; [|done]. destruct pcn_changes; [|done].
    by destruct Hsome. }
  change (subscript (changes_dict practice_changes pcn_changes)
            "practice_changes") with (Ok (JList practice_changes)).
  cbn [bind]. rewrite Hany. cbn [bind].
  rewrite summary_of_changes by done. cbn [bind].
  destruct file as [doc|]; [|done].
  destruct doc as [| | | | |kvs]; try discriminate Hfile.
  simpl in Hfile. simpl.
  destruct (assoc "changes" kvs) as [[| | | |h|]|] eqn:Hh;
    try discriminate Hfile.
  simpl. by rewrite assoc_set_key_eq.
Qed.

(** X2. The history is not deduplicated: running [update_tracked_changes]
    twice with the same change lists, file name and date adds the same
    entry twice. *)
Theorem rerun_appends_duplicate (file : tracked_file)
    (practice_changes pcn_changes : list json) (current_file today : string) :
  wf_history file = true →
  Forall (λ c, has_type c = true) practice_changes →
  Forall (λ c, has_type c = true) pcn_changes →
  practice_changes ≠ [] ∨ pcn_changes ≠ [] →
  let run := λ f, update_tracked_changes f
                    (changes_dict practice_changes pcn_changes)
                    current_file today in
  history_of (run (run file)) =
  history_of file ++
  [expected_entry practice_changes pcn_changes current_file today;
   expected_entry practice_changes pcn_changes current_file today].
Proof.
  intros Hfile Hp Hn Hsome run. unfold run.
  destruct (update_tracked_changes_appends file practice_changes pcn_changes
              current_file today Hfile Hp Hn Hsome) as [Hwf1 Hh1].
  destruct (update_tracked_changes_appends _ practice_changes pcn_changes
              current_file today Hwf1 Hp Hn Hsome) as [_ Hh2].
  rewrite Hh2, Hh1. by rewrite <- app_assoc.
Qed.

Lemma rerun_appends_duplicate_witness :
  let changes := [JObj [("type", JStr "new_pcn"); ("ods_code", JStr "A")]] in
  let run := λ f, update_tracked_changes f (changes_dict [] changes)
                    "data/ncl_icb_data_20240201.json" "2024-02-01" in
  history_of (run (run None)) =
  history_of None ++
  [expected_entry [] changes "data/ncl_icb_data_20240201.json" "2024-02-01";
   expected_entry [] changes "data/ncl_icb_data_20240201.json" "2024-02-01"].
Proof.
  apply (rerun_appends_duplicate None []
           [JObj [("type", JStr "new_pcn"); ("ods_code", JStr "A")]]
           "data/ncl_icb_data_20240201.json" "2024-02-01").
  - reflexivity.
  - constructor.
  - repeat constructor.
  - right. discriminate.
Defined.

(** ** New organisations and status changes *)

Lemma present_keys (data : json) (c : string) :
  present data c = true → c ∈ keys (items (orgs_of data)).
Proof. intros [e He]%present_true. apply keys_items. by rewrite He. Qed.

(** On well-formed snapshots, the records of the practice pass that concern
    a code of either snapshot are those appended by its iteration. *)
Lemma practice_records_of_code (so : set_order) (old_data new_data : json)
    (ods_code : string) (rs : list json) :
  wf_snapshot old_data = true → wf_snapshot new_data = true →
  present old_data ods_code = true ∨ present new_data ods_code = true →
  practice_step old_data new_data (JObj (orgs_of old_data))
    (JObj (orgs_of new_data)) ods_code = Ok rs →
  ∃ changes, detect_practice_changes so old_data new_data = Ok changes ∧
             List.filter (concerns ods_code) changes = rs.
Proof.
  intros Hwo Hwn Hin Hstep.
  destruct (detect_practice_changes_total so old_data new_data Hwo Hwn)
    as [changes Hchanges].
  exists changes. split; [done|].
  rewrite detect_practice_changes_unfold in Hchanges by done.
  apply for_append_Ok in Hchanges as (appended & Happ & ->). simpl.
  eapply filter_concat_code; [|exact Happ| | |exact Hstep].
  - intros x rs' Hx.
    destruct (practice_step_wf old_data new_data x Hwo Hwn) as (? & ? & ?).
    congruence.
  - apply iter_set_NoDup.
  - apply iter_set_elem_of, elem_of_app.
    destruct Hin as [H|H]; [left|right]; by apply present_keys.
Qed.

Lemma pcn_records_of_code (so : set_order) (old_data new_data : json)
    (ods_code : string) (rs : list json) :
  wf_snapshot old_data = true → wf_snapshot new_data = true →
  present old_data ods_code = true ∨ present new_data ods_code = true →
  pcn_step (JObj (orgs_of old_data)) (JObj (orgs_of new_data)) ods_code
    = Ok rs →
  ∃ changes, detect_pcn_changes so old_data new_data = Ok changes ∧
             List.filter (concerns ods_code) changes = rs.
Proof.
  intros Hwo Hwn Hin Hstep.
  destruct (detect_pcn_changes_total so old_data new_data Hwo Hwn)
    as [changes Hchanges].
  exists changes. split; [done|].
  rewrite detect_pcn_changes_unfold in Hchanges by done.
  apply for_append_Ok in Hchanges as (appended & Happ & ->). simpl.
  eapply filter_concat_code; [|exact Happ| | |exact Hstep].
  - intros x rs' Hx.
    destruct (pcn_step_wf old_data new_data x Hwo Hwn) as (? & ? & ?).
    congruence.
  - apply iter_set_NoDup.
  - apply iter_set_elem_of, elem_of_app.
    destruct Hin as [H|H]; [left|right]; by apply present_keys.
Qed.

(** The record read for a code that a well-formed snapshot does not hold
    is the empty dict. *)
Lemma organisation_of_absent (data : json) (c : string) :
  present data c = false →
  organisation_of (JObj (orgs_of data)) c = Ok empty_dict.
Proof.
  intros H%present_false. unfold organisation_of. simpl. by rewrite H.
Qed.

(** What the class filters compute on a record they can read. *)
Lemma wf_org_filters (org : json) :
  wf_org org = true →
  ∃ kvs roles, org = JObj kvs ∧ roles_of org = Ok roles ∧
    py_any is_practice_role roles = Ok (has_practice_role org) ∧
    py_any is_primary_pcn_role roles = Ok (has_primary_pcn_role org).
Proof.
  intros (kvs & roles & -> & Hroles & Hdicts & _)%wf_org_inv.
  exists kvs, roles. split; [done|]. split; [done|].
  split; [by apply has_practice_role_any|by apply has_primary_pcn_role_any].
Qed.

(** X3. An organisation that the old snapshot does not hold and that the
    new snapshot holds with the role of the class gives rise to exactly one
    record in the pass of that class: a "new" record that carries the name
    and the last-changed date of the new record. *)
Theorem new_organisation_reported (so : set_order)
    (old_data new_data : json) (ods_code : string) (new_org : json) :
  wf_snapshot old_data = true →
  wf_snapshot new_data = true →
  present old_data ods_code = false →
  org_record new_data ods_code = Some new_org →
  (has_practice_role new_org = true →
   ∃ changes,
     detect_practice_changes so old_data new_data = Ok changes ∧
     List.filter (concerns ods_code) changes =
     [new_record_of "new_practice" ods_code new_org]) ∧
  (has_primary_pcn_role new_org = true →
   ∃ changes,
     detect_pcn_changes so old_data new_data = Ok changes ∧
     List.filter (concerns ods_code) changes =
     [new_record_of "new_pcn" ods_code new_org]).
Proof.
  intros Hwo Hwn Habs Hnew.
  pose proof (org_record_wf _ _ _ Hwn Hnew) as Hwf.
  apply org_record_organisation_of in Hnew as [Hnew Hpres].
  destruct (wf_org_filters _ Hwf) as (kvs & roles & -> & Hroles & Hp & Hn).
  split; intros Hrole.
  - apply practice_records_of_code; [done|done|by right|].
    unfold practice_step.
    rewrite (organisation_of_absent _ _ Habs), Hnew. simpl.
    rewrite Hroles. simpl. rewrite Hp, Hrole. done.
  - apply pcn_records_of_code; [done|done|by right|].
    unfold pcn_step.
    rewrite (organisation_of_absent _ _ Habs), Hnew. simpl.
    rewrite Hroles. simpl. rewrite Hn, Hrole. done.
Qed.

Lemma new_organisation_reported_witness :
  (∃ changes,
     detect_practice_changes insertion_order Sample.no_organisations
       Sample.after_move = Ok changes ∧
     List.filter (concerns "P1") changes =
     [new_record_of "new_practice" "P1"
        (Sample.member_of "B" "2024-02-01")]).
Proof.
  apply (proj1 (new_organisation_reported insertion_order
                  Sample.no_organisations Sample.after_move "P1"
                  (Sample.member_of "B" "2024-02-01")
                  eq_refl eq_refl eq_refl eq_refl)).
  reflexivity.
Defined.








(** ** The order of iteration *)

(** The records appended by an iteration that returns. *)
Lemma for_append_map {A B} (body : A → result (list B)) (g : A → list B)
    (l : list A) (changes : list B) :
  Forall (λ x, body x = Ok (g x)) l →
  for_append body l changes = Ok (changes ++ concat (map g l)).
Proof.
  intros Hl. revert changes.
  induction Hl as [|x l Hx _ IH]; intros changes; simpl.
  - by rewrite app_nil_r.
  - rewrite Hx. simpl. rewrite IH. by rewrite app_assoc.
Qed.

Lemma for_append_steps {A B} (body : A → result (list B)) (l : list A)
    (changes result : list B) :
  for_append body l changes = Ok result →
  Forall (λ x, body x = Ok (try_except (body x) [])) l.
Proof.
  revert changes. induction l as [|x l IH]; intros changes; simpl.
  - constructor.
  - intros H. apply bind_Ok in H as (rs & Hx & H). constructor; [|eauto].
    by rewrite Hx.
Qed.

(** A loop that appends returns, up to the order of the records, the same
    list for every order of iteration, and returns for every order as soon
    as it returns for one. *)
Lemma for_append_permutation {A B} (body : A → result (list B))
    (l1 l2 : list A) (r1 : list B) :
  l1 ≡ₚ l2 → for_append body l1 [] = Ok r1 →
  ∃ r2, for_append body l2 [] = Ok r2 ∧ r1 ≡ₚ r2.
Proof.
  intros Hperm H1.
  pose proof (for_append_steps _ _ _ _ H1) as Hsteps.
  rewrite (for_append_map _ _ _ _ Hsteps) in H1. injection H1 as <-.
  rewrite Hperm in Hsteps.
  exists (concat (map (λ x, try_except (body x) []) l2)).
  split; [by rewrite (for_append_map _ _ _ _ Hsteps)|].
  simpl. by rewrite Hperm.
Qed.

Lemma iter_set_orders (so1 so2 : set_order) (l : list string) :
  iter_set so1 l ≡ₚ iter_set so2 l.
Proof. by rewrite !iter_set_perm. Qed.

(** X5. The order in which Python iterates over the set of codes does not
    matter: if a pass of the differ returns for one order of iteration it
    returns for every order, and the two lists of changes contain the same
    records, possibly in a different order. *)
Theorem changes_do_not_depend_on_set_order (so1 so2 : set_order)
    (old_data new_data : json) :
  (∀ changes,
     detect_practice_changes so1 old_data new_data = Ok changes →
     ∃ changes', detect_practice_changes so2 old_data new_data = Ok changes' ∧
                 changes ≡ₚ changes') ∧
  (∀ changes,
     detect_pcn_changes so1 old_data new_data = Ok changes →
     ∃ changes', detect_pcn_changes so2 old_data new_data = Ok changes' ∧
                 changes ≡ₚ changes').
Proof.
  split; intros changes H.
  - unfold detect_practice_changes in *.
    apply bind_Ok in H as (oo & Hoo & H). rewrite Hoo. cbn [bind].
    apply bind_Ok in H as (no & Hno & H). rewrite Hno. cbn [bind].
    apply bind_Ok in H as (ok & Hok & H). rewrite Hok. cbn [bind].
    apply bind_Ok in H as (nk & Hnk & H). rewrite Hnk. cbn [bind].
    exact (for_append_permutation _ _ _ _ (iter_set_orders so1 so2 _) H).
  - unfold detect_pcn_changes in *.
    apply bind_Ok in H as (oo & Hoo & H). rewrite Hoo. cbn [bind].
    apply bind_Ok in H as (no & Hno & H). rewrite Hno. cbn [bind].
    apply bind_Ok in H as (ok & Hok & H). rewrite Hok. cbn [bind].
    apply bind_Ok in H as (nk & Hnk & H). rewrite Hnk. cbn [bind].
    exact (for_append_permutation _ _ _ _ (iter_set_orders so1 so2 _) H).
Qed.

Lemma changes_do_not_depend_on_set_order_witness :
  ∃ changes',
    detect_pcn_changes reverse_order Sample.no_organisations
      Sample.after_move = Ok changes' ∧
    [new_record_of "new_pcn" "A"
       (Sample.org_info "Net A" "Active" "2023-04-01" Sample.pcn_role []);
     new_record_of "new_pcn" "B"
       (Sample.org_info "Net B" "Active" "2023-04-01" Sample.pcn_role [])]
    ≡ₚ changes'.
Proof.
  apply (proj2 (changes_do_not_depend_on_set_order insertion_order
                  reverse_order Sample.no_organisations Sample.after_move)).
  reflexivity.
Defined.

(** ** What the differ can report *)

Lemma new_record_inv (type c : string) (org r : json) :
  new_record type c org = Ok r → r = new_record_of type c org.
Proof.
  destruct org as [| | | | |kvs]; try discriminate. by intros [= <-].
Qed.

Lemma status_change_record_inv (c : string) (old_org new_org r : json) :
  status_change_record c old_org new_org = Ok r →
  r = status_change_of c old_org new_org.
Proof.
  destruct new_org as [| | | | |nkvs]; try discriminate.
  destruct old_org as [| | | | |okvs]; try discriminate. by intros [= <-].
Qed.

Lemma pcn_change_record_inv (old_data new_data : json) (c : string)
    (new_org old_pcn new_pcn r : json) :
  pcn_change_record old_data new_data c new_org old_pcn new_pcn = Ok r →
  ∃ old_name new_name,
    r = pcn_change_of c new_org old_pcn old_name new_pcn new_name.
Proof.
  unfold pcn_change_record. intros H.
  destruct new_org as [| | | | |nkvs]; try discriminate.
  cbn [get bind] in H.
  apply bind_Ok in H as (old_name & _ & H).
  apply bind_Ok in H as (new_name & _ & H).
  injection H as <-. eauto.
Qed.

(** The record that the passes read for a code, when it is not empty, is
    the record that the snapshot holds for that code. *)
Lemma organisation_of_truthy (data : json) (orgs : list (string * json))
    (c : string) (org : json) :
  get data "organisations" empty_dict = Ok (JObj orgs) →
  organisation_of (JObj orgs) c = Ok org →
  truthy org = true →
  org_record data c = Some org.
Proof.
  intros Hget Horg Htruthy. unfold org_record, orgs_of. rewrite Hget.
  unfold organisation_of in Horg. cbn [get bind] in Horg.
  destruct (assoc c orgs) as [entry|]; simpl in Horg.
  - destruct entry as [| | | | |ekvs]; try discriminate.
    by injection Horg as <-.
  - injection Horg as <-. discriminate.
Qed.

(** What an iteration of the practice pass appends, whatever the
    snapshots: nothing, a "new" record, or a status-change record and a
    membership-change record, each optional. *)
Lemma practice_step_shape (old_data new_data old_orgs new_orgs : json)
    (c : string) (rs : list json) :
  practice_step old_data new_data old_orgs new_orgs c = Ok rs →
  rs = [] ∨
  ∃ old_org new_org roles,
    organisation_of old_orgs c = Ok old_org ∧
    organisation_of new_orgs c = Ok new_org ∧
    roles_of new_org = Ok roles ∧
    py_any is_practice_role roles = Ok true ∧
    (rs = [new_record_of "new_practice" c new_org] ∨
     ∃ s p, rs = s ++ p ∧
       (s = [] ∨ s = [status_change_of c old_org new_org]) ∧
       (p = [] ∨ ∃ old_name new_name,
          p = [pcn_change_of c new_org (get_current_pcn old_org) old_name
                 (get_current_pcn new_org) new_name])).
Proof.
  unfold practice_step. intros H.
  apply bind_Ok in H as (old_org & Hold & H).
  apply bind_Ok in H as (new_org & Hnew & H).
  apply bind_Ok in H as (roles & Hroles & H).
  apply bind_Ok in H as ([] & Hany & H); simpl in H;
    [|injection H as <-; by left].
  right. exists old_org, new_org, roles. do 4 (split; [done|]).
  rewrite (filter_accepts_truthy _ _ _ Hroles Hany) in H. simpl in H.
  destruct (truthy old_org); simpl in H.
  - right.
    apply bind_Ok in H as (s1 & Hs1 & H).
    apply bind_Ok in H as (s2 & Hs2 & H).
    apply bind_Ok in H as (sc & Hsc & H).
    apply bind_Ok in H as (pc & Hpc & H). injection H as <-.
    exists sc, pc. split; [done|]. split.
    + destruct (py_ne s1 s2); [|injection Hsc as <-; by left].
      apply bind_Ok in Hsc as (r & Hr & Hsc). injection Hsc as <-.
      right. by rewrite (status_change_record_inv _ _ _ _ Hr).
    + destruct (py_ne (get_current_pcn old_org) (get_current_pcn new_org));
        [|injection Hpc as <-; by left].
      apply bind_Ok in Hpc as (r & Hr & Hpc). injection Hpc as <-.
      right. apply pcn_change_record_inv in Hr as (on & nn & ->). eauto.
  - left. apply bind_Ok in H as (r & Hr & H). injection H as <-.
    by rewrite (new_record_inv _ _ _ _ Hr).
Qed.

Lemma pcn_step_shape (old_orgs new_orgs : json) (c : string)
    (rs : list json) :
  pcn_step old_orgs new_orgs c = Ok rs →
  rs = [] ∨
  ∃ old_org new_org roles,
    organisation_of old_orgs c = Ok old_org ∧
    organisation_of new_orgs c = Ok new_org ∧
    roles_of new_org = Ok roles ∧
    py_any is_primary_pcn_role roles = Ok true ∧
    (rs = [new_record_of "new_pcn" c new_org] ∨
     rs = [status_change_of c old_org new_org]).
Proof.
  unfold pcn_step. intros H.
  apply bind_Ok in H as (old_org & Hold & H).
  apply bind_Ok in H as (new_org & Hnew & H).
  apply bind_Ok in H as (roles & Hroles & H).
  apply bind_Ok in H as ([] & Hany & H); simpl in H;
    [|injection H as <-; by left].
  rewrite (filter_accepts_truthy _ _ _ Hroles Hany) in H. simpl in H.
  destruct (truthy old_org); simpl in H.
  - apply bind_Ok in H as (s1 & Hs1 & H).
    apply bind_Ok in H as (s2 & Hs2 & H).
    destruct (py_ne s1 s2); [|injection H as <-; by left].
    right. exists old_org, new_org, roles. do 4 (split; [done|]).
    apply bind_Ok in H as (r & Hr & H). injection H as <-.
    right. by rewrite (status_change_record_inv _ _ _ _ Hr).
  - right. exists old_org, new_org, roles. do 4 (split; [done|]).
    left. apply bind_Ok in H as (r & Hr & H). injection H as <-.
    by rewrite (new_record_inv _ _ _ _ Hr).
Qed.

Lemma dict_keys_dict (o : json) (ks : list string) :
  dict_keys o = Ok ks → ∃ kvs, o = JObj kvs.
Proof. destruct o; try discriminate. eauto. Qed.

Lemma has_practice_role_true (org : json) (roles : list json) :
  roles_of org = Ok roles → py_any is_practice_role roles = Ok true →
  has_practice_role org = true.
Proof. intros H1 H2. unfold has_practice_role. by rewrite H1, H2. Qed.

Lemma has_primary_pcn_role_true (org : json) (roles : list json) :
  roles_of org = Ok roles → py_any is_primary_pcn_role roles = Ok true →
  has_primary_pcn_role org = true.
Proof. intros H1 H2. unfold has_primary_pcn_role. by rewrite H1, H2. Qed.

(** X6. A pass of the differ only reports organisations that the new
    snapshot holds and whose new record passes the class filter; the old
    record is never consulted to decide who is reported.  The practice pass
    only produces records of kind new_practice, status_change and
    pcn_change, the network pass records of kind new_pcn and
    status_change. *)
Theorem only_members_of_new_snapshot_reported (so : set_order)
    (old_data new_data : json) :
  (∀ changes,
     detect_practice_changes so old_data new_data = Ok changes →
     Forall (reported_by has_practice_role practice_kind new_data) changes) ∧
  (∀ changes,
     detect_pcn_changes so old_data new_data = Ok changes →
     Forall (reported_by has_primary_pcn_role pcn_kind new_data) changes).
Proof.
  split; intros changes H.
  - unfold detect_practice_changes in H.
    apply bind_Ok in H as (oo & Hoo & H).
    apply bind_Ok in H as (no & Hno & H).
    apply bind_Ok in H as (ok & Hok & H).
    apply bind_Ok in H as (nk & Hnk & H).
    apply dict_keys_dict in Hnk as [orgs ->].
    apply for_append_Ok in H as (appended & Happ & ->). simpl.
    apply Forall_concat.
    induction Happ as [|c rs codes appended Hc _ IH]; constructor; [|done].
    apply practice_step_shape in Hc
      as [->|(old_org & new_org & roles & Hold & Hnew & Hroles & Hany & Hrs)];
      [constructor|].
    pose proof (organisation_of_truthy _ _ _ _ Hno Hnew
                  (filter_accepts_truthy _ _ _ Hroles Hany)) as Hrec.
    pose proof (has_practice_role_true _ _ Hroles Hany) as Hrole.
    destruct Hrs as [->|(s & p & -> & Hs & Hp)].
    + constructor; [|constructor]. by exists c, new_org.
    + apply Forall_app. split.
      * destruct Hs as [->| ->]; constructor; [|constructor].
        by exists c, new_org.
      * destruct Hp as [->|(on & nn & ->)]; constructor; [|constructor].
        by exists c, new_org.
  - unfold detect_pcn_changes in H.
    apply bind_Ok in H as (oo & Hoo & H).
    apply bind_Ok in H as (no & Hno & H).
    apply bind_Ok in H as (ok & Hok & H).
    apply bind_Ok in H as (nk & Hnk & H).
    apply dict_keys_dict in Hnk as [orgs ->].
    apply for_append_Ok in H as (appended & Happ & ->). simpl.
    apply Forall_concat.
    induction Happ as [|c rs codes appended Hc _ IH]; constructor; [|done].
    apply pcn_step_shape in Hc
      as [->|(old_org & new_org & roles & Hold & Hnew & Hroles & Hany & Hrs)];
      [constructor|].
    pose proof (organisation_of_truthy _ _ _ _ Hno Hnew
                  (filter_accepts_truthy _ _ _ Hroles Hany)) as Hrec.
    pose proof (has_primary_pcn_role_true _ _ Hroles Hany) as Hrole.
    destruct Hrs as [-> | ->]; (constructor; [|constructor]);
      by exists c, new_org.
Qed.

Lemma only_members_of_new_snapshot_reported_witness :
  Forall (reported_by has_practice_role practice_kind Sample.after_closure)
    [status_change_of "P1" (Sample.member_of "A" "2024-01-01")
       (Sample.org_info "High Street Surgery" "Inactive" "2024-03-01"
          Sample.practice_role [Sample.rel "B" "Active" "2024-02-01" None]);
     pcn_change_of "P1"
       (Sample.org_info "High Street Surgery" "Inactive" "2024-03-01"
          Sample.practice_role [Sample.rel "B" "Active" "2024-02-01" None])
       (JStr "A") (JStr "Net A") (JStr "B") (JStr "Net B")].
Proof.
  apply (proj1 (only_members_of_new_snapshot_reported insertion_order
                  Sample.before_move Sample.after_closure)).
  reflexivity.
Defined.

(** ** At most one record of each kind for an organisation *)

Lemma is_kind_status_change (kind c : string) (old_org new_org : json) :
  is_kind kind (status_change_of c old_org new_org)
  = String.eqb "status_change" kind.
Proof. reflexivity. Qed.

Lemma is_kind_pcn_change (kind c : string)
    (new_org old_pcn old_name new_pcn new_name : json) :
  is_kind kind (pcn_change_of c new_org old_pcn old_name new_pcn new_name)
  = String.eqb "pcn_change" kind.
Proof. reflexivity. Qed.

Lemma practice_step_records (old_data new_data old_orgs new_orgs : json)
    (c : string) (rs : list json) :
  practice_step old_data new_data old_orgs new_orgs c = Ok rs →
  records_of c rs ∧ (length rs ≤ 2)%nat ∧
  ∀ kind, (length (List.filter (is_kind kind) rs) ≤ 1)%nat.
Proof.
  intros [->|(old_org & new_org & roles & _ & _ & _ & _ & Hrs)]
    %practice_step_shape.
  { split; [constructor|]. split; [simpl; lia|]. intros kind. simpl. lia. }
  destruct Hrs as [->|(s & p & -> & [->| ->] & [->|(on & nn & ->)])].
  - split; [by repeat constructor|]. split; [simpl; lia|].
    intros kind. simpl. destruct (is_kind kind _); simpl; lia.
  - split; [constructor|]. split; [simpl; lia|]. intros kind. simpl. lia.
  - split; [by repeat constructor|]. split; [simpl; lia|].
    intros kind. simpl. destruct (is_kind kind _); simpl; lia.
  - split; [by repeat constructor|]. split; [simpl; lia|].
    intros kind. simpl. destruct (is_kind kind _); simpl; lia.
  - split; [by repeat constructor|]. split; [simpl; lia|].
    intros kind. cbn [app List.filter].
    rewrite is_kind_status_change, is_kind_pcn_change.
    destruct (String.eqb_spec "status_change" kind) as [H1|H1];
      destruct (String.eqb_spec "pcn_change" kind) as [H2|H2];
      cbn [length]; try lia.
    rewrite <- H1 in H2. discriminate H2.
Qed.

Lemma pcn_step_records (old_orgs new_orgs : json) (c : string)
    (rs : list json) :
  pcn_step old_orgs new_orgs c = Ok rs →
  records_of c rs ∧ (length rs ≤ 1)%nat.
Proof.
  intros [->|(old_org & new_org & roles & _ & _ & _ & _ & [-> | ->])]
    %pcn_step_shape.
  - split; [constructor|simpl; lia].
  - split; [by repeat constructor|simpl; lia].
  - split; [by repeat constructor|simpl; lia].
Qed.

Lemma filter_and {A} (P Q : A → bool) (l : list A) :
  List.filter (λ x, P x && Q x) l = List.filter Q (List.filter P l).
Proof.
  induction l as [|x l IH]; simpl; [done|].
  destruct (P x); simpl; [|done]. destruct (Q x); simpl; by rewrite IH.
Qed.

(** The records of a list of changes that concern a code come from a
    single iteration. *)
Lemma filter_concat_single (step : string → result (list json))
    (c : string) (codes : list string) (appended : list (list json)) :
  (∀ x rs, step x = Ok rs → records_of x rs) →
  Forall2 (λ x rs, step x = Ok rs) codes appended →
  NoDup codes →
  List.filter (concerns c) (concat appended) = [] ∨
  ∃ rs, step c = Ok rs ∧ List.filter (concerns c) (concat appended) = rs.
Proof.
  intros Hrec Happ Hnd.
  destruct (decide (c ∈ codes)) as [Hin|Hout].
  - right. apply list_elem_of_lookup in Hin as [i Hi].
    destruct (Forall2_lookup_l _ _ _ _ _ Happ Hi) as (rs & _ & Hrs).
    exists rs. split; [done|]. eapply filter_concat_code; try done.
    by eapply list_elem_of_lookup_2.
  - left. by eapply filter_concat_other.
Qed.

(** X7. In the list returned by a pass, an organisation has at most one
    record of each kind.  The practice pass returns at most two records for
    an organisation and the network pass at most one. *)
Theorem at_most_one_record_per_kind (so : set_order)
    (old_data new_data : json) (ods_code : string) :
  (∀ changes,
     detect_practice_changes so old_data new_data = Ok changes →
     (length (List.filter (concerns ods_code) changes) ≤ 2)%nat ∧
     ∀ kind,
       (length (List.filter (λ r, concerns ods_code r && is_kind kind r)
                  changes) ≤ 1)%nat) ∧
  (∀ changes,
     detect_pcn_changes so old_data new_data = Ok changes →
     (length (List.filter (concerns ods_code) changes) ≤ 1)%nat).
Proof.
  split; intros changes H.
  - unfold detect_practice_changes in H.
    apply bind_Ok in H as (oo & Hoo & H).
    apply bind_Ok in H as (no & Hno & H).
    apply bind_Ok in H as (ok & Hok & H).
    apply bind_Ok in H as (nk & Hnk & H).
    apply for_append_Ok in H as (appended & Happ & ->). simpl.
    destruct (filter_concat_single _ ods_code _ _
                (λ x rs Hx, proj1 (practice_step_records _ _ _ _ _ _ Hx))
                Happ (iter_set_NoDup so _)) as [Hnone|(rs & Hrs & Hsome)].
    + split; [rewrite Hnone; simpl; lia|]. intros kind.
      rewrite filter_and, Hnone. simpl. lia.
    + apply practice_step_records in Hrs as (_ & Hlen & Hkind).
      split; [by rewrite Hsome|]. intros kind.
      rewrite filter_and, Hsome. apply Hkind.
  - unfold detect_pcn_changes in H.
    apply bind_Ok in H as (oo & Hoo & H).
    apply bind_Ok in H as (no & Hno & H).
    apply bind_Ok in H as (ok & Hok & H).
    apply bind_Ok in H as (nk & Hnk & H).
    apply for_append_Ok in H as (appended & Happ & ->). simpl.
    destruct (filter_concat_single _ ods_code _ _
                (λ x rs Hx, proj1 (pcn_step_records _ _ _ _ Hx))
                Happ (iter_set_NoDup so _)) as [Hnone|(rs & Hrs & Hsome)].
    + rewrite Hnone. simpl. lia.
    + apply pcn_step_records in Hrs as (_ & Hlen). by rewrite Hsome.
Qed.

Lemma at_most_one_record_per_kind_witness :
  (length (List.filter (concerns "P1")
             [status_change_of "P1" (Sample.member_of "A" "2024-01-01")
                (Sample.org_info "High Street Surgery" "Inactive"
                   "2024-03-01" Sample.practice_role
                   [Sample.rel "B" "Active" "2024-02-01" None]);
              pcn_change_of "P1"
                (Sample.org_info "High Street Surgery" "Inactive"
                   "2024-03-01" Sample.practice_role
                   [Sample.rel "B" "Active" "2024-02-01" None])
                (JStr "A") (JStr "Net A") (JStr "B") (JStr "Net B")])
   ≤ 2)%nat.
Proof.
  apply (proj1 (at_most_one_record_per_kind insertion_order
                  Sample.before_move Sample.after_closure "P1")).
  reflexivity.
Defined.

(** ** The order of file names *)

Lemma string_compare_refl (s : string) : String.compare s s = Eq.
Proof.
  induction s as [|a s IH]; [done|]. simpl.
  unfold Ascii.compare. by rewrite N.compare_refl.
Qed.

Lemma string_compare_lt_trans (s t u : string) :
  String.compare s t = Lt → String.compare t u = Lt →
  String.compare s u = Lt.
Proof.
  revert t u. induction s as [|a s IH]; intros [|b t] [|c u]; simpl; try done.
  destruct (Ascii.compare a b) eqn:Hab; try done;
    destruct (Ascii.compare b c) eqn:Hbc; try done.
  - apply Ascii.compare_eq_iff in Hab as ->.
    apply Ascii.compare_eq_iff in Hbc as ->.
    unfold Ascii.compare. rewrite N.compare_refl. apply IH.
  - apply Ascii.compare_eq_iff in Hab as ->. by rewrite Hbc.
  - apply Ascii.compare_eq_iff in Hbc as <-. by rewrite Hab.
  - intros _ _. unfold Ascii.compare in *.
    apply N.compare_lt_iff in Hab, Hbc.
    by rewrite (proj2 (N.compare_lt_iff _ _) (N.lt_trans _ _ _ Hab Hbc)).
Qed.

Lemma str_lt_irrefl (s : string) : ¬ str_lt s s.
Proof. unfold str_lt, String.ltb. by rewrite string_compare_refl. Qed.

Lemma str_le_refl (s : string) : str_le s s.
Proof. unfold str_le, String.leb. by rewrite string_compare_refl. Qed.

Lemma str_le_lt_eq (s t : string) : str_le s t ↔ str_lt s t ∨ s = t.
Proof.
  unfold str_le, str_lt, String.leb, String.ltb. split.
  - destruct (String.compare s t) eqn:H; try done; [|by left].
    right. by apply String.compare_eq_iff.
  - intros [H| ->]; [|by rewrite string_compare_refl].
    by destruct (String.compare s t).
Qed.

Lemma str_lt_trans (s t u : string) : str_lt s t → str_lt t u → str_lt s u.
Proof.
  unfold str_lt, String.ltb. intros H1 H2.
  rewrite (string_compare_lt_trans s t u); [done| |].
  - by destruct (String.compare s t).
  - by destruct (String.compare t u).
Qed.

Lemma str_le_trans (s t u : string) : str_le s t → str_le t u → str_le s u.
Proof.
  rewrite !str_le_lt_eq. intros [H1| ->] [H2| ->]; eauto using str_lt_trans.
Qed.

Lemma str_le_antisym (s t : string) : str_le s t → str_le t s → s = t.
Proof. apply String.leb_antisym. Qed.

Lemma str_lt_not_le (s t : string) : str_lt s t → str_le t s → False.
Proof.
  intros H1 H2. assert (str_le s t) as H3 by (apply str_le_lt_eq; by left).
  rewrite (str_le_antisym _ _ H2 H3) in H1. by apply str_lt_irrefl in H1.
Qed.

Lemma str_lt_or_le (s t : string) : str_lt s t ∨ str_le t s.
Proof.
  destruct (String.leb_total s t) as [H|H]; [|by right].
  apply str_le_lt_eq in H as [H| ->]; [by left|right; apply str_le_refl].
Qed.

Lemma ltb_false_le (s t : string) : String.ltb s t = false → str_le t s.
Proof.
  intros H. destruct (str_lt_or_le s t) as [H'|H']; [|done].
  unfold str_lt in H'. congruence.
Qed.

Lemma leb_false_lt (s t : string) : String.leb s t = false → str_lt t s.
Proof.
  intros H. destruct (str_lt_or_le t s) as [H'|H']; [done|].
  unfold str_le in H'. congruence.
Qed.

(** ** [glob], [max], [sorted] and [index] *)

Lemma read_json_glob (dir : data_dir) (path : string) (data : json) :
  read_json dir path = Some data → path ∈ glob dir.
Proof.
  unfold read_json, glob. intros H. apply keys_items.
  destruct (assoc path dir) eqn:Ha; [|done]. eauto using assoc_elem_of.
Qed.

Lemma max_string_greatest (l : list string) (m : string) :
  max_string l = Some m ↔ m ∈ l ∧ ∀ g, g ∈ l → str_le g m.
Proof.
  assert (Hfold : ∀ rest x,
    let m := fold_left (λ m y, if String.ltb m y then y else m) rest x in
    (m = x ∨ m ∈ rest) ∧ str_le x m ∧ ∀ g, g ∈ rest → str_le g m).
  { induction rest as [|y rest IH]; intros x; simpl.
    - split; [by left|]. split; [apply str_le_refl|].
      intros g Hg. by apply elem_of_nil in Hg.
    - destruct (IH (if String.ltb x y then y else x)) as (Hin & Hx & Hmax).
      destruct (String.ltb x y) eqn:Hxy.
      + split; [right; destruct Hin as [->|Hin]; [left|by right]|].
        split.
        * apply str_le_trans with y; [|done]. apply str_le_lt_eq. by left.
        * intros g [->|Hg]%elem_of_cons; [done|by apply Hmax].
      + split; [destruct Hin as [->|Hin]; [by left|right; by right]|].
        split; [done|].
        intros g [->|Hg]%elem_of_cons; [|by apply Hmax].
        apply str_le_trans with x; [|done]. by apply ltb_false_le. }
  destruct l as [|x rest]; simpl.
  - split; [done|]. intros [H _]. by apply elem_of_nil in H.
  - specialize (Hfold rest x) as (Hin & Hx & Hmax).
    assert (Hall : ∀ g, g ∈ x :: rest →
      str_le g (fold_left (λ m y, if String.ltb m y then y else m) rest x)).
    { intros g [->|Hg]%elem_of_cons; [done|by apply Hmax]. }
    split.
    + intros [= <-]. split; [|done].
      destruct Hin as [->|Hin]; [left|by right].
    + intros [Hm Hg]. f_equal. apply str_le_antisym; [|by apply Hall].
      apply Hg. destruct Hin as [->|Hin]; [left|by right].
Qed.

Lemma insert_sorted_perm (x : string) (l : list string) :
  insert_sorted x l ≡ₚ x :: l.
Proof.
  induction l as [|y l IH]; simpl; [done|].
  destruct (String.leb x y); [done|]. rewrite IH. apply Permutation_swap.
Qed.

Lemma sorted_perm (l : list string) : sorted l ≡ₚ l.
Proof.
  induction l as [|x l IH]; simpl; [done|].
  by rewrite insert_sorted_perm, IH.
Qed.

Lemma insert_sorted_ascending (x : string) (l : list string) :
  ascending l → ascending (insert_sorted x l).
Proof.
  induction l as [|y l IH]; simpl; [by split|]. intros [Hy Hl].
  destruct (String.leb x y) eqn:Hxy; simpl.
  - split; [|done]. constructor; [done|].
    eapply Forall_impl; [exact Hy|]. intros z Hz.
    by apply str_le_trans with y.
  - split; [|by apply IH].
    rewrite insert_sorted_perm. constructor; [|done].
    apply leb_false_lt in Hxy. apply str_le_lt_eq. by left.
Qed.

Lemma sorted_ascending (l : list string) : ascending (sorted l).
Proof.
  induction l as [|x l IH]; simpl; [done|].
  by apply insert_sorted_ascending.
Qed.

Lemma index_None (x : string) (l : list string) :
  index x l = None ↔ x ∉ l.
Proof.
  induction l as [|y l IH]; simpl.
  - split; [|done]. intros _ H. by apply elem_of_nil in H.
  - rewrite not_elem_of_cons.
    destruct (String.eqb_spec y x) as [->|Hne].
    + split; [done|]. by intros [? _].
    + destruct (index x l); simpl.
      * split; [done|]. intros [_ H]. by apply IH in H.
      * split; [|done]. intros _. split; [done|by apply IH].
Qed.

(** In a sorted list, the first position of [x] is preceded by the
    greatest of the elements below [x]. *)
Lemma index_sorted (x : string) (l : list string) :
  ascending l →
  match index x l with
  | None => x ∉ l
  | Some O => ∀ g, g ∈ l → str_le x g
  | Some (S i) =>
      ∃ p, l !! i = Some p ∧ str_lt p x ∧
           ∀ g, g ∈ l → str_lt g x → str_le g p
  end.
Proof.
  induction l as [|y l IH]; simpl; [intros _; apply not_elem_of_nil|].
  intros [Hy Hl]. specialize (IH Hl). rewrite Forall_forall in Hy.
  destruct (String.eqb_spec y x) as [->|Hne].
  { intros g [->|Hg]%elem_of_cons; [apply str_le_refl|by apply Hy]. }
  destruct (index x l) as [[|i]|] eqn:Hi; simpl.
  - assert (x ∈ l) as Hx.
    { apply dec_stable. intros Hx. apply index_None in Hx. congruence. }
    exists y. split; [done|].
    assert (str_lt y x) as Hyx.
    { destruct (proj1 (str_le_lt_eq y x) (Hy x Hx)); [done|congruence]. }
    split; [done|].
    intros g [->|Hg]%elem_of_cons Hgx; [apply str_le_refl|].
    destruct (str_lt_not_le _ _ Hgx (IH g Hg)).
  - destruct IH as (p & Hp & Hpx & Hmax). exists p. split; [done|].
    split; [done|].
    intros g [->|Hg]%elem_of_cons Hgx; [|by apply Hmax].
    apply Hy. by eapply list_elem_of_lookup_2.
  - apply not_elem_of_cons. split; [done|exact IH].
Qed.

Lemma two_elements {A} (l : list A) (x y : A) :
  x ∈ l → y ∈ l → x ≠ y → (2 ≤ length l)%nat.
Proof.
  destruct l as [|a [|b l]]; simpl; [|  |lia].
  - intros H. by apply elem_of_nil in H.
  - intros ->%list_elem_of_singleton ->%list_elem_of_singleton. done.
Qed.

(** [load_latest_data] returns a document exactly for the greatest file
    name of the directory, when that file can be read. *)
Lemma load_latest_data_Some (dir : data_dir) (data : json) (file : string) :
  load_latest_data dir = (data, Some file) ↔
  newest dir file ∧ read_json dir file = Some data.
Proof.
  unfold load_latest_data, newest. rewrite <- max_string_greatest.
  destruct (max_string (glob dir)) as [m|]; [|split; [done|by intros [? _]]].
  destruct (read_json dir m) as [d|] eqn:Hd.
  - split; [by intros [= <- <-]|]. intros [[= ->] H]. congruence.
  - split; [done|]. intros [[= ->] H]. congruence.
Qed.

(** [load_previous_data] returns a document exactly for the file that
    precedes [current_file] in the order of the names, when that file can
    be read. *)
Lemma load_previous_data_Some (dir : data_dir) (current_file : string)
    (data : json) (file : string) :
  load_previous_data dir current_file = (data, Some file) ↔
  predecessor dir current_file file ∧ read_json dir file = Some data.
Proof.
  unfold load_previous_data, predecessor.
  pose proof (index_sorted current_file _ (sorted_ascending (glob dir))) as Hi.
  assert (Hin : ∀ g, g ∈ sorted (glob dir) ↔ g ∈ glob dir).
  { intros g. by rewrite sorted_perm. }
  pose proof (index_None current_file (sorted (glob dir))) as Hnone.
  rewrite Hin in Hnone.
  split.
  - destruct (Nat.ltb_spec (length (glob dir)) 2) as [Hlen|Hlen]; [done|].
    destruct (index current_file (sorted (glob dir))) as [[|i]|]; try done.
    destruct Hi as (p & Hp & Hpx & Hmax). rewrite Hp.
    destruct (read_json dir p) as [d|] eqn:Hd; [|done].
    intros [= <- <-]. split; [|done].
    split; [by eapply read_json_glob|].
    split. { apply dec_stable. intros Hc. apply Hnone in Hc. congruence. }
    split; [done|]. intros g Hg. apply Hmax. by apply Hin.
  - intros [(Hf & Hc & Hlt & Hmax) Hread].
    assert (file ≠ current_file) as Hne.
    { intros ->. by apply str_lt_irrefl in Hlt. }
    pose proof (two_elements _ _ _ Hf Hc Hne) as Hlen.
    destruct (Nat.ltb_spec (length (glob dir)) 2) as [?|_]; [lia|].
    destruct (index current_file (sorted (glob dir))) as [[|i]|].
    + destruct (str_lt_not_le _ _ Hlt (Hi file (proj2 (Hin _) Hf))).
    + destruct Hi as (p & Hp & Hpx & Hpmax). rewrite Hp.
      assert (p = file) as ->.
      { apply str_le_antisym.
        - apply Hmax; [|done]. apply Hin. by eapply list_elem_of_lookup_2.
        - apply Hpmax; [by apply Hin|done]. }
      by rewrite Hread.
    + destruct Hi. by apply Hin.
Qed.

Lemma newest_unique (dir : data_dir) (f g : string) :
  newest dir f → newest dir g → f = g.
Proof. intros [Hf Hfmax] [Hg Hgmax]. apply str_le_antisym; auto. Qed.

Lemma predecessor_unique (dir : data_dir) (current_file f g : string) :
  predecessor dir current_file f → predecessor dir current_file g → f = g.
Proof.
  intros (Hf & _ & Hflt & Hfmax) (Hg & _ & Hglt & Hgmax).
  apply str_le_antisym; auto.
Qed.

Lemma load_latest_data_cases (dir : data_dir) :
  load_latest_data dir = nothing_loaded ∨
  ∃ data file, load_latest_data dir = (data, Some file) ∧
               newest dir file ∧ read_json dir file = Some data.
Proof.
  destruct (load_latest_data dir) as [data [file|]] eqn:H.
  - right. exists data, file. split; [done|]. by apply load_latest_data_Some.
  - left. unfold load_latest_data in H.
    destruct (max_string (glob dir)) as [m|]; [|done].
    by destruct (read_json dir m).
Qed.

Lemma load_previous_data_cases (dir : data_dir) (current_file : string) :
  load_previous_data dir current_file = nothing_loaded ∨
  ∃ data file, load_previous_data dir current_file = (data, Some file) ∧
               predecessor dir current_file file ∧
               read_json dir file = Some data.
Proof.
  destruct (load_previous_data dir current_file) as [data [file|]] eqn:H.
  - right. exists data, file. split; [done|].
    by apply load_previous_data_Some.
  - left. unfold load_previous_data in H.
    destruct (length (glob dir) <? 2)%nat; [done|].
    destruct (index current_file (sorted (glob dir))) as [[|i]|]; try done.
    destruct (sorted (glob dir) !! i) as [p|]; [|done].
    by destruct (read_json dir p).
Qed.

Lemma load_latest_data_newest (dir : data_dir) (file : string) :
  newest dir file →
  load_latest_data dir =
  match read_json dir file with
  | Some data => (data, Some file)
  | None => nothing_loaded
  end.
Proof.
  intros Hn. destruct (read_json dir file) as [data|] eqn:Hr.
  - by apply load_latest_data_Some.
  - destruct (load_latest_data_cases dir) as [H|(d & f & H & Hf & Hd)]; [done|].
    rewrite (newest_unique _ _ _ Hf Hn) in Hd. congruence.
Qed.

Lemma load_previous_data_predecessor (dir : data_dir)
    (current_file file : string) :
  predecessor dir current_file file →
  load_previous_data dir current_file =
  match read_json dir file with
  | Some data => (data, Some file)
  | None => nothing_loaded
  end.
Proof.
  intros Hp. destruct (read_json dir file) as [data|] eqn:Hr.
  - by apply load_previous_data_Some.
  - destruct (load_previous_data_cases dir current_file)
      as [H|(d & f & H & Hf & Hd)]; [done|].
    rewrite (predecessor_unique _ _ _ _ Hf Hp) in Hd. congruence.
Qed.

Lemma load_previous_data_none (dir : data_dir) (current_file : string) :
  (∀ g, g ∈ glob dir → ¬ str_lt g current_file) →
  load_previous_data dir current_file = nothing_loaded.
Proof.
  intros Hleast.
  destruct (load_previous_data_cases dir current_file)
    as [H|(d & f & H & (Hf & _ & Hlt & _) & Hd)]; [done|].
  destruct (Hleast f Hf Hlt).
Qed.

Lemma main_unfold (so_practice so_pcn : set_order) (dir : data_dir)
    (file : tracked_file) (today latest_file previous_file : string)
    (latest_data previous_data : json) :
  load_latest_data dir = (latest_data, Some latest_file) →
  load_previous_data dir latest_file = (previous_data, Some previous_file) →
  truthy latest_data = true → truthy previous_data = true →
  main so_practice so_pcn dir file today =
  match detect_practice_changes so_practice previous_data latest_data with
  | Raise _ => file
  | Ok practice_changes =>
      match detect_pcn_changes so_pcn previous_data latest_data with
      | Raise _ => file
      | Ok pcn_changes =>
          update_tracked_changes file
            (changes_dict practice_changes pcn_changes) latest_file today
      end
  end.
Proof. intros Hl Hp Htl Htp. unfold main. by rewrite Hl, Htl, Hp, Htp. Qed.

Lemma main_nothing_loaded (so_practice so_pcn : set_order) (dir : data_dir)
    (file : tracked_file) (today : string) :
  (load_latest_data dir = nothing_loaded ∨
   ∃ data latest_file,
     load_latest_data dir = (data, Some latest_file) ∧
     load_previous_data dir latest_file = nothing_loaded) →
  main so_practice so_pcn dir file today = file.
Proof.
  unfold main. intros [H|(data & f & Hl & Hp)].
  - by rewrite H.
  - rewrite Hl, Hp. simpl. by destruct (truthy data).
Qed.

Lemma update_tracked_changes_nothing (file : tracked_file)
    (current_file today : string) :
  update_tracked_changes file (changes_dict [] []) current_file today = file.
Proof. by destruct file. Qed.

(** X8. [load_latest_data] reads the file whose name is the greatest of
    the directory, and no other: it returns a document with a file name
    exactly when that file is the greatest and can be read; otherwise it
    returns [(None, None)], in particular on an empty directory and when
    the greatest file cannot be read, whatever the other files hold. *)
Theorem latest_file_is_the_greatest (dir : data_dir) :
  (∀ data file,
     load_latest_data dir = (data, Some file) ↔
     newest dir file ∧ read_json dir file = Some data) ∧
  (glob dir = [] → load_latest_data dir = nothing_loaded) ∧
  (∀ file, newest dir file → read_json dir file = None →
           load_latest_data dir = nothing_loaded) ∧
  (load_latest_data dir = nothing_loaded ∨
   ∃ data file, load_latest_data dir = (data, Some file)).
Proof.
  split; [intros; apply load_latest_data_Some|].
  split; [|split].
  - unfold load_latest_data. by intros ->.
  - intros file Hn Hr. by rewrite (load_latest_data_newest dir file Hn), Hr.
  - destruct (load_latest_data_cases dir) as [H|(d & f & H & _)]; eauto.
Qed.

Lemma latest_file_is_the_greatest_witness :
  load_latest_data SampleDir.three_days =
  (Sample.after_closure, Some "data/ncl_icb_data_20240301.json").
Proof.
  apply (proj1 (latest_file_is_the_greatest SampleDir.three_days)).
  split; [split|reflexivity].
  - apply list_elem_of_In. vm_compute. tauto.
  - intros g Hg. apply list_elem_of_In in Hg. vm_compute in Hg.
    destruct Hg as [<-|[<-|[<-|[]]]]; reflexivity.
Defined.

(** X9. [load_previous_data] reads the file that immediately precedes
    the current file in the order of the names, and no other: it returns
    a document with a file name exactly when that file is the greatest of
    the names below the current one and can be read.  It returns
    [(None, None)] when no name of the directory is below the current
    one, and when the current file is not in the directory. *)
Theorem previous_file_is_the_predecessor (dir : data_dir)
    (current_file : string) :
  (∀ data file,
     load_previous_data dir current_file = (data, Some file) ↔
     predecessor dir current_file file ∧ read_json dir file = Some data) ∧
  ((∀ g, g ∈ glob dir → ¬ str_lt g current_file) →
   load_previous_data dir current_file = nothing_loaded) ∧
  (current_file ∉ glob dir →
   load_previous_data dir current_file = nothing_loaded) ∧
  (∀ file, predecessor dir current_file file → read_json dir file = None →
           load_previous_data dir current_file = nothing_loaded).
Proof.
  split; [intros; apply load_previous_data_Some|].
  split; [apply load_previous_data_none|]. split.
  - intros Hc.
    destruct (load_previous_data_cases dir current_file)
      as [H|(d & f & H & (_ & Hin & _) & _)]; [done|]. by destruct Hc.
  - intros file Hp Hr.
    by rewrite (load_previous_data_predecessor dir _ file Hp), Hr.
Qed.

Lemma previous_file_is_the_predecessor_witness :
  load_previous_data SampleDir.three_days "data/ncl_icb_data_20240301.json" =
  (Sample.after_move, Some "data/ncl_icb_data_20240201.json").
Proof.
  apply (proj1 (previous_file_is_the_predecessor SampleDir.three_days
                  "data/ncl_icb_data_20240301.json")).
  split; [|reflexivity].
  split; [apply list_elem_of_In; vm_compute; tauto|].
  split; [apply list_elem_of_In; vm_compute; tauto|].
  split; [reflexivity|].
  intros g Hg. apply list_elem_of_In in Hg. vm_compute in Hg.
  destruct Hg as [<-|[<-|[<-|[]]]]; try reflexivity. discriminate.
Defined.

(** X10. Runs of [main] that leave the file of tracked changes as it
    was: a directory with fewer than two snapshots; a newest snapshot or
    a predecessor that is an empty document; a newest snapshot and a
    predecessor that hold the same document, well formed or not, provided
    it holds no NaN; and a comparison that raises. *)
Theorem main_writes_nothing (so_practice so_pcn : set_order)
    (dir : data_dir) (file : tracked_file) (today : string) :
  ((length (glob dir) < 2)%nat →
   main so_practice so_pcn dir file today = file) ∧
  (∀ latest_file previous_file,
     newest dir latest_file → predecessor dir latest_file previous_file →
     (read_json dir latest_file = read_json dir previous_file →
      (∀ data, read_json dir latest_file = Some data →
               nan_free data = true) →
      main so_practice so_pcn dir file today = file) ∧
     (∀ latest_data previous_data,
        read_json dir latest_file = Some latest_data →
        read_json dir previous_file = Some previous_data →
        truthy latest_data = false ∨ truthy previous_data = false ∨
        (∃ e, detect_practice_changes so_practice previous_data latest_data
              = Raise e) ∨
        (∃ e, detect_pcn_changes so_pcn previous_data latest_data
              = Raise e) →
        main so_practice so_pcn dir file today = file)).
Proof.
  split.
  - intros Hlen. apply main_nothing_loaded.
    destruct (load_latest_data_cases dir) as [H|(d & f & H & _)];
      [by left|right].
    exists d, f. split; [done|]. unfold load_previous_data.
    by destruct (Nat.ltb_spec (length (glob dir)) 2) as [_|?]; [|lia].
  - intros f p Hf Hp.
    assert (Hcases : ∀ latest_data previous_data,
      read_json dir f = Some latest_data →
      read_json dir p = Some previous_data →
      truthy latest_data = false ∨ truthy previous_data = false ∨
      (∃ e, detect_practice_changes so_practice previous_data latest_data
            = Raise e) ∨
      (∃ e, detect_pcn_changes so_pcn previous_data latest_data = Raise e) ∨
      (detect_practice_changes so_practice previous_data latest_data = Ok [] ∧
       detect_pcn_changes so_pcn previous_data latest_data = Ok []) →
      main so_practice so_pcn dir file today = file).
    { intros new old Hnew Hold Hcase.
      pose proof (load_latest_data_newest dir f Hf) as Hl.
      pose proof (load_previous_data_predecessor dir f p Hp) as Hq.
      rewrite Hnew in Hl. rewrite Hold in Hq.
      destruct (truthy new) eqn:Htn; [|unfold main; by rewrite Hl, Htn].
      destruct (truthy old) eqn:Hto; [|unfold main; by rewrite Hl, Htn, Hq, Hto].
      rewrite (main_unfold _ _ _ _ _ _ _ _ _ Hl Hq Htn Hto).
      destruct Hcase as [?|[?|[[e He]|[[e He]|[Hpc Hnc]]]]]; try done.
      - by rewrite He.
      - rewrite He. by destruct (detect_practice_changes _ _ _).
      - rewrite Hpc, Hnc. apply update_tracked_changes_nothing. }
    split.
    + intros Hsame Hfree. destruct (read_json dir f) as [data|] eqn:Hr.
      * apply (Hcases data data eq_refl (eq_sym Hsame)).
        specialize (Hfree data eq_refl).
        destruct (detect_practice_changes so_practice data data)
          as [pc|e] eqn:Hpc; [|eauto].
        destruct (detect_pcn_changes so_pcn data data)
          as [nc|e] eqn:Hnc; [|eauto 6].
        apply detect_practice_changes_same in Hpc as ->; [|done].
        apply detect_pcn_changes_same in Hnc as ->; [|done]. tauto.
      * apply main_nothing_loaded. left.
        by rewrite (load_latest_data_newest dir f Hf), Hr.
    + intros new old Hnew Hold Hcase. apply (Hcases new old Hnew Hold). tauto.
Qed.

Lemma main_writes_nothing_witness :
  main insertion_order insertion_order SampleDir.same_twice None "2024-01-03"
  = None.
Proof.
  apply (proj2 (main_writes_nothing insertion_order insertion_order
                  SampleDir.same_twice None "2024-01-03")
           "data/ncl_icb_data_20240102.json"
           "data/ncl_icb_data_20240101.json").
  - split; [apply list_elem_of_In; vm_compute; tauto|].
    intros g Hg. apply list_elem_of_In in Hg. vm_compute in Hg.
    destruct Hg as [<-|[<-|[]]]; reflexivity.
  - split; [apply list_elem_of_In; vm_compute; tauto|].
    split; [apply list_elem_of_In; vm_compute; tauto|].
    split; [reflexivity|].
    intros g Hg. apply list_elem_of_In in Hg. vm_compute in Hg.
    destruct Hg as [<-|[<-|[]]]; try reflexivity. discriminate.
  - reflexivity.
  - intros data [= <-]. reflexivity.
Defined.

(** X11. [main] compares the newest snapshot of the directory with its
    immediate predecessor in the order of the file names, and with no
    older one: when both are non-empty well-formed snapshots, the two
    passes of the differ return on exactly this pair, and the file of
    tracked changes after the run is the one that
    [update_tracked_changes] produces from their results and the name of
    the newest file. *)
Theorem main_compares_newest_with_predecessor
    (so_practice so_pcn : set_order) (dir : data_dir) (file : tracked_file)
    (today latest_file previous_file : string)
    (latest_data previous_data : json) :
  newest dir latest_file → predecessor dir latest_file previous_file →
  read_json dir latest_file = Some latest_data →
  read_json dir previous_file = Some previous_data →
  truthy latest_data = true → truthy previous_data = true →
  wf_snapshot previous_data = true → wf_snapshot latest_data = true →
  ∃ practice_changes pcn_changes,
    detect_practice_changes so_practice previous_data latest_data
      = Ok practice_changes ∧
    detect_pcn_changes so_pcn previous_data latest_data = Ok pcn_changes ∧
    main so_practice so_pcn dir file today =
    update_tracked_changes file (changes_dict practice_changes pcn_changes)
      latest_file today.
Proof.
  intros Hf Hp Hnew Hold Htn Hto Hwo Hwn.
  destruct (detect_practice_changes_total so_practice _ _ Hwo Hwn)
    as [pc Hpc].
  destruct (detect_pcn_changes_total so_pcn _ _ Hwo Hwn) as [nc Hnc].
  exists pc, nc. split; [done|]. split; [done|].
  pose proof (load_latest_data_newest dir _ Hf) as Hl.
  pose proof (load_previous_data_predecessor dir _ _ Hp) as Hq.
  rewrite Hnew in Hl. rewrite Hold in Hq.
  by rewrite (main_unfold _ _ _ _ _ _ _ _ _ Hl Hq Htn Hto), Hpc, Hnc.
Qed.

Lemma main_compares_newest_with_predecessor_witness :
  ∃ practice_changes pcn_changes,
    detect_practice_changes insertion_order Sample.after_move
      Sample.after_closure = Ok practice_changes ∧
    detect_pcn_changes insertion_order Sample.after_move
      Sample.after_closure = Ok pcn_changes ∧
    main insertion_order insertion_order SampleDir.three_days None
      "2024-03-02" =
    update_tracked_changes None (changes_dict practice_changes pcn_changes)
      "data/ncl_icb_data_20240301.json" "2024-03-02".
Proof.
  apply (main_compares_newest_with_predecessor insertion_order
           insertion_order SampleDir.three_days None "2024-03-02"
           "data/ncl_icb_data_20240301.json"
           "data/ncl_icb_data_20240201.json").
  - split; [apply list_elem_of_In; vm_compute; tauto|].
    intros g Hg. apply list_elem_of_In in Hg. vm_compute in Hg.
    destruct Hg as [<-|[<-|[<-|[]]]]; reflexivity.
  - split; [apply list_elem_of_In; vm_compute; tauto|].
    split; [apply list_elem_of_In; vm_compute; tauto|].
    split; [reflexivity|].
    intros g Hg. apply list_elem_of_In in Hg. vm_compute in Hg.
    destruct Hg as [<-|[<-|[<-|[]]]]; try reflexivity. discriminate.
  - reflexivity.
  - reflexivity.
  - reflexivity.
  - reflexivity.
  - reflexivity.
  - reflexivity.
Defined.

(** ** The loop over the PCN relationships of a practice (main.py) *)

(** One iteration of the loop, in terms of the membership that the
    relationship records. *)
Lemma resolve_pcn_rels_cons (pcns : list (string * json)) (rel : json)
    (rest : list json) (current_pcn current_pcn_date : json) :
  resolve_pcn_rels pcns (rel :: rest) current_pcn current_pcn_date =
  let* m := membership_of pcns rel in
  match m with
  | None => resolve_pcn_rels pcns rest current_pcn current_pcn_date
  | Some (target_ods, start_date) =>
      let* later :=
        (if negb (truthy current_pcn) then Ok true
         else if negb (truthy start_date) then Ok false
         else py_gt start_date current_pcn_date) in
      if later then resolve_pcn_rels pcns rest target_ods start_date
      else resolve_pcn_rels pcns rest current_pcn current_pcn_date
  end.
Proof.
  cbn [resolve_pcn_rels]. unfold membership_of, target_extension.
  destruct (get rel "Target" empty_dict) as [target|]; [|done]. cbn [bind].
  destruct (get target "OrgId" empty_dict) as [orgid|]; [|done]. cbn [bind].
  destruct (get orgid "extension" JNull) as [target_ods|]; [|done].
  cbn [bind].
  destruct (py_in target_ods pcns) as [[|]|]; [|done|done]. cbn [bind negb].
  destruct (get rel "Date" empty_list) as [rel_dates|]; [|done]. cbn [bind].
  destruct (get rel "Status" JNull) as [status|]; [|done]. cbn [bind].
  by destruct (py_eq status (JStr "Active")
               && negb (truthy (first_dict_field "End" (as_list rel_dates)))).
Qed.

Lemma py_in_true {A} (k : json) (d : list (string * A)) :
  py_in k d = Ok true → ∃ s, k = JStr s ∧ is_Some (assoc s d).
Proof.
  destruct k as [| | |s| |]; simpl; try done. intros [= H].
  exists s. split; [done|]. by apply bool_decide_eq_true in H.
Qed.

Lemma membership_of_known (pcns : list (string * json)) (rel : json)
    (target_ods start_date : json) :
  membership_of pcns rel = Ok (Some (target_ods, start_date)) →
  ∃ s, target_ods = JStr s ∧ is_Some (assoc s pcns).
Proof.
  unfold membership_of. intros H.
  apply bind_Ok in H as (t & Ht & H).
  apply bind_Ok in H as (known & Hknown & H).
  destruct known; [|done]. cbn [negb] in H.
  apply bind_Ok in H as (rel_dates & Hd & H).
  apply bind_Ok in H as (status & Hs & H).
  destruct (_ && _); [|done]. injection H as <- _. by apply py_in_true.
Qed.

(** Once a PCN has been chosen the loop replaces it only by a membership of
    the list, and never resets it. *)
Lemma resolve_pcn_rels_from (pcns : list (string * json)) (rels : list json)
    (current_pcn current_pcn_date cur date : json) :
  resolve_pcn_rels pcns rels current_pcn current_pcn_date = Ok (cur, date) →
  (cur, date) = (current_pcn, current_pcn_date) ∨
  ∃ rel, rel ∈ rels ∧ membership_of pcns rel = Ok (Some (cur, date)).
Proof.
  revert current_pcn current_pcn_date.
  induction rels as [|rel rest IH]; intros c d H.
  - left. simpl in H. by injection H as <- <-.
  - rewrite resolve_pcn_rels_cons in H.
    apply bind_Ok in H as (m & Hm & H).
    assert (Hrest : ∀ c' d', resolve_pcn_rels pcns rest c' d' = Ok (cur, date) →
      (cur, date) = (c', d') ∨
      ∃ r, r ∈ rel :: rest ∧ membership_of pcns r = Ok (Some (cur, date))).
    { intros c' d' H'. destruct (IH _ _ H') as [?|(r & Hr & Hmr)]; [by left|].
      right. exists r. split; [by right|done]. }
    destruct m as [[t s]|]; [|by apply Hrest].
    apply bind_Ok in H as (later & Hlater & H).
    destruct later; [|by apply Hrest].
    destruct (Hrest _ _ H) as [[= -> ->]|?]; [|by right].
    right. exists rel. split; [left|done].
Qed.

(** With a chosen PCN the date of the choice, when it is a string, only
    grows, and it ends above the start of every membership of the list that
    starts at a non-empty string. *)
Lemma resolve_pcn_rels_grows (pcns : list (string * json)) (rels : list json)
    (current_pcn current_pcn_date cur date : json) :
  assoc "" pcns = None →
  truthy current_pcn = true →
  resolve_pcn_rels pcns rels current_pcn current_pcn_date = Ok (cur, date) →
  (∀ d, current_pcn_date = JStr d → ∃ d', date = JStr d' ∧ str_le d d') ∧
  (∀ rel t s, rel ∈ rels → membership_of pcns rel = Ok (Some (t, JStr s)) →
              s ≠ "" → ∃ d', date = JStr d' ∧ str_le s d').
Proof.
  intros Hkey. revert current_pcn current_pcn_date.
  induction rels as [|rel rest IH]; intros c d Hc H.
  - simpl in H. injection H as <- <-. split.
    + intros d0 ->. exists d0. split; [done|apply str_le_refl].
    + intros rel t s Hrel. by apply elem_of_nil in Hrel.
  - rewrite resolve_pcn_rels_cons in H.
    apply bind_Ok in H as (m & Hm & H).
    destruct m as [[t s]|].
    + rewrite Hc in H. cbn [negb] in H.
      apply bind_Ok in H as (later & Hlater & H).
      assert (truthy t = true) as Ht.
      { destruct (membership_of_known _ _ _ _ Hm) as (k & -> & Hk). simpl.
        destruct (String.eqb_spec k "") as [->|]; [|done].
        rewrite Hkey in Hk. by destruct Hk. }
      destruct later.
      * destruct (truthy s) eqn:Hs; [|done]. cbn [negb] in Hlater.
        destruct (IH _ _ Ht H) as [IH1 IH2]. split.
        -- intros d0 ->. destruct s as [| | |s0| |]; try done.
           simpl in Hlater. injection Hlater as Hlt.
           destruct (IH1 s0 eq_refl) as (d' & -> & Hd'). exists d'.
           split; [done|]. apply str_le_trans with s0; [|done].
           apply str_le_lt_eq. by left.
        -- intros r t' s' [->|Hr]%elem_of_cons Hmr Hs'; [|by eapply IH2].
           rewrite Hm in Hmr. injection Hmr as -> ->. by apply IH1.
      * destruct (IH _ _ Hc H) as [IH1 IH2]. split; [done|].
        intros r t' s' [->|Hr]%elem_of_cons Hmr Hs'; [|by eapply IH2].
        rewrite Hm in Hmr. injection Hmr as -> ->.
        simpl in Hlater. destruct (String.eqb_spec s' "") as [|_]; [done|].
        cbn [negb] in Hlater. destruct d as [| | |d0| |]; try done.
        injection Hlater as Hlt. destruct (IH1 d0 eq_refl) as (d' & -> & Hd').
        exists d'. split; [done|]. apply str_le_trans with d0; [|done].
        by apply ltb_false_le.
    + destruct (IH _ _ Hc H) as [IH1 IH2]. split; [done|].
      intros r t' s' [->|Hr]%elem_of_cons Hmr Hs'; [|by eapply IH2].
      rewrite Hm in Hmr. done.
Qed.

(** X12. The loop of the report over the PCN relationships of a practice
    chooses, when it returns, either nothing (no relationship of the list
    records a current membership in a PCN of the snapshot) or the target
    and the start date of one relationship that does: the chosen code is
    always a key of [pcns]. *)
Theorem report_chooses_a_current_membership (pcns : list (string * json))
    (pcn_rels : list json) (current_pcn current_pcn_date : json) :
  resolve_pcn_rels pcns pcn_rels JNull JNull
    = Ok (current_pcn, current_pcn_date) →
  (current_pcn = JNull ∧ current_pcn_date = JNull ∧
   ∀ rel, rel ∈ pcn_rels → membership_of pcns rel = Ok None) ∨
  (∃ rel code, rel ∈ pcn_rels ∧ current_pcn = JStr code ∧
               is_Some (assoc code pcns) ∧
               membership_of pcns rel
                 = Ok (Some (current_pcn, current_pcn_date))).
Proof.
  induction pcn_rels as [|rel rest IH]; intros H.
  - left. simpl in H. injection H as <- <-. split; [done|]. split; [done|].
    intros rel Hrel. by apply elem_of_nil in Hrel.
  - rewrite resolve_pcn_rels_cons in H.
    apply bind_Ok in H as (m & Hm & H).
    destruct m as [[t s]|].
    + right. cbn [truthy negb bind] in H.
      destruct (resolve_pcn_rels_from _ _ _ _ _ _ H)
        as [[= -> ->]|(r & Hr & Hmr)].
      * destruct (membership_of_known _ _ _ _ Hm) as (k & -> & Hk).
        exists rel, k. split; [left|done].
      * destruct (membership_of_known _ _ _ _ Hmr) as (k & -> & Hk).
        exists r, k. split; [by right|done].
    + destruct (IH H) as [(-> & -> & Hnone)|(r & k & Hr & -> & Hk & Hmr)].
      * left. split; [done|]. split; [done|].
        intros r [->|Hr]%elem_of_cons; [done|by apply Hnone].
      * right. exists r, k. split; [by right|done].
Qed.

Lemma report_chooses_a_current_membership_witness :
  (JStr "B" = JNull ∧ JStr "2024-02-01" = JNull ∧
   ∀ rel, rel ∈ [Sample.rel "A" "Active" "2024-01-01" None;
                 Sample.rel "B" "Active" "2024-02-01" None] →
          membership_of [("A", empty_dict); ("B", empty_dict)] rel = Ok None) ∨
  (∃ rel code,
     rel ∈ [Sample.rel "A" "Active" "2024-01-01" None;
            Sample.rel "B" "Active" "2024-02-01" None] ∧
     JStr "B" = JStr code ∧
     is_Some (assoc code [("A", empty_dict); ("B", empty_dict)]) ∧
     membership_of [("A", empty_dict); ("B", empty_dict)] rel
       = Ok (Some (JStr "B", JStr "2024-02-01"))).
Proof.
  apply (report_chooses_a_current_membership
           [("A", empty_dict); ("B", empty_dict)]
           [Sample.rel "A" "Active" "2024-01-01" None;
            Sample.rel "B" "Active" "2024-02-01" None]).
  reflexivity.
Defined.

(** X13. The latest start wins: when no PCN is stored under the empty
    code and the loop returns, the date that it returns is a string at or
    above the start of every current membership of the list that starts at
    a non-empty string, wherever in the list the membership stands. *)
Theorem report_latest_membership_wins (pcns : list (string * json))
    (pcn_rels : list json) (current_pcn current_pcn_date : json) :
  assoc "" pcns = None →
  resolve_pcn_rels pcns pcn_rels JNull JNull
    = Ok (current_pcn, current_pcn_date) →
  ∀ rel target start,
    rel ∈ pcn_rels →
    membership_of pcns rel = Ok (Some (target, JStr start)) →
    start ≠ "" →
    ∃ date, current_pcn_date = JStr date ∧ str_le start date.
Proof.
  intros Hkey. induction pcn_rels as [|rel rest IH]; intros H r t s Hr Hmr Hs.
  - by apply elem_of_nil in Hr.
  - rewrite resolve_pcn_rels_cons in H.
    apply bind_Ok in H as (m & Hm & H).
    destruct m as [[t0 s0]|].
    + cbn [truthy negb bind] in H.
      assert (truthy t0 = true) as Ht.
      { destruct (membership_of_known _ _ _ _ Hm) as (k & -> & Hk). simpl.
        destruct (String.eqb_spec k "") as [->|]; [|done].
        rewrite Hkey in Hk. by destruct Hk. }
      destruct (resolve_pcn_rels_grows _ _ _ _ _ _ Hkey Ht H) as [H1 H2].
      apply elem_of_cons in Hr as [->|Hr]; [|by eapply H2].
      rewrite Hm in Hmr. injection Hmr as -> ->. by apply H1.
    + apply elem_of_cons in Hr as [->|Hr]; [congruence|]. by eapply IH.
Qed.

Lemma report_latest_membership_wins_witness :
  ∃ date, JStr "2024-02-01" = JStr date ∧ str_le "2024-02-01" date.
Proof.
  apply (report_latest_membership_wins
           [("A", empty_dict); ("B", empty_dict)]
           [Sample.rel "B" "Active" "2024-02-01" None;
            Sample.rel "A" "Active" "2024-01-01" None]
           (JStr "B") (JStr "2024-02-01") eq_refl eq_refl
           (Sample.rel "B" "Active" "2024-02-01" None) (JStr "B") "2024-02-01").
  - left.
  - reflexivity.
  - discriminate.
Defined.

(** ** The report of [main.py] *)

Tactic Notation "bind_inv" hyp(H) ident(x) ident(Hx) :=
  cbv zeta in H; apply bind_Ok in H as (x & Hx & H).

Ltac bind_skip H :=
  let x := fresh "x" in let Hx := fresh "Hx" in
  cbv zeta in H; apply bind_Ok in H as (x & Hx & H); clear Hx.

Lemma items_from_elem_of {A} (seen : list string) (kvs : list (string * A))
    (k : string) (v : A) :
  (k, v) ∈ items_from seen kvs → assoc k kvs = Some v.
Proof.
  revert seen. induction kvs as [|[k' v'] kvs IH]; intros seen; simpl.
  - by intros ?%elem_of_nil.
  - case_bool_decide as Hseen.
    + intros H. destruct (String.eqb_spec k k') as [->|Hne]; [|by eapply IH].
      assert (k' ∈ keys (items_from seen kvs)) as Hk.
      { apply list_elem_of_fmap. by exists (k', v). }
      apply keys_items_from in Hk as [Hk _]. done.
    + intros [[= -> ->]|H]%elem_of_cons.
      * by rewrite String.eqb_refl.
      * destruct (String.eqb_spec k k') as [->|Hne]; [|by eapply IH].
        assert (k' ∈ keys (items_from (k' :: seen) kvs)) as Hk.
        { apply list_elem_of_fmap. by exists (k', v). }
        apply keys_items_from in Hk as [Hk _]. destruct Hk. left.
Qed.

Lemma items_elem_of {A} (kvs : list (string * A)) (k : string) (v : A) :
  (k, v) ∈ items kvs → assoc k kvs = Some v.
Proof. apply items_from_elem_of. Qed.

Lemma pcn_info_name (org_info info : json) :
  pcn_info org_info = Ok info →
  get info "name" JNull = get org_info "Name" JNull.
Proof.
  unfold pcn_info. intros H.
  bind_skip H. bind_skip H. bind_inv H name Hname.
  do 10 bind_skip H. injection H as <-. by rewrite Hname.
Qed.

Lemma identify_pcns_inv (orgs pcns0 pcns : list (string * json)) :
  identify_pcns orgs pcns0 = Ok pcns →
  ∀ k info, assoc k pcns = Some info →
    assoc k pcns0 = Some info ∨
    ∃ org_data org_info,
      (k, org_data) ∈ orgs ∧ report_pcn_test org_data = Ok true ∧
      get org_data "Organisation" empty_dict = Ok org_info ∧
      pcn_info org_info = Ok info.
Proof.
  revert pcns0. induction orgs as [|[c org_data] rest IH]; intros pcns0 H k info.
  - simpl in H. injection H as <-. by left.
  - cbn [identify_pcns] in H.
    bind_inv H org_info Horg. bind_inv H roles_obj Hobj.
    bind_inv H roles Hroles. bind_inv H is_pcn Hpcn.
    assert (Hrest : ∀ p, identify_pcns rest p = Ok pcns →
      assoc k pcns = Some info →
      assoc k p = Some info ∨
      ∃ org_data0 org_info0,
        (k, org_data0) ∈ (c, org_data) :: rest ∧
        report_pcn_test org_data0 = Ok true ∧
        get org_data0 "Organisation" empty_dict = Ok org_info0 ∧
        pcn_info org_info0 = Ok info).
    { intros p Hp Hk. destruct (IH _ Hp _ _ Hk) as [?|(o & i & Ho & ?)];
        [by left|right].
      exists o, i. split; [by right|done]. }
    destruct is_pcn; [|by apply Hrest].
    bind_inv H info0 Hinfo. intros Hk.
    destruct (Hrest _ H Hk) as [Hset|?]; [|by right].
    destruct (String.eqb_spec k c) as [->|Hne].
    + rewrite assoc_set_key_eq in Hset. injection Hset as ->.
      right. exists org_data, org_info. split; [left|].
      split; [|done].
      unfold report_pcn_test, report_roles.
      by rewrite Horg; cbn [bind]; rewrite Hobj; cbn [bind];
        rewrite Hroles; cbn [bind]; rewrite Hpcn.
    + rewrite assoc_set_key_ne in Hset by done. by left.
Qed.

(** Memberships whose start dates are a string and a number cannot be
    sorted: the column 'PCN History' raises [TypeError]. *)
Lemma py_sorted_mixed_kinds (rt : runtime) (s : string) (n : number) :
  py_sorted rt [JStr s; JNum n] = Raise TypeError.
Proof.
  unfold py_sorted.
  by rewrite (sorted_split rt [JStr s; JNum n] [JStr s] [JNum n]);
    [| | | |intros a b ->%list_elem_of_singleton ->%list_elem_of_singleton].
Qed.

(** What the second loop appends for one organisation. *)
Lemma practice_row_inv (rt : runtime) (pcns : list (string * json))
    (ods_code : string) (org_data : json) (row : option json) :
  practice_row rt pcns ods_code org_data = Ok row →
  match row with
  | None => report_practice_test org_data = Ok false
  | Some row =>
      report_practice_test org_data = Ok true ∧
      field row "ODS Code" = JStr ods_code ∧
      ∃ pcn_rels,
        resolve_pcn_rels pcns pcn_rels JNull JNull =
          Ok (field row "Current PCN Code", field row "PCN Member Since") ∧
        (if truthy (field row "Current PCN Code")
         then ∃ info,
                get_key (JObj pcns) (field row "Current PCN Code") empty_dict
                  = Ok info ∧
                get info "name" JNull = Ok (field row "Current PCN")
         else field row "Current PCN" = JNull)
  end.
Proof.
  unfold practice_row. intros H.
  bind_inv H org_info Horg. bind_inv H roles_obj Hobj.
  bind_inv H roles Hroles. bind_inv H is_practice Hpractice.
  assert (report_practice_test org_data = Ok is_practice) as Hclass.
  { unfold report_practice_test, report_roles.
    by rewrite Horg; cbn [bind]; rewrite Hobj; cbn [bind];
      rewrite Hroles; cbn [bind]; rewrite Hpractice. }
  destruct is_practice; cbn [negb] in H; [|by injection H as <-].
  do 5 bind_skip H. bind_skip H. bind_skip H.
  bind_inv H pcn_rels Hrels. bind_inv H current Hcurrent.
  do 14 bind_skip H. bind_inv H current_pcn_name Hname.
  bind_skip H. bind_skip H. bind_skip H.
  injection H as <-. split; [done|]. split; [done|].
  exists pcn_rels. destruct current as [cur date]. split; [done|].
  change (field _ "Current PCN Code") with cur.
  change (field _ "Current PCN") with current_pcn_name.
  cbn [fst] in Hname. destruct (truthy cur).
  - bind_inv Hname info Hinfo. by exists info.
  - by injection Hname as <-.
Qed.

Lemma practice_rows_inv (rt : runtime) (pcns orgs : list (string * json))
    (practices rows : list json) :
  practice_rows rt pcns orgs practices = Ok rows →
  ∃ new,
    rows = practices ++ new ∧
    Forall (λ kv, ∃ b, report_practice_test kv.2 = Ok b) orgs ∧
    map (λ row, field row "ODS Code") new =
      map (λ kv, JStr kv.1)
        (List.filter
           (λ kv, bool_decide (report_practice_test kv.2 = Ok true)) orgs) ∧
    ∀ row, row ∈ new →
      ∃ ods_code org_data,
        (ods_code, org_data) ∈ orgs ∧
        practice_row rt pcns ods_code org_data = Ok (Some row).
Proof.
  revert practices. induction orgs as [|[c org_data] rest IH]; intros acc H.
  - simpl in H. injection H as <-. exists []. rewrite app_nil_r.
    split; [done|]. split; [done|]. split; [done|].
    by intros row ?%elem_of_nil.
  - cbn [practice_rows] in H. bind_inv H row Hrow.
    destruct (IH _ H) as (new & -> & Hret & Hcodes & Hnew).
    pose proof (practice_row_inv _ _ _ _ _ Hrow) as Hinv.
    cbn [List.filter snd].
    destruct row as [row|].
    + destruct Hinv as (Htest & Hcode & _). rewrite Htest.
      rewrite bool_decide_eq_true_2 by done. exists (row :: new).
      split; [by rewrite <- app_assoc|].
      split; [constructor; [by exists true|done]|].
      split; [by cbn [map fst]; rewrite Hcode, Hcodes|].
      intros r [->|Hr]%elem_of_cons.
      * exists c, org_data. split; [left|done].
      * destruct (Hnew r Hr) as (k & o & Hko & Hk).
        exists k, o. split; [by right|done].
    + rewrite Hinv. rewrite bool_decide_eq_false_2 by done.
      exists new. split; [done|].
      split; [constructor; [by exists false|done]|]. split; [done|].
      intros r Hr. destruct (Hnew r Hr) as (k & o & Hko & Hk).
      exists k, o. split; [by right|done].
Qed.

Lemma create_practice_pcn_report_inv (rt : runtime) (data : json)
    (rows : list json) :
  create_practice_pcn_report rt data = Ok (Some rows) →
  ∃ pcns,
    identify_pcns (items (orgs_of data)) [] = Ok pcns ∧
    practice_rows rt pcns (items (orgs_of data)) [] = Ok rows ∧
    rows ≠ [] ∧ pcns ≠ [] ∧
    practices_sheet_error rt data = None ∧ pcns_sheet_error rt data = None.
Proof.
  unfold create_practice_pcn_report, orgs_of. intros H.
  bind_inv H present Hpresent.
  destruct (truthy present) eqn:Ht; cbn [negb] in H; [|done].
  bind_inv H orgs Horgs. destruct orgs as [| | | | |kvs]; try done.
  bind_inv H pcns Hpcns. bind_inv H practices Hrows.
  destruct practices as [|r practices]; [done|].
  destruct (practices_sheet_error rt data) as [e|] eqn:Hp; [done|].
  cbn [raise_if bind] in H.
  destruct pcns as [|p pcns]; [done|].
  destruct (pcns_sheet_error rt data) as [e|] eqn:Hn; [done|].
  cbn [raise_if bind] in H. injection H as <-.
  exists (p :: pcns).
  destruct data as [| | | | |dkvs]; try done. simpl in Horgs |- *.
  destruct (assoc "organisations" dkvs) as [v|]; [|done].
  injection Horgs as ->. done.
Qed.

(** X14. In the report every practice row names as current PCN either
    nothing or an organisation that the snapshot holds and that has the
    primary role of a PCN; the name shown beside the code is the name of
    that organisation. *)
Theorem report_current_pcn_is_a_pcn_of_the_snapshot (rt : runtime)
    (data : json) (rows : list json) (row : json) :
  create_practice_pcn_report rt data = Ok (Some rows) → row ∈ rows →
  (field row "Current PCN Code" = JNull ∧ field row "Current PCN" = JNull) ∨
  ∃ code org_data org_info,
    field row "Current PCN Code" = JStr code ∧
    assoc code (orgs_of data) = Some org_data ∧
    report_pcn_test org_data = Ok true ∧
    get org_data "Organisation" empty_dict = Ok org_info ∧
    (code ≠ "" → get org_info "Name" JNull = Ok (field row "Current PCN")).
Proof.
  intros (pcns & Hpcns & Hrows & _)%create_practice_pcn_report_inv Hrow.
  apply practice_rows_inv in Hrows as (new & -> & _ & _ & Hnew).
  destruct (Hnew row Hrow) as (c & o & _ & Hprow).
  apply practice_row_inv in Hprow as (_ & _ & pcn_rels & Hres & Hname).
  destruct (resolve_pcn_rels_from _ _ _ _ _ _ Hres)
    as [[= Hc Hd]|(rel & _ & Hm)].
  { left. rewrite Hc in Hname |- *. done. }
  right. destruct (membership_of_known _ _ _ _ Hm) as (k & Hk & [info Hinfo]).
  destruct (identify_pcns_inv _ _ _ Hpcns _ _ Hinfo)
    as [?|(org_data & org_info & Hin & Hclass & Horg & Hpi)]; [done|].
  exists k, org_data, org_info. split; [done|].
  split; [by apply items_elem_of|]. split; [done|]. split; [done|].
  intros Hne. rewrite Hk in Hname. simpl in Hname.
  destruct (String.eqb_spec k "") as [|_]; [done|]. cbn [negb] in Hname.
  destruct Hname as (info' & Hget & Hn). rewrite Hinfo in Hget.
  injection Hget as <-. by rewrite <- (pcn_info_name _ _ Hpi).
Qed.

Lemma report_current_pcn_is_a_pcn_of_the_snapshot_witness :
  (field SampleReport.row "Current PCN Code" = JNull ∧
   field SampleReport.row "Current PCN" = JNull) ∨
  ∃ code org_data org_info,
    field SampleReport.row "Current PCN Code" = JStr code ∧
    assoc code (orgs_of Sample.one_practice_one_pcn) = Some org_data ∧
    report_pcn_test org_data = Ok true ∧
    get org_data "Organisation" empty_dict = Ok org_info ∧
    (code ≠ "" →
     get org_info "Name" JNull = Ok (field SampleReport.row "Current PCN")).
Proof.
  apply (report_current_pcn_is_a_pcn_of_the_snapshot plain_runtime
           Sample.one_practice_one_pcn SampleReport.rows SampleReport.row).
  - reflexivity.
  - left.
Defined.

(** X15. The report has one row for each organisation of the snapshot
    that has the role of a practice, single role objects included, and no
    other row: when the report is written the class test has returned for
    every organisation, and, before they are sorted, the codes of the rows
    are the codes of the organisations for which it returned true, in the
    order of the snapshot. *)
Theorem report_has_one_row_per_practice (rt : runtime) (data : json)
    (rows : list json) :
  create_practice_pcn_report rt data = Ok (Some rows) →
  Forall (λ kv, ∃ b, report_practice_test kv.2 = Ok b)
    (items (orgs_of data)) ∧
  map (λ row, field row "ODS Code") rows =
  map (λ kv, JStr kv.1)
    (List.filter (λ kv, bool_decide (report_practice_test kv.2 = Ok true))
       (items (orgs_of data))).
Proof.
  intros (pcns & _ & Hrows & _)%create_practice_pcn_report_inv.
  by apply practice_rows_inv in Hrows as (new & -> & Hret & Hcodes & _).
Qed.

Lemma report_has_one_row_per_practice_witness :
  Forall (λ kv, ∃ b, report_practice_test kv.2 = Ok b)
    (items (orgs_of Sample.one_practice_one_pcn)) ∧
  map (λ row, field row "ODS Code") SampleReport.rows =
  map (λ kv, JStr kv.1)
    (List.filter (λ kv, bool_decide (report_practice_test kv.2 = Ok true))
       (items (orgs_of Sample.one_practice_one_pcn))).
Proof.
  apply (report_has_one_row_per_practice plain_runtime
           Sample.one_practice_one_pcn).
  reflexivity.
Defined.

(** ** The class tests of the three programs *)

(** The class test of the report on a well-formed entry, against the test
    of the differ: both read the same roles when the role field is a list
    or a dict; on [None], [False], [0] and [""] the report calls [get] on
    the value and raises, where the differ sees no role. *)
Lemma report_roles_any (f : json → result bool) (entry : json) :
  (∀ v, isinstance_dict v = false → f v = Raise AttributeError) →
  f (JObj []) = Ok false →
  (∀ kvs, ∃ b, f (JObj kvs) = Ok b) →
  wf_entry entry = true →
  ∃ role,
    report_role_field entry = Ok role ∧
    match role with
    | JList _ | JObj _ =>
        ∃ b, (let* roles := report_roles entry in py_any f roles) = Ok b ∧
             match roles_of (organisation entry) with
             | Ok roles => try_except (py_any f roles) false
             | Raise _ => false
             end = b
    | _ =>
        (let* roles := report_roles entry in py_any f roles)
          = Raise AttributeError ∧
        match roles_of (organisation entry) with
        | Ok roles => try_except (py_any f roles) false
        | Raise _ => false
        end = false
    end.
Proof.
  intros Hraise Hempty Hdict.
  destruct entry as [| | | | |ekvs]; try discriminate.
  unfold wf_entry, report_role_field, report_roles, organisation.
  cbn [get bind].
  destruct (default empty_dict (assoc "Organisation" ekvs))
    as [| | | | |kvs]; try discriminate.
  unfold wf_org, roles_of. cbn [get bind].
  intros [Hroles _]%andb_true_iff.
  destruct (default empty_dict (assoc "Roles" kvs)) as [| | | | |rkvs];
    try discriminate.
  cbn [get bind]. unfold wf_roles, py_or in *.
  destruct (default empty_list (assoc "Role" rkvs))
    as [|b|n|s|l|okvs] eqn:Hrole; eexists; (split; [reflexivity|]).
  - simpl. by rewrite (Hraise JNull).
  - simpl. rewrite (Hraise (JBool b)) by done. split; [done|].
    destruct b; [done|]. done.
  - simpl. rewrite (Hraise (JNum n)) by done. split; [done|].
    simpl in Hroles. by destruct (num_eqb n (Int 0)).
  - simpl. rewrite (Hraise (JStr s)) by done. split; [done|].
    simpl in Hroles. by destruct (String.eqb s "").
  - cbn [as_list]. rewrite orb_true_iff in Hroles.
    assert (Forall (λ r, isinstance_dict r = true) l) as Hl.
    { destruct Hroles as [Hfalsy|Hall].
      - destruct l; [constructor|done].
      - apply Forall_forall. intros r Hr.
        apply (proj1 (forallb_forall _ _) Hall). by apply list_elem_of_In. }
    destruct (py_any_dicts f l Hdict Hl) as [b Hb]. exists b.
    split; [done|]. destruct l; [by injection Hb as <-|]. simpl.
    simpl in Hb. by rewrite Hb.
  - destruct okvs as [|kv okvs]; [|by rewrite orb_false_r in Hroles].
    exists false. simpl. by rewrite Hempty.
Qed.

Lemma is_practice_role_raises (v : json) :
  isinstance_dict v = false → is_practice_role v = Raise AttributeError.
Proof. by destruct v. Qed.

Lemma is_primary_pcn_role_raises (v : json) :
  isinstance_dict v = false → is_primary_pcn_role v = Raise AttributeError.
Proof. by destruct v. Qed.

Lemma extract_practice_data_class (org_data row : json) :
  extract_practice_data org_data = Some row →
  report_practice_test org_data = Ok true.
Proof.
  unfold extract_practice_data, extract_practice_data_body,
    report_practice_test, report_roles.
  destruct (get org_data "Organisation" empty_dict) as [org_info|]; [|done].
  cbn [bind].
  destruct (get org_info "Roles" empty_dict) as [roles_obj|]; [|done].
  cbn [bind].
  destruct (get roles_obj "Role" empty_list) as [roles|]; [|done].
  cbn [bind].
  by destruct (py_any is_practice_role (as_list roles)) as [[]|].
Qed.

Lemma extract_pcn_data_class (org_data row : json) :
  extract_pcn_data org_data = Some row → report_pcn_test org_data = Ok true.
Proof.
  unfold extract_pcn_data, extract_pcn_data_body, report_pcn_test,
    report_roles.
  destruct (get org_data "Organisation" empty_dict) as [org_info|]; [|done].
  cbn [bind].
  destruct (get org_info "Roles" empty_dict) as [roles_obj|]; [|done].
  cbn [bind].
  destruct (get roles_obj "Role" empty_list) as [roles|]; [|done].
  cbn [bind].
  by destruct (py_any is_primary_pcn_role (as_list roles)) as [[]|].
Qed.

(** X16. On a well-formed entry the class tests of the report, which
    take a single role object for a list of one, agree with the tests of
    the differ whenever they return; they return when the role field is a
    list or a dict, and raise [AttributeError], which ends the report,
    when it is [None], [False], [0] or [""], where the differ sees no
    role.  The rows that the download extracts for the files of practices
    and of PCNs are rows of organisations that the differ takes for a
    practice and for a PCN. *)
Theorem report_class_tests_agree_with_differ (entry : json) :
  wf_entry entry = true →
  (∀ b, report_practice_test entry = Ok b →
        b = has_practice_role (organisation entry)) ∧
  (∀ b, report_pcn_test entry = Ok b →
        b = has_primary_pcn_role (organisation entry)) ∧
  (∀ row, extract_practice_data entry = Some row →
          has_practice_role (organisation entry) = true) ∧
  (∀ row, extract_pcn_data entry = Some row →
          has_primary_pcn_role (organisation entry) = true) ∧
  (∃ role,
     report_role_field entry = Ok role ∧
     match role with
     | JList _ | JObj _ =>
         (∃ b, report_practice_test entry = Ok b) ∧
         (∃ b, report_pcn_test entry = Ok b)
     | _ =>
         report_practice_test entry = Raise AttributeError ∧
         report_pcn_test entry = Raise AttributeError ∧
         has_practice_role (organisation entry) = false ∧
         has_primary_pcn_role (organisation entry) = false
     end).
Proof.
  intros Hwf.
  destruct (report_roles_any is_practice_role entry is_practice_role_raises
              eq_refl is_practice_role_dict Hwf) as (role & Hrole & Hpractice).
  destruct (report_roles_any is_primary_pcn_role entry
              is_primary_pcn_role_raises eq_refl is_primary_pcn_role_dict Hwf)
    as (role' & Hrole' & Hpcn).
  rewrite Hrole in Hrole'. injection Hrole' as <-.
  fold (report_practice_test entry) in Hpractice.
  fold (report_pcn_test entry) in Hpcn.
  fold (has_practice_role (organisation entry)) in Hpractice.
  fold (has_primary_pcn_role (organisation entry)) in Hpcn.
  assert (Hp : ∀ b, report_practice_test entry = Ok b →
                    b = has_practice_role (organisation entry)).
  { intros b Hb. destruct role; try (destruct Hpractice; congruence);
      destruct Hpractice as (b' & Hb' & <-); congruence. }
  assert (Hn : ∀ b, report_pcn_test entry = Ok b →
                    b = has_primary_pcn_role (organisation entry)).
  { intros b Hb. destruct role; try (destruct Hpcn; congruence);
      destruct Hpcn as (b' & Hb' & <-); congruence. }
  split; [done|]. split; [done|]. split; [|split].
  - intros row Hrow. symmetry. apply Hp.
    by eapply extract_practice_data_class.
  - intros row Hrow. symmetry. apply Hn. by eapply extract_pcn_data_class.
  - exists role. split; [done|].
    destruct role; try (destruct Hpractice, Hpcn; done);
      destruct Hpractice as (b1 & ? & _), Hpcn as (b2 & ? & _); eauto.
Qed.

Lemma report_class_tests_agree_with_differ_witness :
  (∀ b, report_practice_test (Sample.network "Net A") = Ok b →
        b = has_practice_role (organisation (Sample.network "Net A"))) ∧
  (∀ b, report_pcn_test (Sample.network "Net A") = Ok b →
        b = has_primary_pcn_role (organisation (Sample.network "Net A"))) ∧
  (∀ row, extract_practice_data (Sample.network "Net A") = Some row →
          has_practice_role (organisation (Sample.network "Net A")) = true) ∧
  (∀ row, extract_pcn_data (Sample.network "Net A") = Some row →
          has_primary_pcn_role (organisation (Sample.network "Net A")) = true) ∧
  (∃ role,
     report_role_field (Sample.network "Net A") = Ok role ∧
     match role with
     | JList _ | JObj _ =>
         (∃ b, report_practice_test (Sample.network "Net A") = Ok b) ∧
         (∃ b, report_pcn_test (Sample.network "Net A") = Ok b)
     | _ =>
         report_practice_test (Sample.network "Net A")
           = Raise AttributeError ∧
         report_pcn_test (Sample.network "Net A") = Raise AttributeError ∧
         has_practice_role (organisation (Sample.network "Net A")) = false ∧
         has_primary_pcn_role (organisation (Sample.network "Net A")) = false
     end).
Proof.
  apply (report_class_tests_agree_with_differ (Sample.network "Net A")).
  reflexivity.
Defined.

(** ** [get_current_pcn] on relationships that name one PCN *)

Lemma first_current_pcn_none (rels : list json) :
  (∀ rel, rel ∈ rels → is_current_pcn_rel rel = Ok false) →
  first_current_pcn rels = Ok JNull.
Proof.
  induction rels as [|rel rest IH]; intros H; simpl; [done|].
  rewrite (H rel) by left. cbn [bind]. apply IH. intros r Hr. apply H.
  by right.
Qed.

Lemma first_current_pcn_one_target (rels : list json) (target : result json) :
  Forall (λ rel, ∃ b, is_current_pcn_rel rel = Ok b) rels →
  (∀ rel, rel ∈ rels → is_current_pcn_rel rel = Ok true →
          target_extension rel = target) →
  (∃ rel, rel ∈ rels ∧ is_current_pcn_rel rel = Ok true) →
  first_current_pcn rels = target.
Proof.
  induction 1 as [|rel rest [b Hb] _ IH]; intros Hone (r & Hr & Hcur).
  - by apply elem_of_nil in Hr.
  - simpl. rewrite Hb. cbn [bind]. destruct b.
    + apply Hone; [left|done].
    + apply IH.
      * intros r' Hr'. apply Hone. by right.
      * apply elem_of_cons in Hr as [->|Hr]; [congruence|eauto].
Qed.

Lemma current_rel_dec (rels : list json) :
  Forall (λ rel, ∃ b, is_current_pcn_rel rel = Ok b) rels →
  (∀ rel, rel ∈ rels → is_current_pcn_rel rel = Ok false) ∨
  (∃ rel, rel ∈ rels ∧ is_current_pcn_rel rel = Ok true).
Proof.
  induction 1 as [|rel rest [b Hb] _ IH].
  - left. by intros rel ?%elem_of_nil.
  - destruct b; [right; exists rel; split; [left|done]|].
    destruct IH as [IH|(r & Hr & Hcur)].
    + left. intros r [->|Hr]%elem_of_cons; auto.
    + right. exists r. split; [by right|done].
Qed.

(** X17. When no relationship of a practice raises and its current
    memberships all name the same PCN, in particular when there is at
    most one, the current PCN does not depend on the order in which the
    snapshot lists the relationships. *)
Theorem get_current_pcn_order_irrelevant (org_data org_data' : json)
    (rels rels' : list json) :
  rels_of org_data = Ok rels → rels_of org_data' = Ok rels' →
  rels ≡ₚ rels' →
  Forall (λ rel, ∃ b, is_current_pcn_rel rel = Ok b) rels →
  (∀ r1 r2, r1 ∈ rels → r2 ∈ rels →
            is_current_pcn_rel r1 = Ok true →
            is_current_pcn_rel r2 = Ok true →
            target_extension r1 = target_extension r2) →
  get_current_pcn org_data = get_current_pcn org_data'.
Proof.
  intros Hrels Hrels' Hperm Hok Hone.
  unfold get_current_pcn, get_current_pcn_body.
  rewrite Hrels, Hrels'. cbn [bind]. f_equal.
  assert (Forall (λ rel, ∃ b, is_current_pcn_rel rel = Ok b) rels') as Hok'.
  { by rewrite <- Hperm. }
  destruct (current_rel_dec rels Hok) as [Hnone|(r & Hr & Hcur)].
  - rewrite !first_current_pcn_none; [done| |done].
    intros r Hr. apply Hnone. by rewrite Hperm.
  - rewrite (first_current_pcn_one_target rels (target_extension r));
      [|done| |by exists r].
    + symmetry. apply first_current_pcn_one_target; [done| |].
      * intros r' Hr' Hcur'. apply Hone; [by rewrite Hperm|done|done|done].
      * exists r. split; [by rewrite <- Hperm|done].
    + intros r' Hr' Hcur'. by apply Hone.
Qed.

Lemma get_current_pcn_order_irrelevant_witness :
  get_current_pcn
    (Sample.org_info "High Street Surgery" "Active" "2024-01-01"
       Sample.practice_role
       [Sample.rel "A" "Active" "2020-01-01" (Some "2021-05-31");
        Sample.rel "B" "Active" "2021-06-01" None]) =
  get_current_pcn
    (Sample.org_info "High Street Surgery" "Active" "2024-01-01"
       Sample.practice_role
       [Sample.rel "B" "Active" "2021-06-01" None;
        Sample.rel "A" "Active" "2020-01-01" (Some "2021-05-31")]).
Proof.
  apply (get_current_pcn_order_irrelevant _ _
           [Sample.rel "A" "Active" "2020-01-01" (Some "2021-05-31");
            Sample.rel "B" "Active" "2021-06-01" None]
           [Sample.rel "B" "Active" "2021-06-01" None;
            Sample.rel "A" "Active" "2020-01-01" (Some "2021-05-31")]).
  - reflexivity.
  - reflexivity.
  - apply Permutation_swap.
  - repeat constructor; eexists; reflexivity.
  - intros r1 r2 H1 H2 C1 C2.
    apply list_elem_of_In in H1, H2. simpl in H1, H2.
    destruct H1 as [<-|[<-|[]]]; destruct H2 as [<-|[<-|[]]];
      try reflexivity; discriminate.
Defined.
